(** * Concurrentiecheck Westerbergen: price store, orchestrator and adapters

    A shallow embedding of the scraping and normalisation core
    (database.py, scrapers/base_scraper.py, scrapers/beerze_bulten.py,
    scrapers/holidayagent_scraper.py, scrapers/witter_zomer.py) together
    with the properties the design document states about it.

    Conventions of the embedding:
    - Python [str] is [string]; [int] is [Z]; [float] prices are rationals
      [Q] (no rounding is modelled, prices are only copied, added and
      compared with zero); [None] is [option].
    - A SQLite table with a UNIQUE constraint is a [gmap] from the unique
      tuple to the full row; the AUTOINCREMENT id is not represented.
    - The wall clock ([datetime.now()]) is an explicit argument of the
      operation that reads it; SQLite's built-in [julianday] is a section
      variable of the query that calls it. *)

From stdpp Require Import gmap strings list fin_maps sorting.
From Stdlib Require Import ZArith QArith Qround Lia Lqa Ascii DecimalString.

Close Scope Q_scope.
Local Open Scope Z_scope.

(* ================================================================== *)
(** * Python's [datetime]: the part the scrapers use                    *)
(* ================================================================== *)

Module PyDatetime.

(** A naive [datetime.datetime] value, as the object stores it. *)
Record datetime := mk_datetime {
  year : Z; month : Z; day : Z;
  hour : Z; minute : Z; second : Z; microsecond : Z
}.

Definition is_leap (y : Z) : bool :=
  (y mod 4 =? 0) && (negb (y mod 100 =? 0) || (y mod 400 =? 0)).

Definition days_in_month (y m : Z) : Z :=
  match m with
  | 1 => 31 | 2 => if is_leap y then 29 else 28 | 3 => 31 | 4 => 30
  | 5 => 31 | 6 => 30 | 7 => 31 | 8 => 31 | 9 => 30 | 10 => 31
  | 11 => 30 | _ => 31
  end.

(** Days in the months of year [y] that precede month [m]. *)
Definition days_before_month (y m : Z) : Z :=
  match m with
  | 1 => 0 | 2 => 31 | 3 => 59 | 4 => 90 | 5 => 120 | 6 => 151
  | 7 => 181 | 8 => 212 | 9 => 243 | 10 => 273 | 11 => 304 | _ => 334
  end + (if (2 <? m) && is_leap y then 1 else 0).

Definition days_before_year (y : Z) : Z :=
  let p := y - 1 in p * 365 + p / 4 - p / 100 + p / 400.

(** [date.toordinal()]: 0001-01-01 is day 1. *)
Definition ymd2ord (y m d : Z) : Z :=
  days_before_year y + days_before_month y m + d.

Definition MINYEAR : Z := 1.
Definition MAXYEAR : Z := 9999.
(** [date.max.toordinal()] *)
Definition MAXORDINAL : Z := 3652059.

(** The check the [date]/[datetime] constructors perform; a [false]
    here is the [ValueError] of the constructor. *)
Definition valid_ymd (y m d : Z) : bool :=
  (MINYEAR <=? y) && (y <=? MAXYEAR) && (1 <=? m) && (m <=? 12)
  && (1 <=? d) && (d <=? days_in_month y m).

(** [datetime(year, month, day)]: midnight of that day, or [None] for the
    [ValueError]. *)
Definition datetime_ymd (y m d : Z) : option datetime :=
  if valid_ymd y m d then Some (mk_datetime y m d 0 0 0 0) else None.

Definition toordinal (t : datetime) : Z := ymd2ord (year t) (month t) (day t).

(** Microseconds since midnight. *)
Definition time_of_day (t : datetime) : Z :=
  ((hour t * 60 + minute t) * 60 + second t) * 1000000 + microsecond t.

Definition usec_per_day : Z := 86400000000.

(** [(a - b).days]: a [timedelta] is normalised so that its seconds and
    microseconds are non-negative, hence [days] is the floor of the
    difference measured in days. *)
Definition sub_days (a b : datetime) : Z :=
  ((toordinal a - toordinal b) * usec_per_day
   + (time_of_day a - time_of_day b)) / usec_per_day.

(** [date.fromordinal(n)], the inverse of [ymd2ord] (CPython's
    [_ord2ymd]). *)
Definition ord2ymd (n : Z) : Z * Z * Z :=
  let n0 := n - 1 in
  let n400 := n0 / 146097 in let r400 := n0 mod 146097 in
  let n100 := r400 / 36524 in let r100 := r400 mod 36524 in
  let n4 := r100 / 1461 in let r4 := r100 mod 1461 in
  let n1 := r4 / 365 in let r1 := r4 mod 365 in
  let y := n400 * 400 + 1 + n100 * 100 + n4 * 4 + n1 in
  if (n1 =? 4) || (n100 =? 4) then (y - 1, 12, 31)
  else
    let m := Z.shiftr (r1 + 50) 5 in
    let preceding := days_before_month y m in
    if r1 <? preceding
    then (y, m - 1, r1 - days_before_month y (m - 1) + 1)
    else (y, m, r1 - preceding + 1).

Definition digit_char (d : Z) : ascii :=
  match d with
  | 0 => "0" | 1 => "1" | 2 => "2" | 3 => "3" | 4 => "4"
  | 5 => "5" | 6 => "6" | 7 => "7" | 8 => "8" | _ => "9"
  end%char.

(** ["%02d"], ["%04d"] and ["%06d"] on numbers that fit the width. *)
Definition dec2 (n : Z) : string :=
  String (digit_char (n / 10 mod 10)) (String (digit_char (n mod 10)) "").
Definition dec4 (n : Z) : string := dec2 (n / 100) +:+ dec2 (n mod 100).
Definition dec6 (n : Z) : string := dec4 (n / 100) +:+ dec2 (n mod 100).

Definition format_ymd (y m d : Z) : string :=
  dec4 y +:+ "-" +:+ dec2 m +:+ "-" +:+ dec2 d.

(** [t.strftime("%Y-%m-%d")] (years are printed with four digits, as
    they are for every year from 1000 on). *)
Definition strftime_ymd (t : datetime) : string :=
  format_ymd (year t) (month t) (day t).

(** [t.isoformat()]: the fraction is printed only when it is not zero. *)
Definition isoformat (t : datetime) : string :=
  strftime_ymd t +:+ "T" +:+ dec2 (hour t) +:+ ":" +:+ dec2 (minute t) +:+ ":"
  +:+ dec2 (second t)
  +:+ (if microsecond t =? 0 then "" else "." +:+ dec6 (microsecond t)).

(** A [datetime.date] is represented by its proleptic Gregorian ordinal
    ([date.toordinal()]); the operations below are the ones the date
    window generator applies to it. *)
Definition date := Z.

(** [d + timedelta(days=n)]; [None] is the [OverflowError] raised when
    the result leaves [date.min .. date.max]. *)
Definition date_add_days (d : date) (n : Z) : option date :=
  if (1 <=? d + n) && (d + n <=? MAXORDINAL) then Some (d + n) else None.

(** [d.weekday()]: Monday is 0. *)
Definition weekday (d : date) : Z := (d + 6) mod 7.

(** [(a - b).days] on dates. *)
Definition date_sub_days (a b : date) : Z := a - b.

(** [d.isoformat()] *)
Definition date_isoformat (d : date) : string :=
  let '(y, m, dd) := ord2ymd d in format_ymd y m dd.

(** ** Text input *)

Definition digit_val (c : ascii) : option Z :=
  let n := Z.of_nat (nat_of_ascii c) in
  if (48 <=? n) && (n <=? 57) then Some (n - 48) else None.

Definition is_digit (c : ascii) : bool := bool_decide (is_Some (digit_val c)).

(** [int] on a run of decimal digits, most significant first; [acc] is
    the value of the digits read so far. *)
Fixpoint int_of_digits (acc : Z) (l : list ascii) : Z :=
  match l with
  | [] => acc
  | c :: l' => int_of_digits (10 * acc + default 0 (digit_val c)) l'
  end.

(** The text before the first ["-"] and the text after it. *)
Fixpoint split_dash (l : list ascii) : option (list ascii * list ascii) :=
  match l with
  | [] => None
  | c :: l' =>
      if Ascii.eqb c "-" then Some ([], l')
      else '(a, b) ← split_dash l'; Some (c :: a, b)
  end.

(** The directive [%d]: [3[0-1]|[1-2]\d|0[1-9]|[1-9]| [1-9]]. *)
Definition parse_pct_d (l : list ascii) : option Z :=
  match l with
  | [a; b] =>
      match digit_val a, digit_val b with
      | Some x, Some y =>
          let v := 10 * x + y in
          if (1 <=? v) && (v <=? 31) then Some v else None
      | None, Some y =>
          if Ascii.eqb a " " && (1 <=? y) then Some y else None
      | _, _ => None
      end
  | [a] => y ← digit_val a; if 1 <=? y then Some y else None
  | _ => None
  end.

(** The directive [%m]: [1[0-2]|0[1-9]|[1-9]]. *)
Definition parse_pct_m (l : list ascii) : option Z :=
  match l with
  | [a; b] =>
      x ← digit_val a; y ← digit_val b;
      let v := 10 * x + y in
      if (1 <=? v) && (v <=? 12) then Some v else None
  | [a] => y ← digit_val a; if 1 <=? y then Some y else None
  | _ => None
  end.

(** The directive [%Y]: four digits. *)
Definition parse_pct_Y (l : list ascii) : option Z :=
  match l with
  | [a; b; c; d] =>
      if forallb is_digit l then Some (int_of_digits 0 l) else None
  | _ => None
  end.

(** [datetime.strptime(s, "%d-%m-%Y")] on ASCII text; [None] is the
    [ValueError]. *)
Definition strptime_dmy (s : string) : option datetime :=
  '(d, rest) ← split_dash (String.list_ascii_of_string s);
  '(m, y) ← split_dash rest;
  day ← parse_pct_d d; month ← parse_pct_m m; year ← parse_pct_Y y;
  datetime_ymd year month day.

(** [t + timedelta(days=n)] followed by [strftime("%Y-%m-%d")]. *)
Definition strftime_ymd_plus_days (t : datetime) (n : Z) : string :=
  date_isoformat (toordinal t + n).

End PyDatetime.


(* ================================================================== *)
(** * Python built-ins shared by the modules                            *)
(* ================================================================== *)

Module PyBuiltins.

(** Insertion of [x] in front of the first element that is not below it. *)
Fixpoint insert_by {A} (leb : A -> A -> bool) (x : A) (l : list A) : list A :=
  match l with
  | [] => [x]
  | y :: l' => if leb x y then x :: y :: l' else y :: insert_by leb x l'
  end.

(** [sorted(l, key=...)] and SQL's [ORDER BY]: a stable sort, equal
    elements keep their order. The result of a stable sort does not
    depend on the algorithm. *)
Definition sort_by {A} (leb : A -> A -> bool) (l : list A) : list A :=
  foldr (insert_by leb) [] l.

(** [d.get(k)] / [d[k]] on a dict given by its items in insertion order;
    [None] is the missing key. *)
Fixpoint dict_get {V} (k : string) (d : list (string * V)) : option V :=
  match d with
  | [] => None
  | (k', v) :: d' => if String.eqb k k' then Some v else dict_get k d'
  end.

(** Truth value of an optional number: [None] and zero are false. *)
Definition truthy (x : option Q) : bool :=
  match x with
  | Some q => negb (Qeq_bool q 0)
  | None => false
  end.

Definition Qlt_bool (a b : Q) : bool := negb (Qle_bool b a).

(** [str] on an integer. *)
Definition str_of_Z (n : Z) : string :=
  DecimalString.NilZero.string_of_int (Z.to_int n).

(** Rounding to the nearest integer, halves to the even one. *)
Definition round_half_even (q : Q) : Z :=
  let f := Qfloor q in
  let r := (q - inject_Z f)%Q in
  if Qlt_bool r (1 # 2) then f
  else if Qlt_bool (1 # 2) r then f + 1
  else if Z.even f then f else f + 1.

(** [f"{x:.0f}"] *)
Definition format_0f (x : Q) : string :=
  if Qlt_bool x 0 then "-" +:+ str_of_Z (round_half_even (- x)%Q)
  else str_of_Z (round_half_even x).

(** The longest prefix whose elements satisfy [p], and what follows it. *)
Fixpoint take_while {A} (p : A -> bool) (l : list A) : list A :=
  match l with
  | x :: l' => if p x then x :: take_while p l' else []
  | [] => []
  end.

Fixpoint drop_while {A} (p : A -> bool) (l : list A) : list A :=
  match l with
  | x :: l' => if p x then drop_while p l' else l
  | [] => []
  end.

(** The code points of a [str] written with ASCII characters. *)
Definition code_points (s : string) : list Z :=
  (λ c, Z.of_nat (nat_of_ascii c)) <$> String.list_ascii_of_string s.

(** [d.get(k)] for a [str] given by its code points, in a [dict] whose
    keys are ASCII texts. *)
Fixpoint dict_get_text {V} (k : list Z) (d : list (string * V)) : option V :=
  match d with
  | [] => None
  | (k', v) :: d' =>
      if bool_decide (k = code_points k') then Some v else dict_get_text k d'
  end.

End PyBuiltins.

(* ================================================================== *)
(** * database.py                                                       *)
(* ================================================================== *)

Module Database.
Import PyDatetime PyBuiltins.

(** UNIQUE(competitor_name, check_in_date, check_out_date, scrape_date):
    the columns that identify a row of table [prices]. *)
Abbreviation prices_key := (string * string * string * string)%type.

(** The other columns of a row of table [prices]. *)
Record prices_cols := mk_prices_cols {
  accommodation_type : string;
  price : option Q;
  available : bool;
  min_nights : option Z;
  special_offers : option string;
  persons : Z;
  scrape_timestamp : string
}.

(** A row: its identifying columns and the others. *)
Abbreviation prices_row := (prices_key * prices_cols)%type.

Definition competitor_name (r : prices_row) : string := r.1.1.1.1.
Definition check_in_date (r : prices_row) : string := r.1.1.1.2.
Definition check_out_date (r : prices_row) : string := r.1.1.2.
Definition scrape_date (r : prices_row) : string := r.1.2.

(** One row of table [scrape_log]. *)
Record scrape_log_row := mk_scrape_log_row {
  log_competitor_name : string;
  log_timestamp : string;
  log_status : string;
  log_records_scraped : Z;
  log_error_message : option string;
  log_duration_seconds : option Q
}.

(** The database file: both tables. *)
Record db := mk_db {
  prices : gmap prices_key prices_cols;
  scrape_log : list scrape_log_row
}.

Definition empty_db : db := mk_db ∅ [].

(** The [DO UPDATE SET] clause: [old] is the stored row ([prices.x]),
    [excluded] the row proposed for insertion ([excluded.x]). The clause
    assigns none of the identifying columns. *)
Definition do_update (old excluded : prices_cols) : prices_cols :=
  {| price := match price excluded with
              | Some p => Some p
              | None => price old
              end;
     available := match price excluded with
                  | Some _ => available excluded
                  | None => available old
                  end;
     min_nights := min_nights excluded;
     special_offers := special_offers excluded;
     accommodation_type := accommodation_type excluded;
     persons := persons excluded;
     scrape_timestamp := scrape_timestamp excluded |}.

(** [INSERT ... ON CONFLICT(...) DO UPDATE SET ...] *)
Definition insert_on_conflict (k : prices_key) (excluded : prices_cols)
    (tbl : gmap prices_key prices_cols) : gmap prices_key prices_cols :=
  match tbl !! k with
  | None => <[k := excluded]> tbl
  | Some old => <[k := do_update old excluded]> tbl
  end.

(** [save_price]. [now] is the value [datetime.now()] returns in the
    call; every other argument is an argument of the method. *)
Definition save_price (now : datetime)
    (competitor_name accommodation_type check_in_date check_out_date : string)
    (price : option Q) (available : bool) (min_nights : option Z)
    (special_offers : option string) (persons : Z) (d : db) : db :=
  mk_db
    (insert_on_conflict
       (competitor_name, check_in_date, check_out_date, strftime_ymd now)
       (mk_prices_cols accommodation_type price available min_nights
          special_offers persons (isoformat now))
       (prices d))
    (scrape_log d).

(** [log_scrape]: one [INSERT] into [scrape_log]. *)
Definition log_scrape (now : datetime) (competitor_name status : string)
    (records_scraped : Z) (error_message : option string)
    (duration_seconds : option Q) (d : db) : db :=
  mk_db (prices d)
    (scrape_log d ++
       [mk_scrape_log_row competitor_name (isoformat now) status
          records_scraped error_message duration_seconds]).

(** ** [get_comparison_data] *)

(** A row of the result set. *)
Record comparison_row := mk_comparison_row {
  cmp_competitor_name : string;
  cmp_accommodation_type : string;
  cmp_check_in_date : string;
  cmp_check_out_date : string;
  cmp_price : option Q;
  cmp_available : bool;
  cmp_special_offers : option string;
  cmp_nights : option Z
}.

(** SQLite's [ROUND(x)]: to the nearest integer, halves away from zero. *)
Definition sql_round (x : Q) : Z :=
  if Qle_bool 0 x then Qfloor (x + (1 # 2))%Q else - Qfloor (- x + (1 # 2))%Q.

(** Text comparison under the BINARY collation. *)
Definition string_leb (a b : string) : bool :=
  match String.compare a b with Gt => false | _ => true end.

(** [ORDER BY check_in_date, competitor_name] *)
Definition order_leb (a b : comparison_row) : bool :=
  match String.compare (cmp_check_in_date a) (cmp_check_in_date b) with
  | Lt => true
  | Gt => false
  | Eq => string_leb (cmp_competitor_name a) (cmp_competitor_name b)
  end.

Section Query.
(** SQLite's built-in [julianday] on a TEXT value; [None] is NULL. *)
Variable julianday : string -> option Q.

(** [CAST(ROUND(julianday(check_out_date) - julianday(check_in_date))
    AS INTEGER)] *)
Definition nights_of (r : prices_row) : option Z :=
  match julianday (check_out_date r), julianday (check_in_date r) with
  | Some o, Some i => Some (sql_round (o - i)%Q)
  | _, _ => None
  end.

(** The WHERE clause. A NULL night count makes [IN] NULL, which does
    not select the row. *)
Definition where_clause (day : string) (durations : list Z)
    (r : prices_row) : bool :=
  bool_decide (scrape_date r = day)
  && bool_decide (is_Some (price r.2))
  && match nights_of r with
     | Some n => bool_decide (n ∈ durations)
     | None => false
     end.

Definition select_columns (r : prices_row) : comparison_row :=
  mk_comparison_row (competitor_name r) (accommodation_type r.2)
    (check_in_date r) (check_out_date r) (price r.2) (available r.2)
    (special_offers r.2) (nights_of r).

Definition get_comparison_data (day : string) (durations : option (list Z))
    (d : db) : list comparison_row :=
  let durations := match durations with
                   | None => [2; 3; 4; 7]
                   | Some l => l
                   end in
  sort_by order_leb
    (select_columns <$>
       filter (λ r, where_clause day durations r = true)
         (map_to_list (prices d))).
End Query.

(** An instance of [julianday] for the examples: the Julian day number of
    a text [YYYY-MM-DD] that denotes a calendar date (the form every
    writer of this repository produces), NULL on any other text. *)
Definition julianday_date_only (s : string) : option Q :=
  match String.list_ascii_of_string s with
  | [y1; y2; y3; y4; d1; m1; m2; d2; a; b] =>
      if Ascii.eqb d1 "-" && Ascii.eqb d2 "-"
         && forallb is_digit [y1; y2; y3; y4; m1; m2; a; b]
      then
        let y := int_of_digits 0 [y1; y2; y3; y4] in
        let m := int_of_digits 0 [m1; m2] in
        let d := int_of_digits 0 [a; b] in
        if valid_ymd y m d
        then Some (inject_Z (ymd2ord y m d) + (3442849 # 2))%Q
        else None
      else None
  | _ => None
  end.

(** ** The other read paths *)

(** The rows of table [prices]. *)
Definition rows (d : db) : list prices_row := map_to_list (prices d).

(** The truth value of an optional [str] argument, as [if x:] takes it:
    [None] and the empty string add no condition to the query. *)
Definition given (x : option string) : option string :=
  match x with
  | Some s => if String.eqb s "" then None else Some s
  | None => None
  end.

(** The order of two pairs of TEXT values, first components first. *)
Definition text_pair_leb (a b : string * string) : bool :=
  match String.compare a.1 b.1 with
  | Lt => true
  | Gt => false
  | Eq => string_leb a.2 b.2
  end.

(** [ORDER BY check_in_date, competitor_name] on rows of [prices]. *)
Definition prices_order_leb (a b : prices_row) : bool :=
  text_pair_leb (check_in_date a, competitor_name a)
    (check_in_date b, competitor_name b).

(** The WHERE clause [get_prices] builds; each argument is the value
    bound to the condition, [None] when the condition is left out. *)
Definition get_prices_where (competitor check_in_from check_in_to day : option string)
    (r : prices_row) : bool :=
  match competitor with
  | Some c => bool_decide (competitor_name r = c)
  | None => true
  end
  && match check_in_from with
     | Some f => string_leb f (check_in_date r)
     | None => true
     end
  && match check_in_to with
     | Some t => string_leb (check_in_date r) t
     | None => true
     end
  && match day with
     | Some s => bool_decide (scrape_date r = s)
     | None => true
     end.

(** [get_prices] *)
Definition get_prices
    (competitor_name check_in_from check_in_to scrape_date : option string)
    (d : db) : list prices_row :=
  sort_by prices_order_leb
    (filter
       (λ r, get_prices_where (given competitor_name) (given check_in_from)
               (given check_in_to) (given scrape_date) r = true)
       (rows d)).

(** [MAX] over TEXT values; [None] is the NULL of no value. *)
Definition max_text (l : list string) : option string :=
  foldr (λ s acc,
           match acc with
           | None => Some s
           | Some m => if string_leb m s then Some s else Some m
           end) None l.

(** Two rows are of the same group of
    [GROUP BY competitor_name, check_in_date, check_out_date]. *)
Definition same_stay (a b : prices_row) : bool :=
  bool_decide (competitor_name a = competitor_name b
               /\ check_in_date a = check_in_date b
               /\ check_out_date a = check_out_date b).

(** [max_ts] of the group of [r] in the subquery [latest]. *)
Definition max_ts (tbl : list prices_row) (r : prices_row) : option string :=
  max_text
    ((λ r' : prices_row, scrape_timestamp r'.2)
       <$> filter (λ r', same_stay r r' = true) tbl).

Definition latest_where (tbl : list prices_row) (competitor : option string)
    (r : prices_row) : bool :=
  bool_decide (max_ts tbl r = Some (scrape_timestamp r.2))
  && match competitor with
     | Some c => bool_decide (competitor_name r = c)
     | None => true
     end.

(** [get_latest_prices] *)
Definition get_latest_prices (competitor_name : option string) (d : db)
    : list prices_row :=
  sort_by prices_order_leb
    (filter (λ r, latest_where (rows d) (given competitor_name) r = true)
       (rows d)).

Definition history_where (competitor check_in : string) (r : prices_row)
    : bool :=
  bool_decide (competitor_name r = competitor /\ check_in_date r = check_in).

(** [ORDER BY scrape_timestamp] *)
Definition timestamp_leb (a b : prices_row) : bool :=
  string_leb (scrape_timestamp a.2) (scrape_timestamp b.2).

(** [get_price_history] *)
Definition get_price_history (competitor_name check_in_date : string) (d : db)
    : list prices_row :=
  sort_by timestamp_leb
    (filter (λ r, history_where competitor_name check_in_date r = true)
       (rows d)).

(** [get_latest_scrape_date]: the aggregate query returns one row, whose
    only column is NULL for an empty table. *)
Definition get_latest_scrape_date (d : db) : option string :=
  max_text (scrape_date <$> rows d).

(** [ORDER BY scrape_date DESC] *)
Definition text_geb (a b : string) : bool := string_leb b a.

(** [get_all_scrape_dates] *)
Definition get_all_scrape_dates (d : db) : list string :=
  sort_by text_geb (remove_dups (scrape_date <$> rows d)).

Section Summary.
(** SQLite's built-in [DATE] on a TEXT value; [None] is NULL. *)
Variable sql_date : string -> option string.

(** The rows the subquery [latest] of [get_scrape_summary] groups for one
    competitor: its log rows of the given day. *)
Definition log_of_day (date competitor : string) (log : list scrape_log_row)
    : list scrape_log_row :=
  filter (λ r, log_competitor_name r = competitor
               /\ sql_date (log_timestamp r) = Some date) log.

Definition log_max_ts (date competitor : string) (log : list scrape_log_row)
    : option string :=
  max_text (log_timestamp <$> log_of_day date competitor log).

Definition log_name_leb (a b : scrape_log_row) : bool :=
  string_leb (log_competitor_name a) (log_competitor_name b).

(** The rows of the joined query, in the order of
    [ORDER BY sl.competitor_name]. *)
Definition summary_rows (date : string) (log : list scrape_log_row)
    : list scrape_log_row :=
  sort_by log_name_leb
    (filter (λ r, log_max_ts date (log_competitor_name r) log
                  = Some (log_timestamp r)) log).

(** [get_scrape_summary]: the dict comprehension over the rows; a later
    row of the same competitor replaces an earlier one. [now] is read
    when no date is given. *)
Definition get_scrape_summary (now : datetime) (date : option string) (d : db)
    : gmap string scrape_log_row :=
  let date := default (strftime_ymd now) date in
  foldl (λ m r, <[log_competitor_name r := r]> m) ∅
    (summary_rows date (scrape_log d)).
End Summary.

(** An instance of [DATE] for the examples: the date part of a text
    [YYYY-MM-DDTHH:MM:SS...] as [isoformat] writes it, NULL on a text
    that does not start with a calendar date followed by [T]. *)
Definition sql_date_of_isoformat (s : string) : option string :=
  let day := String.substring 0 10 s in
  match julianday_date_only day, String.get 10 s with
  | Some _, Some c => if Ascii.eqb c "T" then Some day else None
  | _, _ => None
  end.

End Database.

(* ================================================================== *)
(** * scrapers/base_scraper.py                                          *)
(* ================================================================== *)

Module BaseScraper.
Import PyDatetime PyBuiltins Database.

(** The constructor arguments kept on the scraper object. *)
Record scraper := mk_scraper {
  self_competitor_name : string;
  self_accommodation_type : string;
  self_url : string;
  self_rate_limit : Q;
  self_max_retries : Z
}.

(** The keyword arguments of [save_price], as the scrapers build them. *)
Record record := mk_record {
  rec_competitor_name : string;
  rec_accommodation_type : string;
  rec_check_in_date : string;
  rec_check_out_date : string;
  rec_price : option Q;
  rec_available : bool;
  rec_min_nights : option Z;
  rec_special_offers : option string;
  rec_persons : Z
}.

(** ** [generate_check_dates] *)

(** A value of the [stay_types] mapping. *)
Record stay_config := mk_stay_config {
  cfg_check_in_day : string;
  cfg_nights : Z
}.

(** An element of the returned list. *)
Record date_window := mk_date_window {
  check_in : date;
  check_out : date;
  stay_type : string;
  nights : Z
}.

Definition default_days_ahead_list : list Z := [7; 14; 21; 30; 45; 60; 90].

Definition default_stay_types : list (string * stay_config) :=
  [("weekend", mk_stay_config "friday" 2);
   ("midweek", mk_stay_config "monday" 4);
   ("week", mk_stay_config "friday" 7)].

Definition day_map : list (string * Z) :=
  [("monday", 0); ("tuesday", 1); ("wednesday", 2); ("thursday", 3);
   ("friday", 4); ("saturday", 5); ("sunday", 6)].

(** The body of the inner loop; [None] is a raised exception
    ([KeyError] of [day_map], [OverflowError] of the date arithmetic). *)
Definition make_window (target : date) (stay : string * stay_config)
    : option date_window :=
  target_day ← dict_get (cfg_check_in_day stay.2) day_map;
  let days_until := (target_day - weekday target) mod 7 in
  ci ← date_add_days target days_until;
  co ← date_add_days ci (cfg_nights stay.2);
  Some (mk_date_window ci co stay.1 (cfg_nights stay.2)).

(** The inner loop for one [target]. *)
Fixpoint windows_for (target : date) (stays : list (string * stay_config))
    : option (list date_window) :=
  match stays with
  | [] => Some []
  | s :: stays' =>
      w ← make_window target s;
      ws ← windows_for target stays';
      Some (w :: ws)
  end.

(** The outer loop: the list [dates] in the order of the appends. *)
Fixpoint all_windows (today : date) (days_ahead_list : list Z)
    (stays : list (string * stay_config)) : option (list date_window) :=
  match days_ahead_list with
  | [] => Some []
  | days_ahead :: rest =>
      target ← date_add_days today days_ahead;
      ws ← windows_for target stays;
      ws' ← all_windows today rest stays;
      Some (ws ++ ws')
  end.

(** The deduplication loop with its [seen] set. *)
Fixpoint remove_duplicates (seen : gset (date * date)) (dates : list date_window)
    : list date_window :=
  match dates with
  | [] => []
  | d :: dates' =>
      let key := (check_in d, check_out d) in
      if decide (key ∈ seen) then remove_duplicates seen dates'
      else d :: remove_duplicates ({[key]} ∪ seen) dates'
  end.

Definition check_in_leb (a b : date_window) : bool := check_in a <=? check_in b.

(** [generate_check_dates]; [today] is [datetime.now().date()]. *)
Definition generate_check_dates (today : date)
    (days_ahead_list : option (list Z))
    (stay_types : option (list (string * stay_config)))
    : option (list date_window) :=
  let days_ahead_list := default default_days_ahead_list days_ahead_list in
  let stay_types := default default_stay_types stay_types in
  dates ← all_windows today days_ahead_list stay_types;
  Some (sort_by check_in_leb (remove_duplicates ∅ dates)).

(** ** The state the orchestrators act on *)

(** The database, the position on the clock (how many readings have been
    taken so far) and the limiter's field of the scraper object. *)
Record world := mk_world {
  w_db : db;
  w_ticks : nat;
  w_last_request_time : Q;
  (** the arguments of the [time.sleep] calls of the limiter, latest last *)
  w_sleeps : list Q
}.

(** What one call of the abstract method [scrape_price] does. *)
Record result_dict := mk_result_dict {
  res_price : option Q;
  (** [None]: the key is absent *)
  res_available : option bool;
  res_min_nights : option Z;
  res_special_offers : option string
}.

Inductive outcome :=
  | Returned (r : option result_dict)  (* [None]: scraping failed entirely *)
  | RaisedTimeout                       (* PlaywrightTimeout *)
  | RaisedError.                        (* any other Exception *)

(** The local variables of [run]. *)
Record run_locals := mk_run_locals {
  results : list record;
  errors : Z;
  (** the calls of [scrape_price] so far, as (window index, attempt),
      latest last *)
  calls : list (nat * nat);
  (** pages created so far *)
  pages : nat
}.

Section Environment.
(** The values the successive calls of [datetime.now()] and
    [time.time()] return. *)
Variable now_at : nat -> datetime.
Variable time_at : nat -> Q.
(** The behaviour of [scrape_price] at the given attempt for the window
    at the given index of [dates]. *)
Variable scrape_price : nat -> nat -> outcome.

Definition time_time (w : world) : Q * world :=
  (time_at (w_ticks w),
   mk_world (w_db w) (S (w_ticks w)) (w_last_request_time w) (w_sleeps w)).

(** [_wait_rate_limit] *)
Definition _wait_rate_limit (self : scraper) (w : world) : world :=
  let '(t, w) := time_time w in
  let elapsed := (t - w_last_request_time w)%Q in
  let w :=
    if Qlt_bool elapsed (self_rate_limit self)
    then mk_world (w_db w) (w_ticks w) (w_last_request_time w)
           (w_sleeps w ++ [(self_rate_limit self - elapsed)%Q])
    else w in
  let '(t', w) := time_time w in
  mk_world (w_db w) (w_ticks w) t' (w_sleeps w).

(** [self.db.save_price] applied to the fields of [record] *)
Definition db_save_price (r : record) (w : world) : world :=
  mk_world
    (save_price (now_at (w_ticks w)) (rec_competitor_name r)
       (rec_accommodation_type r) (rec_check_in_date r)
       (rec_check_out_date r) (rec_price r) (rec_available r)
       (rec_min_nights r) (rec_special_offers r) (rec_persons r) (w_db w))
    (S (w_ticks w)) (w_last_request_time w) (w_sleeps w).

(** [self.db.log_scrape(...)] *)
Definition db_log_scrape (competitor_name status : string)
    (records_scraped : Z) (error_message : option string)
    (duration_seconds : option Q) (w : world) : world :=
  mk_world
    (log_scrape (now_at (w_ticks w)) competitor_name status records_scraped
       error_message duration_seconds (w_db w))
    (S (w_ticks w)) (w_last_request_time w) (w_sleeps w).

(** The record [run] builds from a result of [scrape_price]. *)
Definition record_of_result (self : scraper) (d : date_window)
    (persons : Z) (result : result_dict) : record :=
  mk_record (self_competitor_name self) (self_accommodation_type self)
    (date_isoformat (check_in d)) (date_isoformat (check_out d))
    (res_price result) (default true (res_available result))
    (res_min_nights result) (res_special_offers result) persons.

Definition count_failure (self : scraper) (attempt : nat) (l : run_locals)
    : run_locals :=
  if Z.of_nat attempt =? self_max_retries self
  then mk_run_locals (results l) (errors l + 1) (calls l) (pages l)
  else l.

(** The loop [for attempt in range(1, self.max_retries + 1)] for the
    window [d] at index [i], run over the attempt numbers that remain. *)
Fixpoint attempt_loop (self : scraper) (persons : Z) (i : nat)
    (d : date_window) (attempts : list nat) (s : world * run_locals)
    : world * run_locals :=
  match attempts with
  | [] => s
  | attempt :: rest =>
      let w := _wait_rate_limit self s.1 in
      let l := mk_run_locals (results s.2) (errors s.2)
                 (calls s.2 ++ [(i, attempt)]) (pages s.2) in
      match scrape_price i attempt with
      | Returned (Some result) =>
          let r := record_of_result self d persons result in
          (db_save_price r w,
           mk_run_locals (results l ++ [r]) (errors l) (calls l) (pages l))
      | Returned None => attempt_loop self persons i d rest (w, l)
      | RaisedTimeout =>
          attempt_loop self persons i d rest (w, count_failure self attempt l)
      | RaisedError =>
          let l := count_failure self attempt l in
          attempt_loop self persons i d rest
            (w, mk_run_locals (results l) (errors l) (calls l) (S (pages l)))
      end
  end.

(** [range(1, self.max_retries + 1)] *)
Definition attempt_range (self : scraper) : list nat :=
  seq 1 (Z.to_nat (self_max_retries self)).

(** The loop [for date_info in dates], from index [i] on. *)
Fixpoint window_loop (self : scraper) (persons : Z) (i : nat)
    (dates : list date_window) (s : world * run_locals)
    : world * run_locals :=
  match dates with
  | [] => s
  | d :: dates' =>
      window_loop self persons (S i) dates'
        (attempt_loop self persons i d (attempt_range self) s)
  end.

Definition run_status (errors : Z) (results : list record) : string :=
  if errors =? 0 then "success"
  else match results with
       | _ :: _ => "partial"
       | [] => "failed"
       end.

(** The part of [run] that precedes the classification: the clock read
    for [start_time], then the windows processed. *)
Definition run_windows (self : scraper) (dates : list date_window)
    (persons : Z) (w : world) : world * run_locals :=
  window_loop self persons 0 dates
    ((time_time w).2, mk_run_locals [] 0 [] 1).

(** [run], with an explicit list of windows. The browser and the pages
    are assumed to be created without an exception and the statements
    of the store to succeed, so that the run reaches its end. *)
Definition run (self : scraper) (dates : list date_window) (persons : Z)
    (w : world) : list record * world :=
  let start_time := (time_time w).1 in
  let '(w, l) := run_windows self dates persons w in
  let '(end_time, w) := time_time w in
  let duration := (end_time - start_time)%Q in
  let status := run_status (errors l) (results l) in
  let w :=
    db_log_scrape (self_competitor_name self) status
      (Z.of_nat (length (results l)))
      (if errors l =? 0 then None
       else Some (str_of_Z (errors l) +:+ " date(s) failed"))
      (Some duration) w in
  (results l, w).
End Environment.

End BaseScraper.

(* ================================================================== *)
(** * scrapers/beerze_bulten.py: [_resolve_date]                        *)
(* ================================================================== *)

Module BeerzeBultenScraper.
Import PyDatetime PyBuiltins.

Definition month_map : list (string * Z) :=
  [("jan", 1); ("feb", 2); ("mrt", 3); ("apr", 4); ("mei", 5); ("jun", 6);
   ("jul", 7); ("aug", 8); ("sep", 9); ("okt", 10); ("nov", 11); ("dec", 12)].

(** A [str] is the list of its code points. The tables below are those
    of CPython 3.11 (Unicode 14.0). *)

(** [\s] in a [str] pattern: the code points for which [str.isspace]
    holds. *)
Definition is_space (c : Z) : bool :=
  ((9 <=? c) && (c <=? 13)) || ((28 <=? c) && (c <=? 32))
  || (c =? 133) || (c =? 160) || (c =? 5760)
  || ((8192 <=? c) && (c <=? 8202))
  || (c =? 8232) || (c =? 8233) || (c =? 8239) || (c =? 8287)
  || (c =? 12288).

(** The code points of the digits zero of the scripts; the digits one to
    nine of a script follow its zero. *)
Definition decimal_zeros : list Z :=
  [48; 1632; 1776; 1984; 2406; 2534; 2662; 2790; 2918; 3046; 3174; 3302;
   3430; 3558; 3664; 3792; 3872; 4160; 4240; 6112; 6160; 6470; 6608; 6784;
   6800; 6992; 7088; 7232; 7248; 42528; 43216; 43264; 43472; 43504; 43600;
   44016; 65296; 66720; 68912; 69734; 69872; 69942; 70096; 70384; 70736;
   70864; 71248; 71360; 71472; 71904; 72016; 72784; 73040; 73120; 92768;
   92864; 93008; 120782; 120792; 120802; 120812; 120822; 123200; 123632;
   125264; 130032].

(** The value of a decimal digit (general category Nd), [None] for any
    other code point. *)
Definition decimal_val (c : Z) : option Z :=
  (λ zero, c - zero)
    <$> head (filter (λ zero, zero <= c <= zero + 9) decimal_zeros).

(** [\d] in a [str] pattern. *)
Definition is_decimal (c : Z) : bool := bool_decide (is_Some (decimal_val c)).

(** A lower-case letter of the pattern under IGNORECASE: it matches
    itself, its capital and, for [i], [k] and [s], the code points
    U+0130, U+0131, U+212A and U+017F. *)
Definition ignorecase_eq (p c : Z) : bool :=
  (c =? p) || (c =? p - 32)
  || ((p =? 105) && ((c =? 304) || (c =? 305)))
  || ((p =? 107) && (c =? 8490))
  || ((p =? 115) && (c =? 383)).

(** The alternatives of the month group of the pattern. *)
Definition month_alternatives : list string :=
  ["jan"; "feb"; "mrt"; "apr"; "mei"; "jun"; "jul"; "aug"; "sep"; "okt";
   "nov"; "dec"].

(** One alternative of [(jan|feb|...|dec)] against three code points. *)
Definition matches_month (a b c : Z) (key : string) : bool :=
  match code_points key with
  | [x; y; z] => ignorecase_eq x a && ignorecase_eq y b && ignorecase_eq z c
  | _ => false
  end.

(** The tail of the pattern, tried after a run of digits:
    [\s+(jan|feb|...|dec)] under IGNORECASE; the result is the text of
    the month group. *)
Definition match_space_month (l : list Z) : option (list Z) :=
  match l with
  | c :: _ =>
      if is_space c then
        match drop_while is_space l with
        | a :: b :: c' :: _ =>
            if existsb (matches_month a b c') month_alternatives
            then Some [a; b; c'] else None
        | _ => None
        end
      else None
  | [] => None
  end.

(** [re.search(r'(\d+)\s+(jan|...|dec)', date_header, re.IGNORECASE)]:
    the leftmost position at which the pattern matches; the digits group
    takes the whole run of digits that starts there. The result is
    [(match.group(1), match.group(2))]. *)
Fixpoint search_day_month (l : list Z) : option (list Z * list Z) :=
  match l with
  | [] => None
  | c :: l' =>
      if is_decimal c then
        match match_space_month (drop_while is_decimal l) with
        | Some group => Some (take_while is_decimal l, group)
        | None => search_day_month l'
        end
      else search_day_month l'
  end.

(** [sys.get_int_max_str_digits()], by default. *)
Definition int_max_str_digits : Z := 4300.

(** [int(s)] on a run of decimal digits, most significant first;
    [None] is the [ValueError] for a text of more than 4300 digits. *)
Definition int_of_decimals (l : list Z) : option Z :=
  if int_max_str_digits <? Z.of_nat (length l) then None
  else Some (foldl (λ acc c, 10 * acc + default 0 (decimal_val c)) 0 l).

(** [str.lower] on one code point, for the code points the month group
    can hold. *)
Definition lower (c : Z) : list Z :=
  if (65 <=? c) && (c <=? 90) then [c + 32]
  else if c =? 304 then [105; 775]
  else if c =? 8490 then [107]
  else [c].

(** [s.lower()] *)
Definition str_lower (s : list Z) : list Z := s ≫= lower.

(** What the constructor [datetime(year, month, day)] does with [int]
    arguments: an argument that does not fit a C [int] is an
    [OverflowError], any other argument out of range a [ValueError]. *)
Inductive constructed :=
  | Built (t : datetime)
  | ValueError
  | OverflowError.

Definition fits_c_int (n : Z) : bool :=
  (- 2147483648 <=? n) && (n <=? 2147483647).

Definition datetime_new (y m d : Z) : constructed :=
  if fits_c_int y && fits_c_int m && fits_c_int d then
    match datetime_ymd y m d with
    | Some t => Built t
    | None => ValueError
    end
  else OverflowError.

(** What a piece of code does: it ends with a value, or an exception
    leaves it. *)
Inductive resolution (A : Type) :=
  | Returns (a : A)
  | Raises.
Arguments Returns {A} a.
Arguments Raises {A}.

(** One iteration of [for year in [ref.year, ref.year + 1]]; only the
    [ValueError] is caught. *)
Definition consider (ref : datetime) (month day : Z)
    (best : option (datetime * Z)) (year : Z)
    : resolution (option (datetime * Z)) :=
  match datetime_new year month day with
  | Built candidate =>
      let diff := Z.abs (sub_days candidate ref) in
      match best with
      | None => Returns (Some (candidate, diff))
      | Some (_, best_diff) =>
          if diff <? best_diff then Returns (Some (candidate, diff))
          else Returns best
      end
  | ValueError => Returns best
  | OverflowError => Raises
  end.

(** The loop over the years that remain. *)
Fixpoint years_loop (ref : datetime) (month day : Z) (years : list Z)
    (best : option (datetime * Z)) : resolution (option (datetime * Z)) :=
  match years with
  | [] => Returns best
  | year :: rest =>
      match consider ref month day best year with
      | Returns best' => years_loop ref month day rest best'
      | Raises => Raises
      end
  end.

(** The candidate the loop ends with, and its distance. *)
Definition best_candidate (ref : datetime) (month day : Z)
    : resolution (option (datetime * Z)) :=
  years_loop ref month day [year ref; year ref + 1] None.

(** [_resolve_date]. A [reference_date] that is a [date] is the
    [datetime] of its midnight. *)
Definition _resolve_date (date_header : list Z) (reference_date : datetime)
    : resolution (option string) :=
  match search_day_month date_header with
  | None => Returns None
  | Some (group1, group2) =>
      match int_of_decimals group1 with
      | None => Raises
      | Some day =>
          match dict_get_text (str_lower group2) month_map with
          | None => Returns None
          | Some month =>
              match best_candidate reference_date month day with
              | Returns (Some best) => Returns (Some (strftime_ymd best.1))
              | Returns None => Returns None
              | Raises => Raises
              end
          end
      end
  end.

End BeerzeBultenScraper.

(* ================================================================== *)
(** * scrapers/holidayagent_scraper.py: [run_efficient]                 *)
(* ================================================================== *)

Module HolidayAgentScraper.
Import PyDatetime PyBuiltins Database BaseScraper.

(** The JSON of the arrivals endpoint, as [resp.json()] returns it. *)
Record prices_json := mk_prices_json {
  totalPrice : option Q;
  additionalPrice : option Q;   (* [None]: null; an absent key is [Some 0] *)
  discountPrice : option Q
}.

Record departure := mk_departure {
  dep_date : string;
  (** the value of [int(departure.get("nights", 0))]; [None] when [int]
      raises [TypeError] or [ValueError] *)
  dep_nights : option Z;
  (** [None]: the value is not an object, [prices.get] raises
      [AttributeError] *)
  dep_prices : option prices_json;
  (** [None]: null, the comparison with 0 raises [TypeError] *)
  dep_amountAvailable : option Z
}.

Record arrival := mk_arrival {
  arr_date : string;
  (** [None]: the value cannot be iterated, the [for] statement raises
      [TypeError] *)
  arr_departures : option (list departure)
}.

(** What the body of the [try] inside the departures loop does:
    a record to store, a skip ([continue], also through the handler of
    [TypeError], [ValueError] and [KeyError]), or an exception the handler
    does not catch. *)
Inductive body_result :=
  | Store (r : record)
  | Skip
  | Uncaught.

Definition departure_body (self : scraper) (persons : Z)
    (check_in_dt : datetime) (departure : departure) : body_result :=
  match dep_nights departure with
  | None => Skip
  | Some nights =>
      match dep_prices departure with
      | None => Uncaught
      | Some prices =>
          let base_price := totalPrice prices in
          let additional_price := additionalPrice prices in
          let discount_price := discountPrice prices in
          let total_price :=
            match base_price, additional_price with
            | Some b, Some a =>
                if truthy additional_price then Some (b + a)%Q else base_price
            | _, _ => base_price
            end in
          if negb (bool_decide (nights ∈ [2; 3; 4; 5; 7])) then Skip
          else
            match strptime_dmy (dep_date departure) with
            | None => Skip
            | Some check_out_dt =>
                let special_offers :=
                  match discount_price with
                  | Some dp =>
                      if truthy discount_price && Qlt_bool 0 dp
                      then Some ("Korting: EUR " +:+ format_0f dp)
                      else None
                  | None => None
                  end in
                match dep_amountAvailable departure with
                | None => Skip
                | Some amount_available =>
                    Store
                      (mk_record (self_competitor_name self)
                         (self_accommodation_type self)
                         (strftime_ymd check_in_dt)
                         (strftime_ymd check_out_dt)
                         total_price
                         ((0 <? amount_available)
                          && bool_decide (is_Some total_price))
                         (Some nights) special_offers persons)
                end
            end
      end
  end.

Section Environment.
Variable now_at : nat -> datetime.
Variable time_at : nat -> Q.

(** The loop over the departures of one arrival. The boolean tells
    whether an exception left the loop. *)
Fixpoint departures_loop (self : scraper) (persons : Z)
    (check_in_dt : datetime) (departures : list departure)
    (s : world * list record) : world * list record * bool :=
  match departures with
  | [] => (s, false)
  | departure :: rest =>
      match departure_body self persons check_in_dt departure with
      | Store r =>
          departures_loop self persons check_in_dt rest
            (db_save_price now_at r s.1, s.2 ++ [r])
      | Skip => departures_loop self persons check_in_dt rest s
      | Uncaught => (s, true)
      end
  end.

(** The loop over the arrivals. *)
Fixpoint arrivals_loop (self : scraper) (persons : Z)
    (arrivals : list arrival) (s : world * list record)
    : world * list record * bool :=
  match arrivals with
  | [] => (s, false)
  | arrival :: rest =>
      if String.eqb (arr_date arrival) "" then
        arrivals_loop self persons rest s
      else
        match strptime_dmy (arr_date arrival) with
        | None => arrivals_loop self persons rest s
        | Some check_in_dt =>
            match arr_departures arrival with
            | None => (s, true)
            | Some departures =>
                let '(s', raised) :=
                  departures_loop self persons check_in_dt departures s in
                if raised then (s', true)
                else arrivals_loop self persons rest s'
            end
        end
  end.

(** The body of the outer [try]. [fetched] is what [_fetch_arrivals]
    does: the list it returns, or [None] when the request or the
    decoding raises. The boolean tells whether the handler of the outer
    [try] ran, which is where [errors] is incremented. *)
Definition scrape_arrivals (self : scraper)
    (fetched : option (list arrival)) (persons : Z) (w : world)
    : world * list record * bool :=
  match fetched with
  | None => (w, [], true)
  | Some arrivals => arrivals_loop self persons arrivals (w, [])
  end.

Definition run_status (errors : Z) : string :=
  if errors =? 0 then "success" else "failed".

(** [run_efficient] *)
Definition run_efficient (self : scraper)
    (fetched : option (list arrival)) (persons : Z) (w : world)
    : list record * world :=
  let '(start_time, w) := time_time time_at w in
  let '(w, all_records, raised) := scrape_arrivals self fetched persons w in
  let errors := if raised then 1 else 0 in
  let '(end_time, w) := time_time time_at w in
  let duration := (end_time - start_time)%Q in
  let status := run_status errors in
  let w :=
    db_log_scrape now_at (self_competitor_name self) status
      (Z.of_nat (length all_records))
      (if errors =? 0 then None else Some (str_of_Z errors +:+ " errors"))
      (Some duration) w in
  (all_records, w).
End Environment.

End HolidayAgentScraper.

(* ================================================================== *)
(** * scrapers/witter_zomer.py: [run_efficient]                         *)
(* ================================================================== *)

Module WitterZomerScraper.
Import PyDatetime PyBuiltins Database BaseScraper.

Definition STAY_DURATIONS : list Z := [2; 3; 4; 7].

(** An element of [records] in the object the script evaluated in the
    page returns. *)
Record raw_record := mk_raw_record {
  checkIn : string;
  checkOut : string;
  duration : Z;
  raw_price : Q;
  originalPrice : option Q
}.

(** What [page.evaluate] gives [_parse_widget_matrix]. *)
Inductive evaluated :=
  | EvalRaises                                   (* an exception *)
  | EvalNoWidget                                 (* a string, or an object with [error] *)
  | EvalData (records : list raw_record) (hasNext : bool).

(** An element of the list [_parse_widget_matrix] returns. *)
Record parsed_record := mk_parsed_record {
  p_check_in_date : string;
  p_check_out_date : string;
  p_price : Q;
  p_available : bool;
  p_min_nights : Z;
  p_special_offers : option string
}.

Definition parse_raw (r : raw_record) : parsed_record :=
  let special :=
    if truthy (originalPrice r)
    then Some ("Was EUR " +:+
                 format_0f (default 0%Q (originalPrice r)))
    else None in
  mk_parsed_record (checkIn r) (checkOut r) (raw_price r) true (duration r)
    special.

(** [_parse_widget_matrix]; [None] is the exception of [page.evaluate]. *)
Definition _parse_widget_matrix (data : evaluated)
    : option (list parsed_record * bool) :=
  match data with
  | EvalRaises => None
  | EvalNoWidget => Some ([], false)
  | EvalData raw_records has_next => Some (parse_raw <$> raw_records, has_next)
  end.

(** What happens when the loop tries to go to the next page. *)
Inductive navigation :=
  | Clicked            (* the button is there and visible *)
  | NotVisible         (* no visible button: [break] *)
  | NavigationRaises.  (* an exception: [break] *)

(** The local variables of [run_efficient]. *)
Record locals := mk_locals {
  all_records : list record;
  seen_keys : gset (string * string);
  errors : Z
}.

Definition string_ltb (a b : string) : bool :=
  match String.compare a b with Lt => true | _ => false end.

Section Environment.
Variable now_at : nat -> datetime.
Variable time_at : nat -> Q.
(** What [page.evaluate] returns on the page with the given number, and
    what the navigation away from that page does. *)
Variable evaluate_at : nat -> evaluated.
Variable navigate_at : nat -> navigation.

(** The loop [for r in records] of one page; the last component is
    [max_date_seen]. *)
Fixpoint records_loop (self : scraper) (persons : Z)
    (records : list parsed_record)
    (s : world * locals * option string) : world * locals * option string :=
  match records with
  | [] => s
  | r :: rest =>
      let '(w, l, max_date_seen) := s in
      if negb (bool_decide (p_min_nights r ∈ STAY_DURATIONS)) then
        records_loop self persons rest s
      else
        let key := (p_check_in_date r, p_check_out_date r) in
        if decide (key ∈ seen_keys l) then records_loop self persons rest s
        else
          let record :=
            mk_record (self_competitor_name self)
              (self_accommodation_type self)
              (p_check_in_date r) (p_check_out_date r)
              (Some (p_price r)) (p_available r) (Some (p_min_nights r))
              (p_special_offers r) persons in
          let max_date_seen :=
            match max_date_seen with
            | None => Some (p_check_in_date r)
            | Some m =>
                if string_ltb m (p_check_in_date r)
                then Some (p_check_in_date r) else Some m
            end in
          records_loop self persons rest
            (db_save_price now_at record w,
             mk_locals (all_records l ++ [record])
               ({[key]} ∪ seen_keys l) (errors l),
             max_date_seen)
  end.

(** The loop [for page_num in range(1, max_pages + 1)], run over the
    page numbers that remain. *)
Fixpoint pages_loop (self : scraper) (persons : Z) (target_end_str : string)
    (page_nums : list nat) (s : world * locals) : world * locals :=
  match page_nums with
  | [] => s
  | page_num :: rest =>
      match _parse_widget_matrix (evaluate_at page_num) with
      | None =>
          (s.1, mk_locals (all_records s.2) (seen_keys s.2) (errors s.2 + 1))
      | Some (records, has_next) =>
          let '(w, l, max_date_seen) :=
            records_loop self persons records (s, None) in
          let reached :=
            match max_date_seen with
            | Some m => negb (string_ltb m target_end_str)
            | None => false
            end in
          if reached then (w, l)
          else if negb has_next then (w, l)
          else
            let w := _wait_rate_limit time_at self w in
            match navigate_at page_num with
            | Clicked => pages_loop self persons target_end_str rest (w, l)
            | NotVisible | NavigationRaises => (w, l)
            end
      end
  end.

(** [run_efficient]. [loaded] tells whether the first [page.goto]
    returns; when it raises, the handler of the outer [try] counts one
    error. *)
Definition run_efficient (self : scraper) (months_ahead persons : Z)
    (max_pages : Z) (loaded : bool) (w : world) : list record * world :=
  let target_end_str :=
    strftime_ymd_plus_days (now_at (w_ticks w)) (months_ahead * 30) in
  let w := mk_world (w_db w) (S (w_ticks w)) (w_last_request_time w)
             (w_sleeps w) in
  let '(start_time, w) := time_time time_at w in
  let '(w, l) :=
    if loaded then
      pages_loop self persons target_end_str (seq 1 (Z.to_nat max_pages))
        (w, mk_locals [] ∅ 0)
    else (w, mk_locals [] ∅ 1) in
  let '(end_time, w) := time_time time_at w in
  let duration := (end_time - start_time)%Q in
  let status :=
    if errors l =? 0 then "success"
    else match all_records l with _ :: _ => "partial" | [] => "failed" end in
  let w :=
    db_log_scrape now_at (self_competitor_name self) status
      (Z.of_nat (length (all_records l)))
      (if errors l =? 0 then None
       else Some (str_of_Z (errors l) +:+ " errors"))
      (Some duration) w in
  (all_records l, w).
End Environment.

End WitterZomerScraper.

(* ================================================================== *)
(** * run_daily.py: [run_pipeline]                                      *)
(* ================================================================== *)

Module RunDaily.
Import PyDatetime PyBuiltins Database BaseScraper.

Definition EXIT_SUCCESS : Z := 0.
Definition EXIT_PARTIAL : Z := 1.
Definition EXIT_FATAL : Z := 2.

(** The keys of the mapping [get_scraper_map] returns, in the order of
    its dict display. *)
Definition scraper_keys : list string :=
  ["beerze_bulten"; "camping_ommerland"; "eiland_van_maurik"; "witter_zomer";
   "de_witte_berg"; "de_boshoek"; "westerbergen"].

(** What [run_pipeline] reads from [config]: the value of
    [enabled.get(key, {}).get("enabled", True)] for a key, and the
    entries [retry_failed] and [max_retry_attempts] of [automation]. *)
Record config := mk_config {
  enabled : string -> bool;
  retry_failed : bool;
  max_retry_attempts : Z
}.

(** A value of [scrape_results]. The duration and the error text, which
    only the printed summary uses, are left out. *)
Record scrape_result := mk_scrape_result {
  sr_status : string;
  sr_records : Z;
  sr_available : Z
}.

(** [[r for r in results if r.get("available") and r.get("price")]] *)
Definition available_of (results : list record) : list record :=
  filter (λ r, rec_available r && truthy (rec_price r)) results.

Section Environment.
(** What [scraper.run_efficient(max_pages=30, persons=persons)] does for
    the scraper under the given key in the given pass (0 for the first
    pass, otherwise the number of the retry attempt): the list it
    returns, or [None] when an exception leaves it. *)
Variable run_efficient_at : nat -> string -> option (list record).

(** The body of the loops over the scrapers; the state is
    [scrape_results] and [failed_scrapers], and [ok_status] is the status
    written when the call returns. *)
Definition scrape (ok_status : string) (pass : nat)
    (s : gmap string scrape_result * list string) (key : string)
    : gmap string scrape_result * list string :=
  match run_efficient_at pass key with
  | Some results =>
      (<[key := mk_scrape_result ok_status (Z.of_nat (length results))
                  (Z.of_nat (length (available_of results)))]> s.1,
       s.2)
  | None => (<[key := mk_scrape_result "failed" 0 0]> s.1, s.2 ++ [key])
  end.

(** The keys of [to_run], in the order of insertion. *)
Definition to_run (cfg : config) : list string :=
  filter (λ key, key = "westerbergen" \/ enabled cfg key = true) scraper_keys.

Definition first_pass (cfg : config)
    : gmap string scrape_result * list string :=
  foldl (scrape "success" 0) (∅, []) (to_run cfg).

(** One iteration of [for attempt in range(1, max_retries + 1)]. *)
Definition retry_attempt (s : gmap string scrape_result * list string)
    (attempt : nat) : gmap string scrape_result * list string :=
  let retry_list := s.2 in
  foldl (scrape "success (retry)" attempt) (s.1, []) retry_list.

(** The real scraping phase: the first pass and the retries. *)
Definition scrape_phase (cfg : config)
    : gmap string scrape_result * list string :=
  let s := first_pass cfg in
  match s.2 with
  | _ :: _ =>
      if retry_failed cfg
      then foldl retry_attempt s (seq 1 (Z.to_nat (max_retry_attempts cfg)))
      else s
  | [] => s
  end.

(** The entries the dry run writes. *)
Definition dry_run_results (cfg : config) : gmap string scrape_result :=
  foldl (λ m key,
           if bool_decide (key = "westerbergen") || enabled cfg key
           then <[key := mk_scrape_result "dry-run" 0 0]> m else m)
    ∅ scraper_keys.

(** [scrape_results.values()] *)
Definition values (scrape_results : gmap string scrape_result)
    : list scrape_result :=
  (map_to_list scrape_results).*2.

Definition total_records (scrape_results : gmap string scrape_result) : Z :=
  foldr Z.add 0 (sr_records <$> values scrape_results).

Definition fail_count (scrape_results : gmap string scrape_result) : Z :=
  Z.of_nat
    (length (filter (λ r, sr_status r = "failed") (values scrape_results))).

(** [scrape_results] when phase 1 is over. *)
Definition scrape_results_of (cfg : config) (dry_run skip_scrape : bool)
    : gmap string scrape_result :=
  if skip_scrape then ∅
  else if dry_run then dry_run_results cfg
  else (scrape_phase cfg).1.

(** The exit code [run_pipeline] returns. Phases 2 to 4 (analytics,
    dashboard, git push) run inside [try] statements that catch
    [Exception], and nothing they do is read by the code that determines
    the exit code. *)
Definition run_pipeline (cfg : config) (dry_run skip_scrape : bool) : Z :=
  let scrape_results := scrape_results_of cfg dry_run skip_scrape in
  if dry_run || skip_scrape then EXIT_SUCCESS
  else if fail_count scrape_results =? 0 then EXIT_SUCCESS
  else if 0 <? total_records scrape_results then EXIT_PARTIAL
  else EXIT_FATAL.
End Environment.

End RunDaily.

(* ================================================================== *)
(** * The notions the properties are stated with                        *)
(* ================================================================== *)

Module Spec.
Import PyDatetime PyBuiltins Database BaseScraper BeerzeBultenScraper.

(** ** Date windows *)

Definition window_key (w : date_window) : date * date :=
  (check_in w, check_out w).

(** What the generator promises about one window: the dates are [nights]
    apart, and [nights] is the night count of its stay type. *)
Definition window_ok (stay_types : list (string * stay_config))
    (w : date_window) : Prop :=
  date_sub_days (check_out w) (check_in w) = nights w
  /\ exists cfg, (stay_type w, cfg) ∈ stay_types /\ cfg_nights cfg = nights w.

(** ** Date resolution of the grid adapter *)

(** Distance in calendar days. *)
Definition day_distance (a b : datetime) : Z :=
  Z.abs (toordinal a - toordinal b).

(** The property of one resolution, for a given range of years: the
    resolved date is the header's day and month in one of these years,
    and no valid date with that day and month in any of these years is
    closer to the reference. *)
Definition resolves_nearest (candidate_year : Z -> Prop)
    (date_header : list Z) (ref : datetime) : Prop :=
  forall s, _resolve_date date_header ref = Returns (Some s) ->
  exists digits group day month best,
    search_day_month date_header = Some (digits, group)
    /\ int_of_decimals digits = Some day
    /\ dict_get_text (str_lower group) month_map = Some month
    /\ datetime_ymd (year best) month day = Some best
    /\ candidate_year (year best)
    /\ s = strftime_ymd best
    /\ forall y c, candidate_year y -> datetime_ymd y month day = Some c ->
                   day_distance best ref <= day_distance c ref.

(** ** Attempts and runs *)

(** The attempt ends in an exception. *)
Definition raises (o : outcome) : bool :=
  match o with
  | RaisedTimeout | RaisedError => true
  | Returned _ => false
  end.

(** The attempt fails: it raises, or returns [None]. *)
Definition fails (o : outcome) : Prop :=
  forall result, o ≠ Returned (Some result).

(** The classification of a run by its error counter and the number of
    records it captured. *)
Definition classified (errors : Z) (captured : nat) (status : string) : Prop :=
  (errors = 0 -> status = "success")
  /\ (errors ≠ 0 -> captured ≠ 0%nat -> status = "partial")
  /\ (errors ≠ 0 -> captured = 0%nat -> status = "failed").

(** The run wrote one row to the scrape log, with the given status and
    record count, and no other. *)
Definition logged_once (before after : db) (competitor status : string)
    (records_scraped : nat) : Prop :=
  exists row,
    scrape_log after = scrape_log before ++ [row]
    /\ log_competitor_name row = competitor
    /\ log_status row = status
    /\ log_records_scraped row = Z.of_nat records_scraped.

(** ** The limiter *)

(** The clock treats the call of the limiter made in world [w] as a
    clock does: it does not run backwards between the two readings of the
    call, and when the limiter sleeps, the second reading is at least the
    duration of the sleep after the first. *)
Definition clock_honours (time_at : nat -> Q) (self : scraper) (w : world)
    : Prop :=
  (time_at (w_ticks w) <= time_at (S (w_ticks w)))%Q
  /\ forall sleep,
       w_sleeps (_wait_rate_limit time_at self w) = w_sleeps w ++ [sleep] ->
       (time_at (w_ticks w) + sleep <= time_at (S (w_ticks w)))%Q.

(** Each instant of the list is at least [gap] after the one before
    it. *)
Fixpoint spaced (gap : Q) (l : list Q) : Prop :=
  match l with
  | a :: (b :: _) as rest => (a + gap <= b)%Q /\ spaced gap rest
  | _ => True
  end.

(** The instants the limiter stamps when it is called in the worlds of
    the list. *)
Definition stamps (time_at : nat -> Q) (self : scraper) (ws : list world)
    : list Q :=
  (λ w, w_last_request_time (_wait_rate_limit time_at self w)) <$> ws.

Section LimiterCalls.
Variable now_at : nat -> datetime.
Variable time_at : nat -> Q.
Variable scrape_price : nat -> nat -> outcome.

(** The worlds in which [run] calls the limiter during the attempts on
    one window, in order: one call opens every attempt, and the attempts
    go on until one returns a result. *)
Fixpoint attempt_limiter_calls (self : scraper) (persons : Z) (i : nat)
    (d : date_window) (attempts : list nat) (s : world * run_locals)
    : list world :=
  match attempts with
  | [] => []
  | attempt :: rest =>
      s.1 ::
        match scrape_price i attempt with
        | Returned (Some _) => []
        | _ =>
            attempt_limiter_calls self persons i d rest
              (attempt_loop now_at time_at scrape_price self persons i d
                 [attempt] s)
        end
  end.

(** The same over the windows of a run, from index [i] on. *)
Fixpoint window_limiter_calls (self : scraper) (persons : Z) (i : nat)
    (dates : list date_window) (s : world * run_locals) : list world :=
  match dates with
  | [] => []
  | d :: dates' =>
      attempt_limiter_calls self persons i d (attempt_range self) s
      ++ window_limiter_calls self persons (S i) dates'
           (attempt_loop now_at time_at scrape_price self persons i d
              (attempt_range self) s)
  end.
End LimiterCalls.

(** ** Night counts *)

(** The night count of a record is one of the given list. *)
Definition night_count_in (whitelist : list Z) (r : record) : Prop :=
  exists n, rec_min_nights r = Some n /\ n ∈ whitelist.

(** Every row that table [prices] has after a run and did not have, as
    it is, before the run carries a night count of the list. *)
Definition written_night_counts_in (whitelist : list Z) (before after : db)
    : Prop :=
  forall k cols,
    prices after !! k = Some cols ->
    prices before !! k = Some cols
    \/ exists n, min_nights cols = Some n /\ n ∈ whitelist.

(** ** Stored rows and the order of query results *)

(** The row is a row of table [prices]. *)
Definition stored (d : db) (r : prices_row) : Prop :=
  prices d !! r.1 = Some r.2.

(** The order of [ORDER BY x, y] on TEXT columns: by the first value, and
    by the second among equal first values. *)
Definition pair_le (a b : string * string) : Prop :=
  (String.le a.1 b.1 /\ a.1 ≠ b.1) \/ (a.1 = b.1 /\ String.le a.2 b.2).

(** [ORDER BY check_in_date, competitor_name] *)
Definition by_check_in_then_competitor (a b : prices_row) : Prop :=
  pair_le (check_in_date a, competitor_name a)
    (check_in_date b, competitor_name b).

(** An optional filter argument holds of a value: it is absent, empty,
    or related to the value. *)
Definition filter_holds (arg : option string) (P : string -> Prop) : Prop :=
  forall v, given arg = Some v -> P v.

(** Two rows quote the same stay of the same source. *)
Definition same_stay_as (a b : prices_row) : Prop :=
  competitor_name a = competitor_name b
  /\ check_in_date a = check_in_date b
  /\ check_out_date a = check_out_date b.

(** ** How a window comes out of the generator's loops *)

(** The window is the one the loop body builds for some offset of the
    list and some entry of the stay types. *)
Definition generated_from (today : date) (days_ahead_list : list Z)
    (stay_types : list (string * stay_config)) (w : date_window) : Prop :=
  exists days_ahead cfg target,
    days_ahead ∈ days_ahead_list
    /\ (stay_type w, cfg) ∈ stay_types
    /\ date_add_days today days_ahead = Some target
    /\ make_window target (stay_type w, cfg) = Some w.

(** ** Records and the table *)

(** The table has a row for the stay of the record, under some scrape
    day. *)
Definition has_row (d : db) (r : record) : Prop :=
  exists day cols,
    prices d !! (rec_competitor_name r, rec_check_in_date r,
                 rec_check_out_date r, day) = Some cols.

(** The record is the one [run] builds for the window. *)
Definition record_of_window (self : scraper) (d : date_window) (r : record)
    : Prop :=
  rec_competitor_name r = self_competitor_name self
  /\ rec_accommodation_type r = self_accommodation_type self
  /\ rec_check_in_date r = date_isoformat (check_in d)
  /\ rec_check_out_date r = date_isoformat (check_out d).

(** The results so far are stored, and were built for windows of [D]. *)
Definition results_stored (self : scraper) (D : list date_window)
    (s : world * run_locals) : Prop :=
  Forall (λ r, has_row (w_db s.1) r
               /\ exists d, d ∈ D /\ record_of_window self d r) (results s.2).

(** ** Records of the batch adapters *)

(** The record names the scraper's accommodation and the party asked
    for, and is marked available only when it has a price. *)
Definition well_formed (self : scraper) (persons : Z) (r : record) : Prop :=
  rec_competitor_name r = self_competitor_name self
  /\ rec_accommodation_type r = self_accommodation_type self
  /\ rec_persons r = persons
  /\ (rec_available r = true -> is_Some (rec_price r)).

(** The text is the [%Y-%m-%d] rendering of a calendar date that
    exists. *)
Definition rendered_date (s : string) : Prop :=
  exists t, valid_ymd (year t) (month t) (day t) = true /\ s = strftime_ymd t.

(** What holds of a record the REST batch adapter returns, in the store
    [d]. *)
Definition batch_record_ok (self : scraper) (persons : Z) (d : db)
    (r : record) : Prop :=
  has_row d r /\ well_formed self persons r
  /\ rendered_date (rec_check_in_date r)
  /\ rendered_date (rec_check_out_date r).

(** The pair by which the matrix adapter tells stays apart. *)
Definition stay_key (r : record) : string * string :=
  (rec_check_in_date r, rec_check_out_date r).

(** What holds of a record the matrix adapter returns, in the store
    [d]. *)
Definition matrix_record_ok (self : scraper) (persons : Z) (d : db)
    (r : record) : Prop :=
  has_row d r /\ well_formed self persons r
  /\ is_Some (rec_price r) /\ rec_available r = true.

(** The text [DD-MM-YYYY] of a day, as the REST interface writes it. *)
Definition dmy_text (y m d : Z) : string :=
  dec2 d +:+ "-" +:+ dec2 m +:+ "-" +:+ dec4 y.

(** What the matrix adapter keeps true of its local variables while it
    runs: the records so far are in the store, no two of them are for
    the same stay, and the stay of each is in [seen_keys]. *)
Definition matrix_invariant (self : scraper) (persons : Z) (w : world)
    (l : WitterZomerScraper.locals) : Prop :=
  Forall (matrix_record_ok self persons (w_db w))
    (WitterZomerScraper.all_records l)
  /\ NoDup (stay_key <$> WitterZomerScraper.all_records l)
  /\ forall r, r ∈ WitterZomerScraper.all_records l ->
               stay_key r ∈ WitterZomerScraper.seen_keys l.

(** ** The daily pipeline *)

(** The calls of the scraper under [key] raise in every pass up to [k]. *)
Definition raises_through (run_efficient_at : nat -> string -> option (list record))
    (key : string) (k : nat) : Prop :=
  Forall (λ j, run_efficient_at j key = None) (seq 0 (S k)).

(** Pass [n] is the first in which the scraper under [key] returns, and
    it returns [results]. *)
Definition first_return (run_efficient_at : nat -> string -> option (list record))
    (key : string) (n : nat) (results : list record) : Prop :=
  run_efficient_at n key = Some results
  /\ forall j, (j < n)%nat -> run_efficient_at j key = None.

(** The entry a call leaves in [scrape_results]. *)
Definition recorded (ok_status : string) (ran : option (list record))
    : RunDaily.scrape_result :=
  match ran with
  | Some results =>
      RunDaily.mk_scrape_result ok_status (Z.of_nat (length results))
        (Z.of_nat (length (RunDaily.available_of results)))
  | None => RunDaily.mk_scrape_result "failed" 0 0
  end.

(** The entry of [key] after the first pass and [k] retry attempts. *)
Fixpoint recorded_after (run_efficient_at : nat -> string -> option (list record))
    (key : string) (k : nat) : RunDaily.scrape_result :=
  match k with
  | O => recorded "success" (run_efficient_at 0%nat key)
  | S k' =>
      if decide (raises_through run_efficient_at key k')
      then recorded "success (retry)" (run_efficient_at (S k') key)
      else recorded_after run_efficient_at key k'
  end.

(** The number of retry attempts the configuration allows. *)
Definition retry_bound (cfg : RunDaily.config) : nat :=
  if RunDaily.retry_failed cfg
  then Z.to_nat (RunDaily.max_retry_attempts cfg) else 0%nat.

End Spec.

(* ================================================================== *)
(** * Concrete inputs                                                   *)
(* ================================================================== *)

Module Examples.
Import PyDatetime PyBuiltins Database BaseScraper.

(** A clock: the run starts on 2026-02-01 at 07:00:00 and every reading
    is taken one second (six seconds for [time.time()]) after the one
    before. *)
Definition now_at (n : nat) : datetime :=
  mk_datetime 2026 2 1 7 0 (Z.of_nat n) 0.
Definition time_at (n : nat) : Q := inject_Z (1769929200 + 6 * Z.of_nat n).

Definition day1 : datetime := mk_datetime 2026 2 1 7 0 0 0.
Definition day2 : datetime := mk_datetime 2026 2 2 7 0 0 0.

(** The empty database, the clock at its first reading. *)
Definition w0 : world := mk_world empty_db 0 0 [].

Definition beerze_bulten : scraper :=
  mk_scraper "Beerze Bulten" "Luxe Bungalow"
    "https://www.beerzebulten.nl/accommodaties/bungalow" 5 3.

Definition camping_ommerland : scraper :=
  mk_scraper "Camping Ommerland" "Bos Villa (6p)"
    "https://www.ommerland.nl/huren/bos-villa" 5 3.

(** The stay 2026-03-06 to 2026-03-09. *)
Definition window_march : date_window :=
  mk_date_window (ymd2ord 2026 3 6) (ymd2ord 2026 3 9) "weekend" 3.

(** [scrape_price] finds no price grid and returns [None], every time. *)
Definition never_a_grid (i attempt : nat) : outcome := Returned None.

(** [scrape_price] times out on every attempt. *)
Definition always_timeout (i attempt : nat) : outcome := RaisedTimeout.

Definition prices_280 : HolidayAgentScraper.prices_json :=
  HolidayAgentScraper.mk_prices_json (Some (250 # 1)%Q) (Some (30 # 1)%Q)
    (Some 0%Q).

(** A response whose second arrival has [null] for its departures. *)
Definition arrivals_null_departures : list HolidayAgentScraper.arrival :=
  [HolidayAgentScraper.mk_arrival "13-02-2026"
     (Some [HolidayAgentScraper.mk_departure "15-02-2026" (Some 2)
              (Some prices_280) (Some 3)]);
   HolidayAgentScraper.mk_arrival "14-02-2026" None].

(** A response with one departure after five nights. *)
Definition arrivals_five_nights : list HolidayAgentScraper.arrival :=
  [HolidayAgentScraper.mk_arrival "13-02-2026"
     (Some [HolidayAgentScraper.mk_departure "18-02-2026" (Some 5)
              (Some prices_280) (Some 3)])].

(** The store after [save_price] of a quote of 100 on [day1]. *)
Definition db_quote_100 : db :=
  save_price day1 "Test" "Test" "2026-01-01" "2026-01-04" (Some (100 # 1)%Q)
    true (Some 3) None 4 empty_db.

(** The store after [save_price] of a row without a price on [day1]
    (the unavailable stay of the test fixture). *)
Definition db_no_price : db :=
  save_price day1 "De Boshoek" "Bungalow Zeumeren" "2026-04-12" "2026-04-15"
    None false (Some 3) None 4 empty_db.

(** A clock for the limiter: a reading of 100 s, and 105.2 s at the next
    reading. *)
Definition time_around_sleep (n : nat) : Q :=
  match n with
  | O => 100 # 1
  | S _ => 1052 # 10
  end.

(** A request was stamped at 100 s; the clock is at its first reading. *)
Definition w_just_requested : world := mk_world empty_db 0 (100 # 1) [].

(** A later instant of the day of [day1]. *)
Definition day1_later : datetime := mk_datetime 2026 2 1 9 30 0 0.

(** A result with a price of 300. *)
Definition quote_300 : result_dict :=
  mk_result_dict (Some (300 # 1)%Q) (Some true) (Some 3) None.

(** [scrape_price] times out on the first attempt and returns a quote on
    the second. *)
Definition second_attempt_returns (i attempt : nat) : outcome :=
  match attempt with
  | 2%nat => Returned (Some quote_300)
  | _ => RaisedTimeout
  end.

(** The local variables of [run] when the loop over the windows starts. *)
Definition run_start : world * run_locals := (w0, mk_run_locals [] 0 [] 1).

(** The four windows the generator returns on Monday 2026-01-05 for the
    offsets 7 and 10. *)
Definition windows_jan : list date_window :=
  [mk_date_window 739628 739632 "midweek" 4;
   mk_date_window 739632 739634 "weekend" 2;
   mk_date_window 739632 739639 "week" 7;
   mk_date_window 739635 739639 "midweek" 4].

(** A departure after five nights, as the REST interface gives it. *)
Definition departure_five_nights : HolidayAgentScraper.departure :=
  HolidayAgentScraper.mk_departure "18-02-2026" (Some 5) (Some prices_280)
    (Some 3).

(** The matrix adapter with a spacing of ten seconds. *)
Definition witter_zomer_slow : scraper :=
  mk_scraper "Witter Zomer" "6-persoons vakantiehuis (C6)"
    "https://www.witterzomer.nl/accommodaties/nederland-drenthe-6-persoons-vakantiehuis-c6"
    10 3.

(** A clock for one run of the matrix adapter over two pages: the run
    starts at 1000 s, the limiter is called at 1006 s (the page has been
    loaded, the five seconds for the widget have passed and the first
    page has been parsed), and the run ends at 1009 s. *)
Definition clock_one_click (n : nat) : Q :=
  match n with
  | 0%nat | 1%nat => 1000 # 1
  | 2%nat | 3%nat => 1006 # 1
  | _ => 1009 # 1
  end.

(** The first page of the widget has no price and a next button, the
    second has neither. *)
Definition two_empty_pages (page_num : nat) : WitterZomerScraper.evaluated :=
  match page_num with
  | 1%nat => WitterZomerScraper.EvalData [] true
  | _ => WitterZomerScraper.EvalData [] false
  end.

Definition next_is_clicked (page_num : nat) : WitterZomerScraper.navigation :=
  WitterZomerScraper.Clicked.

(** A clock for three attempts: every reading the limiter takes to stamp
    a request is at least five seconds after the one before. *)
Definition clock_three_attempts (n : nat) : Q :=
  match n with
  | 0%nat => 1000 # 1
  | 1%nat | 2%nat => 2001 # 2
  | 3%nat => 1002 # 1
  | 4%nat => 2011 # 2
  | 5%nat => 1007 # 1
  | _ => 10106 # 10
  end.

End Examples.

(* ================================================================== *)
(** * Properties                                                        *)
(* ================================================================== *)

(** ** Rendering of dates *)

Section Rendering.
Import PyDatetime.

Lemma digit_char_inj a b :
  0 <= a < 10 -> 0 <= b < 10 -> digit_char a = digit_char b -> a = b.
Proof.
  intros Ha Hb.
  assert (Ea : a = 0 \/ a = 1 \/ a = 2 \/ a = 3 \/ a = 4 \/ a = 5 \/ a = 6
               \/ a = 7 \/ a = 8 \/ a = 9) by lia.
  assert (Eb : b = 0 \/ b = 1 \/ b = 2 \/ b = 3 \/ b = 4 \/ b = 5 \/ b = 6
               \/ b = 7 \/ b = 8 \/ b = 9) by lia.
  clear Ha Hb.
  repeat (destruct Ea as [-> | Ea]); try subst a;
    repeat (destruct Eb as [-> | Eb]); try subst b;
    simpl; intros H; first [reflexivity | discriminate H].
Qed.

Lemma two_digits_inj a b :
  0 <= a < 100 -> 0 <= b < 100 ->
  digit_char (a / 10 mod 10) = digit_char (b / 10 mod 10) ->
  digit_char (a mod 10) = digit_char (b mod 10) -> a = b.
Proof.
  intros Ha Hb H1 H2.
  assert (Ba : 0 <= a / 10 < 10)
    by (split; [apply Z.div_pos | apply Z.div_lt_upper_bound]; lia).
  assert (Bb : 0 <= b / 10 < 10)
    by (split; [apply Z.div_pos | apply Z.div_lt_upper_bound]; lia).
  rewrite !(Z.mod_small (_ / 10)) in H1 by assumption.
  pose proof (Z.mod_pos_bound a 10 ltac:(lia)).
  pose proof (Z.mod_pos_bound b 10 ltac:(lia)).
  apply digit_char_inj in H1; [| lia | lia].
  apply digit_char_inj in H2; [| lia | lia].
  rewrite (Z.div_mod a 10), (Z.div_mod b 10) by lia. congruence.
Qed.

Lemma format_ymd_inj y m d y' m' d' :
  0 <= y < 10000 -> 0 <= y' < 10000 -> 0 <= m < 100 -> 0 <= m' < 100 ->
  0 <= d < 100 -> 0 <= d' < 100 ->
  format_ymd y m d = format_ymd y' m' d' -> y = y' /\ m = m' /\ d = d'.
Proof.
  intros Hy Hy' Hm Hm' Hd Hd'. unfold format_ymd, dec4, dec2.
  cbn [String.append]. intros H.
  injection H as A1 A2 A3 A4 B1 B2 C1 C2.
  assert (By : 0 <= y / 100 < 100 /\ 0 <= y' / 100 < 100).
  { split; (split; [apply Z.div_pos | apply Z.div_lt_upper_bound]; lia). }
  pose proof (Z.mod_pos_bound y 100 ltac:(lia)).
  pose proof (Z.mod_pos_bound y' 100 ltac:(lia)).
  pose proof (two_digits_inj _ _ (proj1 By) (proj2 By) A1 A2) as E1.
  pose proof (two_digits_inj (y mod 100) (y' mod 100)
                ltac:(lia) ltac:(lia) A3 A4) as E2.
  pose proof (two_digits_inj _ _ Hm Hm' B1 B2).
  pose proof (two_digits_inj _ _ Hd Hd' C1 C2).
  repeat split; try assumption.
  rewrite (Z.div_mod y 100), (Z.div_mod y' 100) by lia. congruence.
Qed.

Lemma valid_ymd_bounds y m d :
  valid_ymd y m d = true -> 1 <= y <= 9999 /\ 1 <= m <= 12 /\ 1 <= d <= 31.
Proof.
  unfold valid_ymd, MINYEAR, MAXYEAR. intros H.
  repeat (apply andb_prop in H as [H ?]).
  assert (days_in_month y m <= 31).
  { unfold days_in_month. repeat (destruct m as [|[m|m|]|]; try lia);
      destruct (is_leap y); lia. }
  lia.
Qed.

(** The calendar day a valid [datetime] falls on is determined by its
    [%Y-%m-%d] rendering. *)
Lemma strftime_ymd_inj t t' :
  valid_ymd (year t) (month t) (day t) = true ->
  valid_ymd (year t') (month t') (day t') = true ->
  strftime_ymd t = strftime_ymd t' ->
  year t = year t' /\ month t = month t' /\ day t = day t'.
Proof.
  intros H H'. apply valid_ymd_bounds in H, H'.
  unfold strftime_ymd. apply format_ymd_inj; lia.
Qed.

End Rendering.

(** ** The price store: [save_price] *)

Section PriceStore.
Import PyDatetime Database.

Implicit Types (now : datetime) (d : db) (old : prices_cols).

Lemma save_price_conflict now c a ci co pr av mn so p d old :
  prices d !! (c, ci, co, strftime_ymd now) = Some old ->
  prices (save_price now c a ci co pr av mn so p d)
    !! (c, ci, co, strftime_ymd now)
  = Some (do_update old (mk_prices_cols a pr av mn so p (isoformat now))).
Proof.
  intros H. unfold save_price, insert_on_conflict. cbn [prices].
  rewrite H. apply lookup_insert_eq.
Qed.

Lemma save_price_fresh now c a ci co pr av mn so p d :
  prices d !! (c, ci, co, strftime_ymd now) = None ->
  prices (save_price now c a ci co pr av mn so p d)
    !! (c, ci, co, strftime_ymd now)
  = Some (mk_prices_cols a pr av mn so p (isoformat now)).
Proof.
  intros H. unfold save_price, insert_on_conflict. cbn [prices].
  rewrite H. apply lookup_insert_eq.
Qed.

(** Rows under any other key are not touched. *)
Lemma save_price_other now c a ci co pr av mn so p d k :
  k ≠ (c, ci, co, strftime_ymd now) ->
  prices (save_price now c a ci co pr av mn so p d) !! k = prices d !! k.
Proof.
  intros H. unfold save_price, insert_on_conflict. cbn [prices].
  destruct (prices d !! _); apply lookup_insert_ne; congruence.
Qed.

Lemma save_price_scrape_log now c a ci co pr av mn so p d :
  scrape_log (save_price now c a ci co pr av mn so p d) = scrape_log d.
Proof. reflexivity. Qed.

(** The row of the current day exists after the call and carries the
    instant of the call. *)
Lemma save_price_stamps now c a ci co pr av mn so p d :
  exists row,
    prices (save_price now c a ci co pr av mn so p d)
      !! (c, ci, co, strftime_ymd now) = Some row
    /\ scrape_timestamp row = isoformat now.
Proof.
  destruct (prices d !! (c, ci, co, strftime_ymd now)) as [old|] eqn:E.
  - eexists. split; [apply (save_price_conflict _ _ _ _ _ _ _ _ _ _ _ _ E) |].
    reflexivity.
  - eexists. split; [apply (save_price_fresh _ _ _ _ _ _ _ _ _ _ _ E) |].
    reflexivity.
Qed.

(** The keys of the table after a call: those it had and the key of the
    current day. *)
Lemma save_price_dom now c a ci co pr av mn so p d :
  dom (prices (save_price now c a ci co pr av mn so p d))
  = {[ (c, ci, co, strftime_ymd now) ]} ∪ dom (prices d).
Proof.
  unfold save_price, insert_on_conflict. cbn [prices].
  destruct (prices d !! _); apply dom_insert_L.
Qed.

(** C1. An upsert that hits a stored row and carries no price leaves the
    stored price and availability exactly as they were. *)
Theorem save_price_absent_price_keeps_quote now c a ci co av mn so p d old :
  prices d !! (c, ci, co, strftime_ymd now) = Some old ->
  exists new,
    prices (save_price now c a ci co None av mn so p d)
      !! (c, ci, co, strftime_ymd now) = Some new
    /\ price new = price old /\ available new = available old.
Proof.
  intros H. eexists.
  split; [apply (save_price_conflict _ _ _ _ _ _ _ _ _ _ _ _ H) |].
  split; reflexivity.
Qed.

(** C9. An upsert that hits a stored row overwrites the accommodation
    type, the minimum nights, the special offer, the persons and the
    capture timestamp with the incoming values, whether or not it carries
    a price. *)
Theorem save_price_overwrites_other_fields now c a ci co pr av mn so p d old :
  prices d !! (c, ci, co, strftime_ymd now) = Some old ->
  exists new,
    prices (save_price now c a ci co pr av mn so p d)
      !! (c, ci, co, strftime_ymd now) = Some new
    /\ accommodation_type new = a /\ min_nights new = mn
    /\ special_offers new = so /\ persons new = p
    /\ scrape_timestamp new = isoformat now.
Proof.
  intros H. eexists.
  split; [apply (save_price_conflict _ _ _ _ _ _ _ _ _ _ _ _ H) |].
  repeat split; reflexivity.
Qed.

(** C10. The day and the instant a row is stored under come from the
    clock reading of the call, whatever the arguments are: the row of
    that day exists afterwards with the instant of the call and no row of
    another key changes. Two calls with the same arguments on different
    calendar days therefore write under two different keys: the second
    leaves the row of the first as it is, and a table that had neither row
    has two more. *)
Theorem save_price_keyed_by_clock_day now1 now2 c a ci co pr av mn so p d :
  let k1 := (c, ci, co, strftime_ymd now1) in
  let k2 := (c, ci, co, strftime_ymd now2) in
  let d1 := save_price now1 c a ci co pr av mn so p d in
  let d2 := save_price now2 c a ci co pr av mn so p d1 in
  valid_ymd (year now1) (month now1) (day now1) = true ->
  valid_ymd (year now2) (month now2) (day now2) = true ->
  (year now1, month now1, day now1) ≠ (year now2, month now2, day now2) ->
  (exists row, prices d1 !! k1 = Some row
               /\ scrape_timestamp row = isoformat now1)
  /\ (forall k, k ≠ k1 -> prices d1 !! k = prices d !! k)
  /\ k1 ≠ k2
  /\ prices d2 !! k1 = prices d1 !! k1
  /\ (exists row, prices d2 !! k2 = Some row
                  /\ scrape_timestamp row = isoformat now2)
  /\ (prices d !! k1 = None -> prices d !! k2 = None ->
      size (prices d2) = S (S (size (prices d)))).
Proof.
  intros k1 k2 d1 d2 V1 V2 Hne.
  assert (Hk : k1 ≠ k2).
  { intros E. apply (f_equal snd) in E. cbn [snd] in E.
    destruct (strftime_ymd_inj _ _ V1 V2 E) as (? & ? & ?). congruence. }
  split; [apply save_price_stamps |].
  split; [intros k Hk1; apply save_price_other; exact Hk1 |].
  split; [exact Hk |].
  split; [apply save_price_other; exact Hk |].
  split; [apply save_price_stamps |].
  intros N1 N2.
  assert (N2' : prices d1 !! k2 = None).
  { subst d1. rewrite save_price_other by (intros E; apply Hk; symmetry; exact E).
    exact N2. }
  subst d2 d1. unfold save_price at 1, insert_on_conflict at 1.
  cbn [prices]. fold k2. rewrite N2'.
  rewrite map_size_insert_None by exact N2'.
  unfold save_price, insert_on_conflict. cbn [prices]. fold k1. rewrite N1.
  rewrite map_size_insert_None by exact N1. reflexivity.
Qed.

End PriceStore.

(** ** Sorting *)

Lemma StronglySorted_weaken {A} (R R' : A -> A -> Prop) (l : list A) :
  (forall a b, R a b -> R' a b) -> StronglySorted R l -> StronglySorted R' l.
Proof.
  intros HR. induction 1 as [|x l _ IH Hx]; constructor; [exact IH |].
  eapply Forall_impl; [exact Hx |]. intros y. apply HR.
Qed.

Section Sorting.
Import PyBuiltins.
Context {A : Type} (leb : A -> A -> bool).

Lemma insert_by_perm x (l : list A) : insert_by leb x l ≡ₚ x :: l.
Proof.
  induction l as [|y l IH]; simpl; [reflexivity |].
  destruct (leb x y); [reflexivity |].
  rewrite IH. apply Permutation_swap.
Qed.

Lemma sort_by_perm (l : list A) : sort_by leb l ≡ₚ l.
Proof.
  induction l as [|x l IH]; simpl; [reflexivity |].
  rewrite insert_by_perm. by f_equiv.
Qed.

Lemma elem_of_sort_by x (l : list A) : x ∈ sort_by leb l <-> x ∈ l.
Proof. by rewrite sort_by_perm. Qed.

Hypothesis leb_total : forall x y, leb x y = true \/ leb y x = true.
Hypothesis leb_trans :
  forall x y z, leb x y = true -> leb y z = true -> leb x z = true.

Lemma insert_by_sorted x (l : list A) :
  StronglySorted (λ a b, leb a b = true) l ->
  StronglySorted (λ a b, leb a b = true) (insert_by leb x l).
Proof.
  induction 1 as [|y l Hs IH Hy]; simpl.
  - repeat constructor.
  - destruct (leb x y) eqn:E.
    + constructor; [by constructor |].
      constructor; [exact E |].
      eapply Forall_impl; [exact Hy |]. intros z Hz. by eapply leb_trans.
    + constructor; [exact IH |].
      rewrite insert_by_perm. constructor; [| exact Hy].
      destruct (leb_total x y); congruence.
Qed.

Lemma sort_by_sorted (l : list A) :
  StronglySorted (λ a b, leb a b = true) (sort_by leb l).
Proof.
  induction l as [|x l IH]; simpl; [constructor |].
  by apply insert_by_sorted.
Qed.

End Sorting.

(** ** The price store: [get_comparison_data] *)

Section Comparison.
Import PyDatetime PyBuiltins Database.
Variable julianday : string -> option Q.

Lemma where_clause_spec day durations (r : prices_row) :
  where_clause julianday day durations r = true <->
  scrape_date r = day /\ is_Some (price r.2)
  /\ exists n, nights_of julianday r = Some n /\ n ∈ durations.
Proof.
  unfold where_clause. rewrite !andb_true_iff, !bool_decide_eq_true.
  destruct (nights_of julianday r) as [n|].
  - rewrite bool_decide_eq_true. split.
    + intros [[? ?] ?]. eauto.
    + intros (? & ? & m & [= <-] & ?). auto.
  - split; [intros [_ ?]; discriminate |].
    intros (_ & _ & m & ? & _). discriminate.
Qed.

(** C8, as the code has it. The result holds exactly the stored rows of
    the given scrape day whose price is not NULL and whose night count,
    the rounded difference of the Julian days of check-out and check-in,
    is one of the accepted durations, each with the selected columns. *)
Theorem get_comparison_data_exact day durations d (c : comparison_row) :
  c ∈ get_comparison_data julianday day durations d <->
  exists k cols,
    prices d !! k = Some cols
    /\ scrape_date (k, cols) = day
    /\ is_Some (price cols)
    /\ (exists n, nights_of julianday (k, cols) = Some n
                  /\ n ∈ default [2; 3; 4; 7] durations)
    /\ c = select_columns julianday (k, cols).
Proof.
  unfold get_comparison_data.
  rewrite elem_of_sort_by, list_elem_of_fmap.
  assert (E : match durations with Some l => l | None => [2; 3; 4; 7] end
              = default [2; 3; 4; 7] durations) by (by destruct durations).
  rewrite E. clear E. split.
  - intros ([k cols] & -> & Hin).
    apply list_elem_of_filter in Hin as [Hw Hin].
    apply elem_of_map_to_list in Hin.
    apply where_clause_spec in Hw as (? & ? & ?).
    exists k, cols. auto.
  - intros (k & cols & Hl & Hd & Hp & Hn & ->).
    exists (k, cols). split; [reflexivity |].
    apply list_elem_of_filter. split.
    + apply where_clause_spec. auto.
    + by apply elem_of_map_to_list.
Qed.

End Comparison.

(** ** The date window generator *)

Section DateWindows.
Import PyDatetime PyBuiltins BaseScraper Spec.

Lemma date_add_days_Some d n r : date_add_days d n = Some r -> r = d + n.
Proof. unfold date_add_days. case_match; congruence. Qed.

Lemma make_window_ok target name cfg w :
  make_window target (name, cfg) = Some w ->
  date_sub_days (check_out w) (check_in w) = nights w
  /\ stay_type w = name /\ nights w = cfg_nights cfg.
Proof.
  unfold make_window. cbn [fst snd]. intros H.
  destruct (dict_get _ day_map) as [target_day|]; [| discriminate].
  cbn in H.
  destruct (date_add_days target _) as [ci|] eqn:Eci; [| discriminate].
  cbn in H.
  destruct (date_add_days ci _) as [co|] eqn:Eco; [| discriminate].
  cbn in H. simplify_eq. cbn.
  apply date_add_days_Some in Eco. unfold date_sub_days. repeat split. lia.
Qed.

(** The check-in of a window is the first day on or after the target
    that falls on the anchor weekday. *)
Lemma make_window_anchor target name cfg w :
  make_window target (name, cfg) = Some w ->
  target <= check_in w <= target + 6
  /\ dict_get (cfg_check_in_day cfg) day_map = Some (weekday (check_in w)).
Proof.
  unfold make_window. cbn [fst snd]. intros H.
  destruct (dict_get _ day_map) as [target_day|] eqn:Ed; [| discriminate].
  cbn in H.
  destruct (date_add_days target _) as [ci|] eqn:Eci; [| discriminate].
  cbn in H.
  destruct (date_add_days ci _) as [co|] eqn:Eco; [| discriminate].
  cbn in H. simplify_eq. cbn.
  apply date_add_days_Some in Eci. subst ci.
  pose proof (Z.mod_pos_bound (target_day - weekday target) 7 ltac:(lia)).
  split; [lia |]. f_equal.
  assert (Hd : 0 <= target_day < 7).
  { unfold day_map in Ed. cbn in Ed.
    repeat (destruct (String.eqb _ _); [simplify_eq; lia |]).
    discriminate. }
  unfold weekday in *.
  rewrite <- Z.add_assoc, (Z.add_comm _ 6), Z.add_assoc.
  rewrite Zplus_mod_idemp_r.
  replace (target + 6 + (target_day - (target + 6) mod 7))
    with (target_day + ((target + 6) - (target + 6) mod 7)) by lia.
  rewrite (Z.div_mod (target + 6) 7) at 1 by lia.
  replace (target_day + (7 * ((target + 6) / 7) + (target + 6) mod 7
                         - (target + 6) mod 7))
    with (target_day + ((target + 6) / 7) * 7) by lia.
  rewrite Z.mod_add by lia. symmetry. apply Z.mod_small. exact Hd.
Qed.

Local Arguments make_window : simpl never.
Local Arguments date_add_days : simpl never.

Lemma windows_for_ok target stays ws :
  windows_for target stays = Some ws -> Forall (window_ok stays) ws.
Proof.
  revert ws. induction stays as [|[name cfg] stays IH]; intros ws H.
  - cbn in H. simplify_eq. constructor.
  - cbn in H.
    destruct (make_window target (name, cfg)) as [w|] eqn:Ew; [| discriminate].
    cbn in H.
    destruct (windows_for target stays) as [ws'|]; [| discriminate].
    cbn in H. simplify_eq.
    apply make_window_ok in Ew as (Hn & Hs & Hc).
    constructor.
    + split; [exact Hn |]. exists cfg. rewrite Hs. split; [left | done].
    + eapply Forall_impl; [apply IH; reflexivity |].
      intros w' [? (cfg' & ? & ?)]. split; [done |].
      exists cfg'. split; [by right | done].
Qed.

Lemma all_windows_ok today offsets stays ws :
  all_windows today offsets stays = Some ws -> Forall (window_ok stays) ws.
Proof.
  revert ws. induction offsets as [|o offsets IH]; intros ws H.
  - cbn in H. simplify_eq. constructor.
  - cbn in H.
    destruct (date_add_days today o) as [target|]; [| discriminate].
    cbn in H.
    destruct (windows_for target stays) as [ws1|] eqn:E1; [| discriminate].
    cbn in H.
    destruct (all_windows today offsets stays) as [ws2|]; [| discriminate].
    cbn in H. simplify_eq.
    apply Forall_app. split; [by eapply windows_for_ok | by apply IH].
Qed.

Lemma remove_duplicates_spec seen dates :
  NoDup (window_key <$> remove_duplicates seen dates)
  /\ forall w, w ∈ remove_duplicates seen dates ->
               (window_key w ∉ seen) /\ (w ∈ dates).
Proof.
  revert seen. induction dates as [|d dates IH]; intros seen; simpl.
  - split; [constructor | intros w Hw; inversion Hw].
  - destruct (decide (_ ∈ seen)) as [Hin|Hnin].
    + destruct (IH seen) as [Hnd Hsub]. split; [exact Hnd |].
      intros w Hw. destruct (Hsub w Hw). split; [done | by right].
    + destruct (IH ({[(check_in d, check_out d)]} ∪ seen)) as [Hnd Hsub].
      split.
      * cbn. constructor; [| exact Hnd].
        intros Hd. apply list_elem_of_fmap in Hd as (w & Hk & Hw).
        destruct (Hsub w Hw) as [Hns _]. apply Hns.
        unfold window_key in *. rewrite <- Hk.
        apply elem_of_union_l, elem_of_singleton. reflexivity.
      * intros w Hw. apply elem_of_cons in Hw as [-> | Hw].
        -- split; [exact Hnin | left].
        -- destruct (Hsub w Hw) as [Hns ?].
           split; [| by right].
           intros Hs. apply Hns, elem_of_union_r, Hs.
Qed.

(** Nothing but duplicates is dropped: every generated pair of dates is
    still there. *)
Lemma remove_duplicates_complete seen dates w :
  w ∈ dates -> window_key w ∉ seen ->
  window_key w ∈ window_key <$> remove_duplicates seen dates.
Proof.
  revert seen. induction dates as [|d dates IH]; intros seen Hw Hs0.
  - inversion Hw.
  - simpl. apply elem_of_cons in Hw as [<- | Hw].
    + destruct (decide (_ ∈ seen)) as [Hin|Hnin]; [done |].
      cbn. left.
    + destruct (decide (_ ∈ seen)) as [Hin|Hnin]; [by apply IH |].
      cbn. destruct (decide (window_key w = window_key d)) as [E|NE].
      * rewrite E. left.
      * right. apply IH; [done |]. unfold window_key in *.
        intros [Hs%elem_of_singleton | Hs]%elem_of_union; [by apply NE | by apply Hs0].
Qed.

Lemma date_add_days_in_range d n :
  1 <= d + n <= MAXORDINAL -> date_add_days d n = Some (d + n).
Proof.
  intros H. unfold date_add_days.
  destruct (Z.leb_spec 1 (d + n)); [| lia].
  destruct (Z.leb_spec (d + n) MAXORDINAL); [reflexivity | lia].
Qed.

Lemma make_window_returns (N : Z) target stay :
  1 <= target -> target + 6 + N <= MAXORDINAL ->
  is_Some (dict_get (cfg_check_in_day stay.2) day_map) ->
  0 <= cfg_nights stay.2 <= N ->
  is_Some (make_window target stay).
Proof.
  intros Ht HN [target_day Hd] Hn. unfold make_window. rewrite Hd. cbn.
  pose proof (Z.mod_pos_bound (target_day - weekday target) 7 ltac:(lia)).
  rewrite date_add_days_in_range by lia. cbn.
  rewrite date_add_days_in_range by lia. cbn. eauto.
Qed.

Lemma windows_for_returns (N : Z) target stays :
  1 <= target -> target + 6 + N <= MAXORDINAL ->
  Forall (λ stay, is_Some (dict_get (cfg_check_in_day stay.2) day_map)
                  /\ 0 <= cfg_nights stay.2 <= N) stays ->
  is_Some (windows_for target stays).
Proof.
  intros Ht HN. induction 1 as [|stay stays [Hd Hn] _ IH]; cbn; [eauto |].
  destruct (make_window_returns N target stay Ht HN Hd Hn) as [w ->].
  destruct IH as [ws ->]. cbn. eauto.
Qed.

(** X14. The generator returns a list whenever the anchor weekdays are
    names of [day_map], the night counts lie between 0 and some bound,
    and every target date, with six days and that bound added, stays
    within the range of [date]: no [KeyError] and no [OverflowError]. *)
Lemma generate_check_dates_returns (N : Z) today days_ahead_list stay_types :
  0 <= N ->
  Forall (λ days_ahead, 1 <= today + days_ahead
                        /\ today + days_ahead + 6 + N <= MAXORDINAL)
    (default default_days_ahead_list days_ahead_list) ->
  Forall (λ stay, is_Some (dict_get (cfg_check_in_day stay.2) day_map)
                  /\ 0 <= cfg_nights stay.2 <= N)
    (default default_stay_types stay_types) ->
  is_Some (generate_check_dates today days_ahead_list stay_types).
Proof.
  intros HN Ho Hs. unfold generate_check_dates.
  assert (Ha : is_Some (all_windows today
                          (default default_days_ahead_list days_ahead_list)
                          (default default_stay_types stay_types))).
  { induction Ho as [|o offsets [H1 H2] _ IH]; cbn; [eauto |].
    rewrite date_add_days_in_range by lia. cbn.
    destruct (windows_for_returns N (today + o) _ H1 H2 Hs) as [ws ->].
    destruct IH as [ws' ->]. cbn. eauto. }
  destruct Ha as [dates ->]. cbn. eauto.
Qed.

Lemma check_in_leb_total a b :
  check_in_leb a b = true \/ check_in_leb b a = true.
Proof. unfold check_in_leb. lia. Qed.

Lemma check_in_leb_trans a b c :
  check_in_leb a b = true -> check_in_leb b c = true -> check_in_leb a c = true.
Proof. unfold check_in_leb. lia. Qed.

(** C4. Every window of the returned list has its dates [nights] apart,
    with [nights] the night count of its stay type; no two windows of the
    list have the same pair of dates; the list is sorted by check-in. *)
Theorem generate_check_dates_windows today days_ahead_list stay_types ws :
  generate_check_dates today days_ahead_list stay_types = Some ws ->
  Forall (window_ok (default default_stay_types stay_types)) ws
  /\ NoDup (window_key <$> ws)
  /\ StronglySorted (λ a b, check_in a <= check_in b) ws.
Proof.
  unfold generate_check_dates. intros H.
  destruct (all_windows today _ _) as [dates|] eqn:E; [| discriminate].
  cbn in H. simplify_eq.
  apply all_windows_ok in E.
  destruct (remove_duplicates_spec ∅ dates) as [Hnd Hsub].
  repeat split.
  - apply Forall_forall. intros w Hw.
    apply elem_of_sort_by in Hw. destruct (Hsub w Hw) as [_ Hin].
    exact (proj1 (Forall_forall _ _) E w Hin).
  - by rewrite sort_by_perm.
  - eapply StronglySorted_weaken;
      [| apply sort_by_sorted;
         [apply check_in_leb_total | apply check_in_leb_trans]].
    intros a b. unfold check_in_leb. lia.
Qed.

End DateWindows.

(** ** The grid adapter: [_resolve_date] *)

Section ResolveDate.
Import PyDatetime PyBuiltins BeerzeBultenScraper Spec.

Lemma datetime_ymd_Some y m d c :
  datetime_ymd y m d = Some c ->
  c = mk_datetime y m d 0 0 0 0 /\ valid_ymd y m d = true.
Proof. unfold datetime_ymd. case_match; [| discriminate]. by intros [= <-]. Qed.

Lemma sub_days_same_time a b :
  time_of_day a = time_of_day b -> sub_days a b = toordinal a - toordinal b.
Proof.
  intros E. unfold sub_days. rewrite E, Z.sub_diag, Z.add_0_r.
  apply Z.div_mul. unfold usec_per_day. lia.
Qed.

(** The distance the loop compares is the distance in calendar days when
    the reference carries no time of day. *)
Lemma consider_diff ref y m d c :
  time_of_day ref = 0 -> datetime_ymd y m d = Some c ->
  Z.abs (sub_days c ref) = day_distance c ref.
Proof.
  intros Hr Hc. apply datetime_ymd_Some in Hc as [-> _].
  unfold day_distance. rewrite sub_days_same_time; [reflexivity |].
  rewrite Hr. reflexivity.
Qed.

Lemma datetime_new_Built y m d c :
  datetime_new y m d = Built c <-> datetime_ymd y m d = Some c.
Proof.
  unfold datetime_new. split.
  - destruct (_ && _); [| discriminate].
    destruct (datetime_ymd y m d); [by intros [= ->] | discriminate].
  - intros H. destruct (datetime_ymd_Some _ _ _ _ H) as [_ Hv].
    unfold valid_ymd, MINYEAR, MAXYEAR in Hv.
    repeat (apply andb_prop in Hv as [Hv ?]).
    assert (days_in_month y m <= 31)
      by (unfold days_in_month; repeat case_match; lia).
    replace (fits_c_int y && fits_c_int m && fits_c_int d) with true
      by (symmetry; unfold fits_c_int; lia).
    by rewrite H.
Qed.

Lemma datetime_new_ValueError y m d :
  datetime_new y m d = ValueError -> datetime_ymd y m d = None.
Proof.
  unfold datetime_new. destruct (_ && _); [| discriminate].
  by destruct (datetime_ymd y m d).
Qed.

(** What the loop over the two years ends with. *)
Lemma best_candidate_spec ref m d best diff :
  time_of_day ref = 0 ->
  best_candidate ref m d = Returns (Some (best, diff)) ->
  (year best = year ref \/ year best = year ref + 1)
  /\ datetime_ymd (year best) m d = Some best
  /\ forall y c, y = year ref \/ y = year ref + 1 ->
                 datetime_ymd y m d = Some c ->
                 day_distance best ref <= day_distance c ref.
Proof.
  intros Hr. unfold best_candidate. cbn [years_loop]. unfold consider.
  destruct (datetime_new (year ref) m d) as [c1| |] eqn:E1;
    [| | discriminate];
    destruct (datetime_new (year ref + 1) m d) as [c2| |] eqn:E2;
    try discriminate;
    try apply datetime_new_Built in E1; try apply datetime_new_Built in E2;
    try apply datetime_new_ValueError in E1;
    try apply datetime_new_ValueError in E2.
  - rewrite (consider_diff _ _ _ _ _ Hr E1), (consider_diff _ _ _ _ _ Hr E2).
    pose proof (datetime_ymd_Some _ _ _ _ E1) as [Hc1 _].
    pose proof (datetime_ymd_Some _ _ _ _ E2) as [Hc2 _].
    destruct (Z.ltb_spec (day_distance c2 ref) (day_distance c1 ref));
      intros [= <- <-].
    + split; [right; by rewrite Hc2 |].
      split; [by rewrite Hc2 at 1 |].
      intros y c [-> | ->] Hc; [rewrite E1 in Hc | rewrite E2 in Hc];
        injection Hc as <-; lia.
    + split; [left; by rewrite Hc1 |].
      split; [by rewrite Hc1 at 1 |].
      intros y c [-> | ->] Hc; [rewrite E1 in Hc | rewrite E2 in Hc];
        injection Hc as <-; lia.
  - pose proof (datetime_ymd_Some _ _ _ _ E1) as [Hc1 _].
    intros [= <- <-].
    split; [left; by rewrite Hc1 |].
    split; [by rewrite Hc1 at 1 |].
    intros y c [-> | ->] Hc; [rewrite E1 in Hc | rewrite E2 in Hc];
      [injection Hc as <-; lia | discriminate].
  - pose proof (datetime_ymd_Some _ _ _ _ E2) as [Hc2 _].
    intros [= <- <-].
    split; [right; by rewrite Hc2 |].
    split; [by rewrite Hc2 at 1 |].
    intros y c [-> | ->] Hc; [rewrite E1 in Hc | rewrite E2 in Hc];
      [discriminate | injection Hc as <-; lia].
Qed.

(** C5, as the code has it. For a reference that is a calendar date, the
    resolved date is the header's day and month in the reference's year
    or the year after it, and among the valid dates of these two years it
    is one closest to the reference in calendar days. *)
Theorem resolve_date_nearest_of_two_years date_header ref :
  time_of_day ref = 0 ->
  resolves_nearest (λ y, y = year ref \/ y = year ref + 1) date_header ref.
Proof.
  intros Hr s. unfold _resolve_date.
  destruct (search_day_month _) as [[digits group]|] eqn:Es; [| discriminate].
  destruct (int_of_decimals digits) as [day|] eqn:Ed; [| discriminate].
  destruct (dict_get_text _ month_map) as [month|] eqn:Em; [| discriminate].
  destruct (best_candidate ref month day) as [[[best diff]|]|] eqn:Eb;
    try discriminate.
  cbn [fst]. intros [= <-].
  destruct (best_candidate_spec _ _ _ _ _ Hr Eb) as (Hy & Hv & Hmin).
  exists digits, group, day, month, best.
  repeat split; assumption || reflexivity.
Qed.

End ResolveDate.

(** ** The orchestrator: retries and run classification *)

Section Orchestrator.
Import PyDatetime PyBuiltins Database BaseScraper Spec.
Variable now_at : nat -> datetime.
Variable time_at : nat -> Q.
Variable scrape_price : nat -> nat -> outcome.

Abbreviation attempt_loop := (attempt_loop now_at time_at scrape_price).
Abbreviation window_loop := (window_loop now_at time_at scrape_price).
Abbreviation run_windows := (run_windows now_at time_at scrape_price).
Abbreviation run := (run now_at time_at scrape_price).

Ltac use_IH IH :=
  match goal with
  | |- context [BaseScraper.attempt_loop _ _ _ _ _ _ _ _ ?s] =>
      destruct (IH s) as (Hc & Hr & He)
  end.

Lemma _wait_rate_limit_db self w :
  w_db (_wait_rate_limit time_at self w) = w_db w.
Proof. unfold _wait_rate_limit. cbn. by case_match. Qed.

Lemma attempt_loop_scrape_log self persons i d attempts s :
  scrape_log (w_db (attempt_loop self persons i d attempts s).1)
  = scrape_log (w_db s.1).
Proof.
  revert s. induction attempts as [|a attempts IH]; intros s; [reflexivity |].
  cbn [BaseScraper.attempt_loop].
  destruct (scrape_price i a) as [[result|]| |];
    rewrite ?IH; cbn [fst snd db_save_price w_db];
    rewrite ?save_price_scrape_log; by rewrite _wait_rate_limit_db.
Qed.

Lemma window_loop_scrape_log self persons i dates s :
  scrape_log (w_db (window_loop self persons i dates s).1)
  = scrape_log (w_db s.1).
Proof.
  revert i s. induction dates as [|d dates IH]; intros i s; [reflexivity |].
  cbn [BaseScraper.window_loop]. rewrite IH. apply attempt_loop_scrape_log.
Qed.

Lemma count_failure_last self (a : nat) l :
  Z.of_nat a = self_max_retries self ->
  count_failure self a l
  = mk_run_locals (results l) (errors l + 1) (calls l) (pages l).
Proof. intros E. unfold count_failure. by rewrite E, Z.eqb_refl. Qed.

Lemma count_failure_not_last self (a : nat) l :
  Z.of_nat a ≠ self_max_retries self -> count_failure self a l = l.
Proof.
  intros E. unfold count_failure.
  by destruct (Z.eqb_spec (Z.of_nat a) (self_max_retries self)).
Qed.

(** What a window that fails on every attempt does to the locals: one
    call per attempt, no record, and one more error exactly when the
    attempt numbered [max_retries] is made and raises. *)
Lemma attempt_loop_failing self persons i d (m : nat) :
  Z.of_nat m = self_max_retries self ->
  forall (n a : nat) s,
    (a + n = S m)%nat ->
    (forall k, (a <= k < a + n)%nat -> fails (scrape_price i k)) ->
    let s' := attempt_loop self persons i d (seq a n) s in
    calls s'.2 = calls s.2 ++ ((λ k, (i, k)) <$> seq a n)
    /\ results s'.2 = results s.2
    /\ errors s'.2
       = errors s.2
         + (if (0 <? n)%nat && raises (scrape_price i m) then 1 else 0).
Proof.
  intros Hm. induction n as [|n IH]; intros a s Han Hf.
  - cbn. rewrite app_nil_r. repeat split. lia.
  - assert (Hfa : fails (scrape_price i a)) by (apply Hf; lia).
    assert (Hrest : forall k, (S a <= k < S a + n)%nat -> fails (scrape_price i k))
      by (intros k Hk; apply Hf; lia).
    specialize (fun s => IH (S a) s ltac:(lia) Hrest).
    cbn [seq BaseScraper.attempt_loop fmap list_fmap].
    destruct n as [|n].
    + (* the attempt numbered [max_retries] *)
      assert (a = m) by lia. subst a.
      rewrite !count_failure_last by exact Hm.
      destruct (scrape_price i m) as [[result|]| |] eqn:Eo;
        [exfalso; by apply (Hfa result) | | |];
        cbn; repeat split; lia.
    + (* an earlier attempt *)
      rewrite !count_failure_not_last by lia.
      destruct (scrape_price i a) as [[result|]| |] eqn:Eo;
        [exfalso; by apply (Hfa result) | | |];
        use_IH IH; cbn [fst snd calls results errors] in *;
        rewrite Hc, Hr, He, <- app_assoc; repeat split.
Qed.

(** The same for the whole range of attempts of one window. *)
Lemma attempt_loop_failing_window self persons i d s :
  0 <= self_max_retries self ->
  (forall k, (1 <= k <= Z.to_nat (self_max_retries self))%nat ->
             fails (scrape_price i k)) ->
  let s' := attempt_loop self persons i d (attempt_range self) s in
  calls s'.2
  = calls s.2 ++ ((λ k, (i, k)) <$> seq 1 (Z.to_nat (self_max_retries self)))
  /\ results s'.2 = results s.2
  /\ errors s'.2
     = errors s.2
       + (if (0 <? self_max_retries self)
             && raises (scrape_price i (Z.to_nat (self_max_retries self)))
          then 1 else 0).
Proof.
  intros Hpos Hf. unfold attempt_range.
  destruct (attempt_loop_failing self persons i d
              (Z.to_nat (self_max_retries self)) ltac:(lia)
              (Z.to_nat (self_max_retries self)) 1%nat s ltac:(lia))
    as (Hc & Hr & He).
  { intros k Hk. apply Hf. lia. }
  repeat split; [exact Hc | exact Hr |].
  rewrite He. f_equal.
  destruct (Z.ltb_spec 0 (self_max_retries self));
    destruct (Nat.ltb_spec 0 (Z.to_nat (self_max_retries self)));
    try lia; reflexivity.
Qed.

(** X15. A window on which every attempt raises, by a timeout or
    another exception, is tried exactly [max_retries] times, in the order
    of the attempt numbers; it adds one to the error counter and no
    record to the results. *)
Lemma attempt_loop_every_attempt_raises self persons i d s :
  1 <= self_max_retries self ->
  (forall k, (1 <= k <= Z.to_nat (self_max_retries self))%nat ->
             raises (scrape_price i k) = true) ->
  let s' := attempt_loop self persons i d (attempt_range self) s in
  calls s'.2
  = calls s.2 ++ ((λ k, (i, k)) <$> seq 1 (Z.to_nat (self_max_retries self)))
  /\ Z.of_nat (length (calls s'.2)) - Z.of_nat (length (calls s.2))
     = self_max_retries self
  /\ results s'.2 = results s.2
  /\ errors s'.2 = errors s.2 + 1.
Proof.
  intros Hpos Hr.
  destruct (attempt_loop_failing_window self persons i d s ltac:(lia))
    as (Hc & Hres & He).
  { intros k Hk result E. specialize (Hr k Hk). rewrite E in Hr. discriminate. }
  split; [exact Hc |]. split.
  { rewrite Hc, length_app, length_fmap, length_seq. lia. }
  split; [exact Hres |].
  rewrite He, Hr by lia.
  destruct (Z.ltb_spec 0 (self_max_retries self)); [reflexivity | lia].
Qed.

(** A window on which every attempt fails and the last one returns
    [None]: exactly [max_retries] calls, no record, and no error counted. *)
Lemma attempt_loop_last_returns_none self persons i d s :
  0 <= self_max_retries self ->
  (forall k, (1 <= k <= Z.to_nat (self_max_retries self))%nat ->
             fails (scrape_price i k)) ->
  scrape_price i (Z.to_nat (self_max_retries self)) = Returned None ->
  let s' := attempt_loop self persons i d (attempt_range self) s in
  Z.of_nat (length (calls s'.2)) - Z.of_nat (length (calls s.2))
  = self_max_retries self
  /\ results s'.2 = results s.2
  /\ errors s'.2 = errors s.2.
Proof.
  intros Hpos Hf Hlast.
  destruct (attempt_loop_failing_window self persons i d s Hpos Hf)
    as (Hc & Hres & He).
  split.
  { rewrite Hc, length_app, length_fmap, length_seq. lia. }
  split; [exact Hres |].
  rewrite He, Hlast. cbn. rewrite andb_false_r. lia.
Qed.

(** The windows are processed one after the other: whatever a window
    does, the loop goes on with the windows that follow it. *)
Lemma window_loop_app self persons i dates1 dates2 s :
  window_loop self persons i (dates1 ++ dates2) s
  = window_loop self persons (i + length dates1) dates2
      (window_loop self persons i dates1 s).
Proof.
  revert i s. induction dates1 as [|d dates1 IH]; intros i s; cbn.
  - by rewrite Nat.add_0_r.
  - rewrite IH. by rewrite Nat.add_succ_r.
Qed.

End Orchestrator.

(** ** Run classification and the scrape log *)

Section RunClassification.
Import PyDatetime PyBuiltins Database BaseScraper Spec.
Variable now_at : nat -> datetime.
Variable time_at : nat -> Q.
Variable scrape_price : nat -> nat -> outcome.

Lemma run_status_classified errors (results : list record) :
  classified errors (length results) (run_status errors results).
Proof.
  unfold classified, run_status.
  destruct (Z.eqb_spec errors 0); destruct results; cbn;
    repeat split; intros; congruence.
Qed.

Lemma departures_loop_scrape_log self persons check_in_dt departures s :
  scrape_log
    (w_db (HolidayAgentScraper.departures_loop now_at self persons
             check_in_dt departures s).1.1)
  = scrape_log (w_db s.1).
Proof.
  revert s. induction departures as [|dep departures IH]; intros s;
    [reflexivity |].
  cbn [HolidayAgentScraper.departures_loop].
  destruct (HolidayAgentScraper.departure_body _ _ _ _);
    rewrite ?IH; reflexivity.
Qed.

Lemma arrivals_loop_scrape_log self persons arrivals s :
  scrape_log
    (w_db (HolidayAgentScraper.arrivals_loop now_at self persons arrivals s).1.1)
  = scrape_log (w_db s.1).
Proof.
  revert s. induction arrivals as [|arr arrivals IH]; intros s; [reflexivity |].
  cbn [HolidayAgentScraper.arrivals_loop].
  destruct (String.eqb _ _); [apply IH |].
  destruct (strptime_dmy _); [| apply IH].
  destruct (HolidayAgentScraper.arr_departures arr) as [departures|];
    [| reflexivity].
  pose proof (departures_loop_scrape_log self persons d departures s) as Hd.
  destruct (HolidayAgentScraper.departures_loop _ _ _ _ _ _) as [s' raised].
  destruct raised; [exact Hd |]. rewrite IH. exact Hd.
Qed.

(** C2, as the code has it. A run of the window orchestrator writes one
    row to the scrape log, with the number of captured records and the
    status the error counter and that number give: [success] for no
    error, otherwise [partial] when a record was captured and [failed]
    when none was. A run of the REST batch adapter writes one row as
    well, with the number of captured records; its status is [success]
    when no exception reached the outer handler and [failed] otherwise. *)
Theorem run_logged_once_and_classified self persons w :
  (forall dates,
     let s := run_windows now_at time_at scrape_price self dates persons w in
     let out := run now_at time_at scrape_price self dates persons w in
     out.1 = results s.2
     /\ exists status,
          logged_once (w_db w) (w_db out.2) (self_competitor_name self)
            status (length out.1)
          /\ classified (errors s.2) (length out.1) status)
  /\ (forall fetched,
        let s := HolidayAgentScraper.scrape_arrivals now_at self fetched
                   persons (time_time time_at w).2 in
        let out := HolidayAgentScraper.run_efficient now_at time_at self
                     fetched persons w in
        out.1 = s.1.2
        /\ logged_once (w_db w) (w_db out.2) (self_competitor_name self)
             (if s.2 then "failed" else "success") (length out.1)).
Proof.
  split.
  - intros dates s out. subst out. unfold run. fold s.
    pose proof (window_loop_scrape_log now_at time_at scrape_price self
                  persons 0 dates
                  ((time_time time_at w).2, mk_run_locals [] 0 [] 1)) as Hlog.
    change (window_loop _ _ _ _ _ _ _ _) with s in Hlog.
    destruct s as [w1 l]. cbn [fst snd] in *.
    split; [reflexivity |].
    exists (run_status (errors l) (results l)).
    split; [| apply run_status_classified].
    eexists. cbn. rewrite Hlog. repeat split.
  - intros fetched s out. subst out. unfold HolidayAgentScraper.run_efficient.
    cbn [time_time].
    change (mk_world (w_db w) (S (w_ticks w)) (w_last_request_time w)
              (w_sleeps w)) with (time_time time_at w).2.
    fold s.
    assert (Hlog : scrape_log (w_db s.1.1) = scrape_log (w_db w)).
    { subst s. unfold HolidayAgentScraper.scrape_arrivals.
      destruct fetched as [arrivals|]; [| reflexivity].
      apply arrivals_loop_scrape_log. }
    destruct s as [[w1 all_records] raised]. cbn [fst snd] in *.
    split; [reflexivity |].
    eexists. cbn. rewrite Hlog. repeat split. by destruct raised.
Qed.

End RunClassification.

(** ** Night counts of the records the batch adapters store *)

Section NightCounts.
Import PyDatetime PyBuiltins Database BaseScraper Spec.
Variable now_at : nat -> datetime.
Variable time_at : nat -> Q.

Lemma departure_body_night_count self persons check_in_dt departure r :
  HolidayAgentScraper.departure_body self persons check_in_dt departure
  = HolidayAgentScraper.Store r ->
  night_count_in [2; 3; 4; 5; 7] r.
Proof.
  unfold HolidayAgentScraper.departure_body. intros H.
  destruct (HolidayAgentScraper.dep_nights departure) as [n|]; [| discriminate].
  destruct (HolidayAgentScraper.dep_prices departure); [| discriminate].
  destruct (bool_decide (n ∈ [2; 3; 4; 5; 7])) eqn:Hn; [| discriminate].
  apply bool_decide_eq_true in Hn. cbn [negb] in H.
  destruct (strptime_dmy _); [| discriminate].
  destruct (HolidayAgentScraper.dep_amountAvailable departure); [| discriminate].
  injection H as <-. exists n. split; [reflexivity | exact Hn].
Qed.

Lemma departures_loop_night_counts self persons check_in_dt departures s :
  Forall (night_count_in [2; 3; 4; 5; 7]) s.2 ->
  Forall (night_count_in [2; 3; 4; 5; 7])
    (HolidayAgentScraper.departures_loop now_at self persons check_in_dt
       departures s).1.2.
Proof.
  revert s. induction departures as [|dep departures IH]; intros s Hs;
    [exact Hs |].
  cbn [HolidayAgentScraper.departures_loop].
  destruct (HolidayAgentScraper.departure_body _ _ _ _) as [r| |] eqn:E;
    [| by apply IH | exact Hs].
  apply IH. cbn [snd]. apply Forall_app. split; [exact Hs |].
  constructor; [| constructor]. by eapply departure_body_night_count.
Qed.

Lemma arrivals_loop_night_counts self persons arrivals s :
  Forall (night_count_in [2; 3; 4; 5; 7]) s.2 ->
  Forall (night_count_in [2; 3; 4; 5; 7])
    (HolidayAgentScraper.arrivals_loop now_at self persons arrivals s).1.2.
Proof.
  revert s. induction arrivals as [|arr arrivals IH]; intros s Hs; [exact Hs |].
  cbn [HolidayAgentScraper.arrivals_loop].
  destruct (String.eqb _ _); [by apply IH |].
  destruct (strptime_dmy _) as [check_in_dt|]; [| by apply IH].
  destruct (HolidayAgentScraper.arr_departures arr) as [departures|];
    [| exact Hs].
  pose proof (departures_loop_night_counts self persons check_in_dt
                departures s Hs) as Hd.
  destruct (HolidayAgentScraper.departures_loop _ _ _ _ _ _) as [s' raised].
  destruct raised; [exact Hd | by apply IH].
Qed.

(** Every record the REST batch adapter stores has a night count among
    2, 3, 4, 5 and 7. *)
Lemma holidayagent_night_counts self fetched persons w :
  Forall (night_count_in [2; 3; 4; 5; 7])
    (HolidayAgentScraper.run_efficient now_at time_at self fetched persons w).1.
Proof.
  unfold HolidayAgentScraper.run_efficient. cbn [time_time].
  unfold HolidayAgentScraper.scrape_arrivals.
  destruct fetched as [arrivals|]; [| constructor].
  match goal with
  | |- context [HolidayAgentScraper.arrivals_loop _ _ _ _ ?s] =>
      pose proof (arrivals_loop_night_counts self persons arrivals s
                    ltac:(constructor)) as Ha
  end.
  destruct (HolidayAgentScraper.arrivals_loop _ _ _ _ _) as [[w1 rs] raised].
  exact Ha.
Qed.

Variable evaluate_at : nat -> WitterZomerScraper.evaluated.
Variable navigate_at : nat -> WitterZomerScraper.navigation.

Lemma records_loop_night_counts self persons records s :
  Forall (night_count_in [2; 3; 4; 7]) (WitterZomerScraper.all_records s.1.2) ->
  Forall (night_count_in [2; 3; 4; 7])
    (WitterZomerScraper.all_records
       (WitterZomerScraper.records_loop now_at self persons records s).1.2).
Proof.
  revert s. induction records as [|r records IH]; intros [[w l] m] Hs;
    [exact Hs |].
  cbn [WitterZomerScraper.records_loop].
  destruct (bool_decide (_ ∈ WitterZomerScraper.STAY_DURATIONS)) eqn:Hn;
    cbn [negb]; [| by apply IH].
  apply bool_decide_eq_true in Hn.
  destruct (decide (_ ∈ WitterZomerScraper.seen_keys l)); [by apply IH |].
  apply IH. cbn [fst snd WitterZomerScraper.all_records].
  apply Forall_app. split; [exact Hs |].
  constructor; [| constructor]. eexists. split; [reflexivity | exact Hn].
Qed.

Lemma pages_loop_night_counts self persons target_end_str page_nums s :
  Forall (night_count_in [2; 3; 4; 7]) (WitterZomerScraper.all_records s.2) ->
  Forall (night_count_in [2; 3; 4; 7])
    (WitterZomerScraper.all_records
       (WitterZomerScraper.pages_loop now_at time_at evaluate_at navigate_at
          self persons target_end_str page_nums s).2).
Proof.
  revert s. induction page_nums as [|page_num rest IH]; intros s Hs;
    [exact Hs |].
  cbn [WitterZomerScraper.pages_loop].
  destruct (WitterZomerScraper._parse_widget_matrix _)
    as [[records has_next]|]; [| exact Hs].
  pose proof (records_loop_night_counts self persons records (s, None) Hs) as Hr.
  destruct (WitterZomerScraper.records_loop _ _ _ _ _) as [[w l] m].
  cbn [fst snd] in Hr.
  repeat case_match; try exact Hr; by apply IH.
Qed.

(** Every record the rendered matrix adapter stores has a night count
    among 2, 3, 4 and 7. *)
Lemma witter_zomer_night_counts self months_ahead persons max_pages loaded w :
  Forall (night_count_in [2; 3; 4; 7])
    (WitterZomerScraper.run_efficient now_at time_at evaluate_at navigate_at
       self months_ahead persons max_pages loaded w).1.
Proof.
  unfold WitterZomerScraper.run_efficient. cbn [time_time].
  destruct loaded; [| constructor].
  match goal with
  | |- context [WitterZomerScraper.pages_loop _ _ _ _ ?a ?b ?c ?d ?e] =>
      pose proof (pages_loop_night_counts a b c d e ltac:(constructor)) as Hp;
      destruct (WitterZomerScraper.pages_loop _ _ _ _ a b c d e) as [w1 l]
  end.
  exact Hp.
Qed.

(** What one [save_price] of a record does to the rows written so
    far. *)
Lemma db_save_price_written whitelist before r (w : world) :
  night_count_in whitelist r ->
  written_night_counts_in whitelist before (w_db w) ->
  written_night_counts_in whitelist before (w_db (db_save_price now_at r w)).
Proof.
  intros (n & Hn & Hin) Hw k cols. unfold db_save_price. cbn [w_db].
  destruct (decide (k = (rec_competitor_name r, rec_check_in_date r,
                         rec_check_out_date r,
                         strftime_ymd (now_at (w_ticks w))))) as [-> | Hne].
  - intros Hk. right. exists n. split; [| exact Hin].
    destruct (prices (w_db w) !! (rec_competitor_name r, rec_check_in_date r,
                                  rec_check_out_date r,
                                  strftime_ymd (now_at (w_ticks w))))
      as [old|] eqn:E.
    + rewrite (save_price_conflict _ _ _ _ _ _ _ _ _ _ _ _ E) in Hk.
      injection Hk as <-. exact Hn.
    + rewrite (save_price_fresh _ _ _ _ _ _ _ _ _ _ _ E) in Hk.
      injection Hk as <-. exact Hn.
  - rewrite save_price_other by exact Hne. apply Hw.
Qed.

Lemma departures_loop_written self persons check_in_dt departures before s :
  written_night_counts_in [2; 3; 4; 5; 7] before (w_db s.1) ->
  written_night_counts_in [2; 3; 4; 5; 7] before
    (w_db (HolidayAgentScraper.departures_loop now_at self persons
             check_in_dt departures s).1.1).
Proof.
  revert s. induction departures as [|dep departures IH]; intros s Hs;
    [exact Hs |].
  cbn [HolidayAgentScraper.departures_loop].
  destruct (HolidayAgentScraper.departure_body _ _ _ _) as [r| |] eqn:E;
    [| by apply IH | exact Hs].
  apply IH. cbn [fst]. apply db_save_price_written; [| exact Hs].
  by eapply departure_body_night_count.
Qed.

Lemma arrivals_loop_written self persons arrivals before s :
  written_night_counts_in [2; 3; 4; 5; 7] before (w_db s.1) ->
  written_night_counts_in [2; 3; 4; 5; 7] before
    (w_db (HolidayAgentScraper.arrivals_loop now_at self persons arrivals
             s).1.1).
Proof.
  revert s. induction arrivals as [|arr arrivals IH]; intros s Hs; [exact Hs |].
  cbn [HolidayAgentScraper.arrivals_loop].
  destruct (String.eqb _ _); [by apply IH |].
  destruct (strptime_dmy _) as [check_in_dt|]; [| by apply IH].
  destruct (HolidayAgentScraper.arr_departures arr) as [departures|];
    [| exact Hs].
  pose proof (departures_loop_written self persons check_in_dt departures
                before s Hs) as Hd.
  destruct (HolidayAgentScraper.departures_loop _ _ _ _ _ _) as [s' raised].
  destruct raised; [exact Hd | by apply IH].
Qed.

Lemma records_loop_written self persons records before s :
  written_night_counts_in [2; 3; 4; 7] before (w_db s.1.1) ->
  written_night_counts_in [2; 3; 4; 7] before
    (w_db (WitterZomerScraper.records_loop now_at self persons records
             s).1.1).
Proof.
  revert s. induction records as [|r records IH]; intros [[w l] m] Hs;
    [exact Hs |].
  cbn [WitterZomerScraper.records_loop].
  destruct (bool_decide (_ ∈ WitterZomerScraper.STAY_DURATIONS)) eqn:Hn;
    cbn [negb]; [| by apply IH].
  apply bool_decide_eq_true in Hn.
  destruct (decide (_ ∈ WitterZomerScraper.seen_keys l)); [by apply IH |].
  apply IH. cbn [fst]. apply db_save_price_written; [| exact Hs].
  eexists. split; [reflexivity | exact Hn].
Qed.

Lemma pages_loop_written self persons target_end_str page_nums before s :
  written_night_counts_in [2; 3; 4; 7] before (w_db s.1) ->
  written_night_counts_in [2; 3; 4; 7] before
    (w_db (WitterZomerScraper.pages_loop now_at time_at evaluate_at
             navigate_at self persons target_end_str page_nums s).1).
Proof.
  revert s. induction page_nums as [|page_num rest IH]; intros s Hs;
    [exact Hs |].
  cbn [WitterZomerScraper.pages_loop].
  destruct (WitterZomerScraper._parse_widget_matrix _)
    as [[records has_next]|]; [| exact Hs].
  pose proof (records_loop_written self persons records before (s, None) Hs)
    as Hr.
  destruct (WitterZomerScraper.records_loop _ _ _ _ _) as [[w l] m].
  cbn [fst snd] in Hr.
  assert (Hw : written_night_counts_in [2; 3; 4; 7] before
                 (w_db (_wait_rate_limit time_at self w)))
    by (by rewrite _wait_rate_limit_db).
  repeat case_match; try exact Hr; try exact Hw; by apply IH.
Qed.

(** C7, as the code has it. Every record the REST batch adapter stores
    has a night count among 2, 3, 4, 5 and 7, and every record the
    rendered matrix adapter stores has one among 2, 3, 4 and 7: this
    holds of the records a run returns, which are the ones it passed to
    [save_price], and of every row of table [prices] that the run wrote
    or changed. *)
Theorem adapters_store_listed_night_counts self persons w :
  (forall fetched,
     let out := HolidayAgentScraper.run_efficient now_at time_at self fetched
                  persons w in
     Forall (night_count_in [2; 3; 4; 5; 7]) out.1
     /\ written_night_counts_in [2; 3; 4; 5; 7] (w_db w) (w_db out.2))
  /\ (forall months_ahead max_pages loaded,
        let out := WitterZomerScraper.run_efficient now_at time_at
                     evaluate_at navigate_at self months_ahead persons
                     max_pages loaded w in
        Forall (night_count_in [2; 3; 4; 7]) out.1
        /\ written_night_counts_in [2; 3; 4; 7] (w_db w) (w_db out.2)).
Proof.
  assert (H0 : forall l, written_night_counts_in l (w_db w) (w_db w))
    by (intros l k cols Hk; by left).
  split.
  - intros fetched out. split; [apply holidayagent_night_counts |].
    subst out. unfold HolidayAgentScraper.run_efficient. cbn [time_time].
    unfold HolidayAgentScraper.scrape_arrivals.
    destruct fetched as [arrivals|]; [| apply H0].
    match goal with
    | |- context [HolidayAgentScraper.arrivals_loop _ _ _ _ ?s] =>
        pose proof (arrivals_loop_written self persons arrivals (w_db w) s
                      (H0 _)) as Ha
    end.
    destruct (HolidayAgentScraper.arrivals_loop _ _ _ _ _)
      as [[w1 rs] raised].
    exact Ha.
  - intros months_ahead max_pages loaded out.
    split; [apply witter_zomer_night_counts |].
    subst out. unfold WitterZomerScraper.run_efficient. cbn [time_time].
    destruct loaded; [| apply H0].
    match goal with
    | |- context [WitterZomerScraper.pages_loop _ _ _ _ ?a ?b ?c ?d ?e] =>
        pose proof (pages_loop_written a b c d (w_db w) e (H0 _)) as Hp;
        destruct (WitterZomerScraper.pages_loop _ _ _ _ a b c d e) as [w1 l]
    end.
    exact Hp.
Qed.

End NightCounts.

(** ** The properties at concrete inputs *)

Section Concrete.
Import PyDatetime PyBuiltins Database BaseScraper Spec Examples.

(** The scenario of the design document: a stored quote of 100,
    available, survives an upsert without a price that says
    unavailable. *)
Lemma save_price_absent_price_keeps_quote_witness :
  prices db_quote_100 !! ("Test", "2026-01-01", "2026-01-04", strftime_ymd day1)
  = Some (mk_prices_cols "Test" (Some (100 # 1)%Q) true (Some 3) None 4
            (isoformat day1))
  /\ exists new,
       prices (save_price day1 "Test" "Test" "2026-01-01" "2026-01-04" None
                 false (Some 3) None 4 db_quote_100)
         !! ("Test", "2026-01-01", "2026-01-04", strftime_ymd day1) = Some new
       /\ price new = Some (100 # 1)%Q /\ available new = true.
Proof.
  split; [reflexivity |].
  exact (save_price_absent_price_keeps_quote day1 "Test" "Test" "2026-01-01"
           "2026-01-04" false (Some 3) None 4 db_quote_100 _ eq_refl).
Defined.

(** A second scrape of the same stay on the same day, with another
    accommodation label, offer and occupancy. *)
Lemma save_price_overwrites_other_fields_witness :
  prices db_quote_100 !! ("Test", "2026-01-01", "2026-01-04", strftime_ymd day1)
  = Some (mk_prices_cols "Test" (Some (100 # 1)%Q) true (Some 3) None 4
            (isoformat day1))
  /\ exists new,
       prices (save_price day1 "Test" "Lodge" "2026-01-01" "2026-01-04" None
                 false (Some 2) (Some "Korting: EUR 25") 6 db_quote_100)
         !! ("Test", "2026-01-01", "2026-01-04", strftime_ymd day1) = Some new
       /\ accommodation_type new = "Lodge" /\ min_nights new = Some 2
       /\ special_offers new = Some "Korting: EUR 25" /\ persons new = 6
       /\ scrape_timestamp new = isoformat day1.
Proof.
  split; [reflexivity |].
  exact (save_price_overwrites_other_fields day1 "Test" "Lodge" "2026-01-01"
           "2026-01-04" None false (Some 2) (Some "Korting: EUR 25") 6
           db_quote_100 _ eq_refl).
Defined.

(** The same call on two consecutive days leaves two rows. *)
Lemma save_price_keyed_by_clock_day_witness :
  valid_ymd (year day1) (month day1) (day day1) = true
  /\ valid_ymd (year day2) (month day2) (day day2) = true
  /\ (year day1, month day1, day day1) ≠ (year day2, month day2, day day2)
  /\ size (prices
             (save_price day2 "Test" "Test" "2026-01-01" "2026-01-04"
                (Some (100 # 1)%Q) true (Some 3) None 4 db_quote_100))
     = 2%nat.
Proof.
  assert (Hne : (year day1, month day1, day day1)
                ≠ (year day2, month day2, day day2)) by (intros [=]).
  split; [reflexivity |]. split; [reflexivity |]. split; [exact Hne |].
  exact (proj2 (proj2 (proj2 (proj2 (proj2
           (save_price_keyed_by_clock_day day1 day2 "Test" "Test"
              "2026-01-01" "2026-01-04" (Some (100 # 1)%Q) true (Some 3) None 4
              empty_db eq_refl eq_refl Hne))))) eq_refl eq_refl).
Defined.

(** The generator on Monday 2026-01-05 with the offsets 7 and 10: the
    two Fridays the offsets lead to are the same day, so two of the six
    generated windows are dropped. *)
Lemma generate_check_dates_windows_witness :
  let ws :=
    [mk_date_window 739628 739632 "midweek" 4;
     mk_date_window 739632 739634 "weekend" 2;
     mk_date_window 739632 739639 "week" 7;
     mk_date_window 739635 739639 "midweek" 4] in
  generate_check_dates (ymd2ord 2026 1 5) (Some [7; 10]) None = Some ws
  /\ Forall (window_ok default_stay_types) ws
  /\ NoDup (window_key <$> ws)
  /\ StronglySorted (λ a b, check_in a <= check_in b) ws.
Proof.
  intros ws. split; [reflexivity |].
  exact (generate_check_dates_windows (ymd2ord 2026 1 5) (Some [7; 10]) None
           ws eq_refl).
Defined.

(** The scenario of the design document: "27 feb" seen from 2026-01-05
    is 2026-02-27. *)
Lemma resolve_date_nearest_of_two_years_witness :
  let ref := mk_datetime 2026 1 5 0 0 0 0 in
  time_of_day ref = 0
  /\ BeerzeBultenScraper._resolve_date (code_points "27 feb") ref
     = BeerzeBultenScraper.Returns (Some "2026-02-27")
  /\ resolves_nearest (λ y, y = 2026 \/ y = 2027) (code_points "27 feb") ref.
Proof.
  intros ref. split; [reflexivity |]. split; [reflexivity |].
  exact (resolve_date_nearest_of_two_years (code_points "27 feb") ref eq_refl).
Defined.

(** C5 as it is stated fails: seen from 2026-01-05, "27 dec" resolves to
    2026-12-27, 356 days ahead, although 2025-12-27 is 9 days back. The
    year before the reference is never tried. *)
Lemma resolve_date_not_nearest_of_all_years :
  let ref := mk_datetime 2026 1 5 0 0 0 0 in
  BeerzeBultenScraper._resolve_date (code_points "27 dec") ref
  = BeerzeBultenScraper.Returns (Some "2026-12-27")
  /\ ~ resolves_nearest (λ _, True) (code_points "27 dec") ref.
Proof.
  intros ref. split; [reflexivity |].
  intros H.
  destruct (H "2026-12-27" eq_refl)
    as (digits & group & dd & mm & best & Hs & Hd & Hm & Hv & _ & Hstr & Hmin).
  vm_compute in Hs. injection Hs as <- <-.
  vm_compute in Hd. injection Hd as <-.
  vm_compute in Hm. injection Hm as <-.
  destruct (datetime_ymd_Some _ _ _ _ Hv) as [Hb Hvalid].
  assert (Hy : 2026 = year best).
  { refine (proj1 (strftime_ymd_inj (mk_datetime 2026 12 27 0 0 0 0) best
                     eq_refl _ Hstr)).
    rewrite Hb. exact Hvalid. }
  specialize (Hmin 2025 (mk_datetime 2025 12 27 0 0 0 0) I eq_refl).
  rewrite Hb, <- Hy in Hmin. vm_compute in Hmin. by apply Hmin.
Qed.

(** A reference with a time of day: the distances the loop compares are
    floors of differences, and for "1 jan" seen from 2025-07-02 at
    10:00 the later candidate wins although it is one calendar day
    farther. *)
Example resolve_date_time_of_day :
  let ref := mk_datetime 2025 7 2 10 0 0 0 in
  BeerzeBultenScraper._resolve_date (code_points "1 jan") ref
  = BeerzeBultenScraper.Returns (Some "2026-01-01")
  /\ day_distance (mk_datetime 2026 1 1 0 0 0 0) ref = 183
  /\ day_distance (mk_datetime 2025 1 1 0 0 0 0) ref = 182.
Proof. repeat split. Qed.

(** C8 as it is stated fails: the stored row of the unavailable stay is
    of the requested scrape day and lasts three nights, and the
    comparison for three nights does not return it, because its price is
    NULL. *)
Lemma get_comparison_data_omits_null_price :
  let k := ("De Boshoek", "2026-04-12", "2026-04-15", "2026-02-01") in
  let cols := mk_prices_cols "Bungalow Zeumeren" None false (Some 3) None 4
                "2026-02-01T07:00:00" in
  prices db_no_price !! k = Some cols
  /\ scrape_date (k, cols) = "2026-02-01"
  /\ nights_of julianday_date_only (k, cols) = Some 3
  /\ 3 ∈ [3]
  /\ get_comparison_data julianday_date_only "2026-02-01" (Some [3])
       db_no_price = [].
Proof. repeat split. left. Qed.

(** C2 as it is stated fails on the REST batch adapter: the first arrival
    yields a record, the second raises in the loop header, the outer
    handler counts the error, and the run is logged [failed] with one
    record, not [partial]. *)
Lemma holidayagent_failed_with_records :
  let s := HolidayAgentScraper.scrape_arrivals now_at camping_ommerland
             (Some arrivals_null_departures) 4 (time_time time_at w0).2 in
  let out := HolidayAgentScraper.run_efficient now_at time_at
               camping_ommerland (Some arrivals_null_departures) 4 w0 in
  s.2 = true
  /\ length out.1 = 1%nat
  /\ logged_once (w_db w0) (w_db out.2) "Camping Ommerland" "failed" 1
  /\ ~ classified 1 1 "failed".
Proof.
  intros s out. split; [reflexivity |]. split; [reflexivity |]. split.
  - eexists. repeat split.
  - intros (_ & Hp & _). specialize (Hp ltac:(lia) ltac:(lia)). discriminate.
Qed.

(** C3 at an input the code mishandles: a window on which [scrape_price]
    returns [None] on each of the three attempts. The attempts are made,
    the error counter stays at zero, and the run is logged [success]
    with no record. *)
Theorem run_none_on_every_attempt_not_counted :
  let s := run_windows now_at time_at never_a_grid beerze_bulten
             [window_march] 4 w0 in
  let out := run now_at time_at never_a_grid beerze_bulten [window_march] 4 w0 in
  (forall attempt, fails (never_a_grid 0 attempt))
  /\ calls s.2 = [(0, 1); (0, 2); (0, 3)]%nat
  /\ results s.2 = []
  /\ errors s.2 = 0
  /\ logged_once (w_db w0) (w_db out.2) "Beerze Bulten" "success" 0.
Proof.
  intros s out. split; [intros attempt result; discriminate |].
  split; [reflexivity |]. split; [reflexivity |]. split; [reflexivity |].
  eexists. repeat split.
Qed.

(** The same window when every attempt times out: the attempts are made
    and the error is counted. *)
Example run_timeout_on_every_attempt_counted :
  let s := run_windows now_at time_at always_timeout beerze_bulten
             [window_march] 4 w0 in
  let out := run now_at time_at always_timeout beerze_bulten
               [window_march] 4 w0 in
  calls s.2 = [(0, 1); (0, 2); (0, 3)]%nat
  /\ errors s.2 = 1
  /\ logged_once (w_db w0) (w_db out.2) "Beerze Bulten" "failed" 0.
Proof.
  intros s out. split; [reflexivity |]. split; [reflexivity |].
  eexists. repeat split.
Qed.

(** C7 as it is stated fails: a departure after five nights is stored
    by the REST batch adapter, whose list of accepted night counts is 2,
    3, 4, 5 and 7. *)
Theorem holidayagent_stores_five_nights :
  let out := HolidayAgentScraper.run_efficient now_at time_at
               camping_ommerland (Some arrivals_five_nights) 4 w0 in
  out.1 = [mk_record "Camping Ommerland" "Bos Villa (6p)" "2026-02-13"
             "2026-02-18" (Some (280 # 1)%Q) true (Some 5) None 4]
  /\ (min_nights <$>
        prices (w_db out.2)
          !! ("Camping Ommerland", "2026-02-13", "2026-02-18", "2026-02-01"))
     = Some (Some 5)
  /\ Forall (λ r, ~ night_count_in [2; 3; 4; 7] r) out.1.
Proof.
  intros out. split; [reflexivity |]. split; [reflexivity |].
  constructor; [| constructor].
  intros (n & [= <-] & Hn). vm_compute in Hn.
  repeat (apply elem_of_cons in Hn as [Hn | Hn]; [discriminate |]).
  inversion Hn.
Qed.

(** The scenario of the design document: ten windows, the first three
    exhaust their retries, the other seven yield a record; the run is
    logged [partial] with seven records. *)
Example run_three_of_ten_fail :
  let windows :=
    (λ k, mk_date_window (739621 + 7 * Z.of_nat k) (739624 + 7 * Z.of_nat k)
            "weekend" 3) <$> seq 0 10 in
  let scrape_price (i attempt : nat) :=
    if (i <? 3)%nat then RaisedTimeout
    else Returned (Some (mk_result_dict (Some (392 # 1)%Q) (Some true)
                           (Some 3) None)) in
  let s := run_windows now_at time_at scrape_price beerze_bulten windows 4 w0 in
  let out := run now_at time_at scrape_price beerze_bulten windows 4 w0 in
  errors s.2 = 3
  /\ length (calls s.2) = 16%nat
  /\ size (prices (w_db out.2)) = 7%nat
  /\ logged_once (w_db w0) (w_db out.2) "Beerze Bulten" "partial" 7.
Proof.
  intros windows scrape_price s out.
  split; [reflexivity |]. split; [reflexivity |]. split; [reflexivity |].
  eexists. repeat split.
Qed.

(** Storing the same quote twice on one day leaves one row with that
    quote. *)
Example save_price_twice_one_row :
  let d := save_price day1 "Test" "Test" "2026-01-01" "2026-01-04"
             (Some (100 # 1)%Q) true (Some 3) None 4 db_quote_100 in
  size (prices d) = 1%nat
  /\ price <$> prices d !! ("Test", "2026-01-01", "2026-01-04", "2026-02-01")
     = Some (Some (100 # 1)%Q).
Proof. split; reflexivity. Qed.

(** The comparison of a scrape day returns the rows of that day only. *)
Example get_comparison_data_one_day :
  let d := save_price day2 "Test" "Test" "2026-01-01" "2026-01-04"
             (Some (120 # 1)%Q) true (Some 3) None 4 db_quote_100 in
  get_comparison_data julianday_date_only "2026-02-02" (Some [3]) d
  = [mk_comparison_row "Test" "Test" "2026-01-01" "2026-01-04"
       (Some (120 # 1)%Q) true None (Some 3)].
Proof. reflexivity. Qed.

Example ord2ymd_ymd2ord_examples :
  ord2ymd (ymd2ord 2026 1 5) = (2026, 1, 5)
  /\ ord2ymd (ymd2ord 2024 2 29) = (2024, 2, 29)
  /\ ord2ymd (ymd2ord 2000 12 31) = (2000, 12, 31)
  /\ ord2ymd 1 = (1, 1, 1) /\ ord2ymd MAXORDINAL = (9999, 12, 31)
  /\ weekday (ymd2ord 2026 1 5) = 0.
Proof. repeat split. Qed.

End Concrete.

(* ================================================================== *)
(** * Further properties of the code                                    *)
(* ================================================================== *)

(** ** The price store: what an upsert does to the table *)
Section UpsertMore.
Import PyDatetime Database.

Implicit Types (now : datetime) (d : db).

Lemma do_update_with_price old a q av mn so p ts :
  do_update old (mk_prices_cols a (Some q) av mn so p ts)
  = mk_prices_cols a (Some q) av mn so p ts.
Proof. reflexivity. Qed.

(** X1. An upsert that carries a price makes the stored row equal to the
    incoming one, whether or not a row of that key was stored before:
    reading the key back gives the incoming price, availability and
    other fields, stamped with the instant of the call. *)
Theorem save_price_with_price_reads_back now c a ci co q av mn so p d :
  prices (save_price now c a ci co (Some q) av mn so p d)
    !! (c, ci, co, strftime_ymd now)
  = Some (mk_prices_cols a (Some q) av mn so p (isoformat now)).
Proof.
  destruct (prices d !! (c, ci, co, strftime_ymd now)) as [old|] eqn:E.
  - rewrite (save_price_conflict _ _ _ _ _ _ _ _ _ _ _ _ E).
    by rewrite do_update_with_price.
  - by rewrite (save_price_fresh _ _ _ _ _ _ _ _ _ _ _ E).
Qed.

(** X2. A second upsert with the same arguments on the same calendar day
    updates the row of the first in place: the table has the same keys,
    the row keeps the price and availability the first call left, and
    only the capture instant moves to the second call. *)
Theorem save_price_repeat_same_day now1 now2 c a ci co pr av mn so p d :
  let k := (c, ci, co, strftime_ymd now1) in
  let d1 := save_price now1 c a ci co pr av mn so p d in
  let d2 := save_price now2 c a ci co pr av mn so p d1 in
  strftime_ymd now1 = strftime_ymd now2 ->
  dom (prices d2) = dom (prices d1)
  /\ size (prices d2) = size (prices d1)
  /\ exists r1 r2,
       prices d1 !! k = Some r1 /\ prices d2 !! k = Some r2
       /\ price r2 = price r1 /\ available r2 = available r1
       /\ accommodation_type r2 = accommodation_type r1
       /\ min_nights r2 = min_nights r1
       /\ special_offers r2 = special_offers r1
       /\ persons r2 = persons r1
       /\ scrape_timestamp r2 = isoformat now2.
Proof.
  intros k d1 d2 Hday.
  destruct (save_price_stamps now1 c a ci co pr av mn so p d)
    as (r1 & Hr1 & _).
  fold d1 k in Hr1.
  assert (Hdom : dom (prices d2) = dom (prices d1)).
  { subst d2. rewrite save_price_dom, <- Hday. fold k.
    apply elem_of_dom_2 in Hr1.
    apply subseteq_union_1_L, singleton_subseteq_l, Hr1. }
  split; [exact Hdom |].
  split; [by rewrite <- !size_dom, Hdom |].
  exists r1. eexists. split; [exact Hr1 |].
  assert (Hr1' : prices d1 !! (c, ci, co, strftime_ymd now2) = Some r1)
    by (rewrite <- Hday; exact Hr1).
  split.
  { subst d2 k. rewrite Hday.
    apply (save_price_conflict _ _ _ _ _ _ _ _ _ _ _ _ Hr1'). }
  (* the row of the first call, by cases on what was there before *)
  subst d1 k.
  destruct (prices d !! (c, ci, co, strftime_ymd now1)) as [old|] eqn:E.
  - rewrite (save_price_conflict _ _ _ _ _ _ _ _ _ _ _ _ E) in Hr1.
    injection Hr1 as <-. destruct pr; repeat split.
  - rewrite (save_price_fresh _ _ _ _ _ _ _ _ _ _ _ E) in Hr1.
    injection Hr1 as <-. destruct pr; repeat split.
Qed.

(** X3. An upsert never removes or alters a row of another key: every
    key stored before is stored after, rows under other keys are
    unchanged, the table grows by at most one row, and the scrape log is
    not touched. *)
Theorem save_price_keeps_history now c a ci co pr av mn so p d :
  let d' := save_price now c a ci co pr av mn so p d in
  dom (prices d) ⊆ dom (prices d')
  /\ (forall k, k ≠ (c, ci, co, strftime_ymd now) ->
                prices d' !! k = prices d !! k)
  /\ (size (prices d) <= size (prices d') <= S (size (prices d)))%nat
  /\ scrape_log d' = scrape_log d.
Proof.
  intros d'. subst d'.
  split; [rewrite save_price_dom; apply union_subseteq_r |].
  split; [intros k Hk; by apply save_price_other |].
  split; [| reflexivity].
  unfold save_price, insert_on_conflict. cbn [prices].
  destruct (prices d !! _) as [old|] eqn:E.
  - rewrite map_size_insert_Some by eauto. lia.
  - rewrite map_size_insert_None by exact E. lia.
Qed.

End UpsertMore.

(** ** The order of TEXT values *)
Section TextOrder.
Import PyBuiltins Database.

Lemma string_leb_le a b : string_leb a b = true <-> String.le a b.
Proof.
  unfold String.le. change (string_leb a b) with (String.leb a b).
  destruct (String.leb a b); cbn; intuition congruence.
Qed.

Lemma string_leb_refl a : string_leb a a = true.
Proof. apply string_leb_le. reflexivity. Qed.

Lemma string_leb_total a b : string_leb a b = true \/ string_leb b a = true.
Proof. rewrite !string_leb_le. apply (total String.le). Qed.

Lemma string_leb_trans a b c :
  string_leb a b = true -> string_leb b c = true -> string_leb a c = true.
Proof. rewrite !string_leb_le. apply transitivity. Qed.

Lemma string_leb_antisym a b :
  string_leb a b = true -> string_leb b a = true -> a = b.
Proof. rewrite !string_leb_le. apply (anti_symm String.le). Qed.

Lemma compare_Lt_leb a b :
  String.compare a b = Lt <-> string_leb a b = true /\ a ≠ b.
Proof.
  unfold string_leb. split.
  - intros H. rewrite H. split; [reflexivity |].
    intros ->. pose proof (String.compare_antisym b b) as Ha.
    rewrite H in Ha. discriminate.
  - intros [H Hne]. destruct (String.compare a b) eqn:E;
      [apply String.compare_eq_iff in E; contradiction | reflexivity | discriminate].
Qed.

Lemma compare_Gt_leb a b :
  String.compare a b = Gt <-> string_leb a b = false.
Proof. unfold string_leb. destruct (String.compare a b); intuition congruence. Qed.

Lemma text_pair_leb_spec a b :
  text_pair_leb a b = true <->
  (string_leb a.1 b.1 = true /\ a.1 ≠ b.1)
  \/ (a.1 = b.1 /\ string_leb a.2 b.2 = true).
Proof.
  unfold text_pair_leb. destruct (String.compare a.1 b.1) eqn:E.
  - apply String.compare_eq_iff in E. intuition congruence.
  - apply compare_Lt_leb in E. intuition congruence.
  - pose proof (proj1 (compare_Gt_leb _ _) E) as E'. split; [discriminate |].
    intros [[H _] | [H _]]; [congruence |].
    rewrite H, string_leb_refl in E'. discriminate.
Qed.

Lemma text_pair_leb_total a b :
  text_pair_leb a b = true \/ text_pair_leb b a = true.
Proof.
  rewrite !text_pair_leb_spec.
  destruct (decide (a.1 = b.1)) as [E|NE].
  - destruct (string_leb_total a.2 b.2); [left | right]; right; auto.
  - destruct (string_leb_total a.1 b.1); [left | right]; left; auto.
Qed.

Lemma text_pair_leb_trans a b c :
  text_pair_leb a b = true -> text_pair_leb b c = true ->
  text_pair_leb a c = true.
Proof.
  rewrite !text_pair_leb_spec.
  intros [[H1 N1] | [E1 H1]] [[H2 N2] | [E2 H2]].
  - left. split; [by eapply string_leb_trans |].
    intros E. rewrite E in H1. apply N2. by apply string_leb_antisym.
  - left. rewrite <- E2. auto.
  - left. rewrite E1. auto.
  - right. split; [congruence | by eapply string_leb_trans].
Qed.

(** [max_text] gives NULL for no value only, and otherwise one of the
    values that no other value exceeds. *)
Lemma max_text_cons s l :
  max_text (s :: l)
  = match max_text l with
    | None => Some s
    | Some m => if string_leb m s then Some s else Some m
    end.
Proof. reflexivity. Qed.

Lemma max_text_None l : max_text l = None <-> l = [].
Proof.
  destruct l as [|s l]; [done |]. rewrite max_text_cons.
  destruct (max_text l) as [m|]; [destruct (string_leb m s) |]; done.
Qed.

Lemma max_text_Some l m :
  max_text l = Some m ->
  m ∈ l /\ forall s, s ∈ l -> string_leb s m = true.
Proof.
  revert m. induction l as [|x l IH]; intros m; [discriminate |].
  rewrite max_text_cons.
  destruct (max_text l) as [m'|] eqn:E.
  - destruct (IH m' eq_refl) as [Hin Hmax].
    destruct (string_leb m' x) eqn:Hx; intros [= <-].
    + split; [left |]. intros s [-> | Hs]%elem_of_cons;
        [apply string_leb_refl |].
      eapply string_leb_trans; [by apply Hmax | exact Hx].
    + split; [by right |]. intros s [-> | Hs]%elem_of_cons; [| by apply Hmax].
      destruct (string_leb_total x m'); [done | congruence].
  - apply max_text_None in E. subst l. intros [= <-].
    split; [left |]. intros s [-> | Hs]%elem_of_cons;
      [apply string_leb_refl | inversion Hs].
Qed.

End TextOrder.

(** ** The price store: the read paths *)
Section ReadPaths.
Import PyDatetime PyBuiltins Database Spec.

Implicit Types (d : db) (r : prices_row).

Lemma elem_of_rows d r : r ∈ rows d <-> stored d r.
Proof. destruct r as [k cols]. unfold rows, stored. apply elem_of_map_to_list. Qed.

Lemma NoDup_rows d : NoDup (rows d).
Proof. apply NoDup_map_to_list. Qed.

Lemma pair_le_leb a b : text_pair_leb a b = true <-> pair_le a b.
Proof. unfold pair_le. rewrite text_pair_leb_spec, !string_leb_le. reflexivity. Qed.

Lemma sort_by_prices_order (l : list prices_row) :
  StronglySorted by_check_in_then_competitor (sort_by prices_order_leb l).
Proof.
  eapply StronglySorted_weaken; [| apply sort_by_sorted].
  - intros a b H. by apply pair_le_leb.
  - intros a b. apply text_pair_leb_total.
  - intros a b c. apply text_pair_leb_trans.
Qed.

Lemma get_prices_where_spec c f t s r :
  get_prices_where c f t s r = true <->
  (forall v, c = Some v -> competitor_name r = v)
  /\ (forall v, f = Some v -> String.le v (check_in_date r))
  /\ (forall v, t = Some v -> String.le (check_in_date r) v)
  /\ (forall v, s = Some v -> scrape_date r = v).
Proof.
  unfold get_prices_where. rewrite !andb_true_iff.
  destruct c, f, t, s; rewrite ?bool_decide_eq_true, ?string_leb_le;
    split; intros H; repeat split; intros; simplify_eq;
    try (destruct H as (H1 & H2 & H3 & H4); eauto; fail);
    try (destruct H as [[[H1 H2] H3] H4]; eauto; fail).
Qed.

(** X4. [get_prices] returns exactly the stored rows that meet the
    conditions given; an argument that is absent or the empty string
    puts no condition. Each such row is returned once, and the result is
    ordered by check-in date and then by competitor name. *)
Theorem get_prices_exact competitor check_in_from check_in_to day d :
  let result := get_prices competitor check_in_from check_in_to day d in
  (forall r, r ∈ result <->
     stored d r
     /\ filter_holds competitor (λ v, competitor_name r = v)
     /\ filter_holds check_in_from (λ v, String.le v (check_in_date r))
     /\ filter_holds check_in_to (λ v, String.le (check_in_date r) v)
     /\ filter_holds day (λ v, scrape_date r = v))
  /\ NoDup result
  /\ StronglySorted by_check_in_then_competitor result.
Proof.
  intros result. subst result. unfold get_prices. split; [| split].
  - intros r. rewrite elem_of_sort_by, list_elem_of_filter, elem_of_rows.
    rewrite get_prices_where_spec. unfold filter_holds. tauto.
  - rewrite sort_by_perm. apply NoDup_filter, NoDup_rows.
  - apply sort_by_prices_order.
Qed.

(** X5. What an upsert stores is what [get_prices] for that competitor
    and scrape day returns: the row of the key is in the result, with
    the instant of the call. *)
Theorem save_price_then_get_prices now c a ci co pr av mn so p d :
  exists cols,
    ((c, ci, co, strftime_ymd now), cols)
    ∈ get_prices (Some c) None None (Some (strftime_ymd now))
        (save_price now c a ci co pr av mn so p d)
    /\ scrape_timestamp cols = isoformat now.
Proof.
  destruct (save_price_stamps now c a ci co pr av mn so p d)
    as (cols & Hl & Hts).
  exists cols. split; [| exact Hts].
  apply get_prices_exact. split; [exact Hl |].
  unfold filter_holds, given. repeat split; intros v Hv; try discriminate.
  - cbn. destruct (String.eqb c ""); [discriminate | by injection Hv].
  - cbn. destruct (String.eqb (strftime_ymd now) ""); [discriminate |].
    by injection Hv.
Qed.

(** X6. [get_latest_scrape_date] is [None] exactly for an empty table;
    otherwise it is the scrape date of a stored row, and no stored row
    has a later one (in text order). *)
Theorem get_latest_scrape_date_spec d :
  (get_latest_scrape_date d = None <-> prices d = ∅)
  /\ forall m, get_latest_scrape_date d = Some m ->
       (exists r, stored d r /\ scrape_date r = m)
       /\ forall r, stored d r -> String.le (scrape_date r) m.
Proof.
  unfold get_latest_scrape_date. split.
  - rewrite max_text_None. unfold rows.
    rewrite <- map_to_list_empty_iff.
    destruct (map_to_list (prices d)); cbn; split; congruence.
  - intros m Hm. apply max_text_Some in Hm as [Hin Hmax]. split.
    + apply list_elem_of_fmap in Hin as (r & -> & Hr).
      exists r. split; [by apply elem_of_rows | reflexivity].
    + intros r Hr. apply string_leb_le, Hmax, list_elem_of_fmap.
      exists r. split; [reflexivity | by apply elem_of_rows].
Qed.

Lemma StronglySorted_NoDup_strict {A} (R : A -> A -> Prop) (l : list A) :
  StronglySorted R l -> NoDup l ->
  StronglySorted (λ a b, R a b /\ a ≠ b) l.
Proof.
  induction 1 as [|x l Hs IH Hx]; intros Hnd; [constructor |].
  apply NoDup_cons in Hnd as [Hnin Hnd].
  constructor; [by apply IH |].
  apply Forall_forall. intros y Hy. split.
  - by apply (proj1 (Forall_forall _ _) Hx).
  - intros ->. contradiction.
Qed.

(** X7. [get_all_scrape_dates] lists exactly the scrape dates that occur
    in the table, each once, the latest first. *)
Theorem get_all_scrape_dates_spec d :
  let result := get_all_scrape_dates d in
  (forall s, s ∈ result <-> exists r, stored d r /\ scrape_date r = s)
  /\ NoDup result
  /\ StronglySorted (λ a b, String.le b a /\ a ≠ b) result.
Proof.
  intros result. subst result. unfold get_all_scrape_dates.
  assert (Hnd : NoDup (sort_by text_geb (remove_dups (scrape_date <$> rows d)))).
  { rewrite sort_by_perm. apply NoDup_remove_dups. }
  split; [| split; [exact Hnd |]].
  - intros s. rewrite elem_of_sort_by, elem_of_remove_dups, list_elem_of_fmap.
    split; intros (r & Hs & Hr); exists r.
    + split; [by apply elem_of_rows | done].
    + split; [done | by apply elem_of_rows].
  - apply StronglySorted_NoDup_strict; [| exact Hnd].
    eapply StronglySorted_weaken; [| apply sort_by_sorted].
    + intros a b H. by apply string_leb_le.
    + intros a b. unfold text_geb. apply string_leb_total.
    + intros a b c. unfold text_geb. intros H1 H2.
      by eapply string_leb_trans.
Qed.

Lemma same_stay_spec a b : same_stay a b = true <-> same_stay_as a b.
Proof. unfold same_stay. by rewrite bool_decide_eq_true. Qed.

Lemma max_ts_latest d r :
  stored d r ->
  max_ts (rows d) r = Some (scrape_timestamp r.2) <->
  forall r', stored d r' -> same_stay_as r r' ->
             String.le (scrape_timestamp r'.2) (scrape_timestamp r.2).
Proof.
  intros Hr. unfold max_ts. split.
  - intros Hm r' Hr' Hsame. apply max_text_Some in Hm as [_ Hmax].
    apply string_leb_le, Hmax, list_elem_of_fmap. exists r'.
    split; [reflexivity |]. apply list_elem_of_filter.
    split; [by apply same_stay_spec | by apply elem_of_rows].
  - intros Hall.
    destruct (max_text _) as [m|] eqn:Hm.
    + apply max_text_Some in Hm as [Hin Hmax]. f_equal.
      apply string_leb_antisym.
      * apply list_elem_of_fmap in Hin as (r' & -> & Hr').
        apply list_elem_of_filter in Hr' as [Hsame Hr'].
        apply string_leb_le, Hall;
          [by apply elem_of_rows | by apply same_stay_spec].
      * apply Hmax, list_elem_of_fmap. exists r. split; [reflexivity |].
        apply list_elem_of_filter. split; [| by apply elem_of_rows].
        apply same_stay_spec. by repeat split.
    + apply max_text_None in Hm. exfalso.
      assert (Hin : r ∈ filter (λ r', same_stay r r' = true) (rows d)).
      { apply list_elem_of_filter. split; [| by apply elem_of_rows].
        apply same_stay_spec. by repeat split. }
      destruct (filter _ (rows d)); [inversion Hin | discriminate].
Qed.

(** X8. [get_latest_prices] returns exactly the stored rows, of the
    competitor asked for if one is given, that no stored row of the same
    stay exceeds in capture timestamp. Every stored stay of that
    competitor is represented, and the result is ordered by check-in date
    and then by competitor name. *)
Theorem get_latest_prices_spec competitor d :
  let result := get_latest_prices competitor d in
  (forall r, r ∈ result <->
     stored d r
     /\ filter_holds competitor (λ v, competitor_name r = v)
     /\ forall r', stored d r' -> same_stay_as r r' ->
                   String.le (scrape_timestamp r'.2) (scrape_timestamp r.2))
  /\ (forall r, stored d r ->
                filter_holds competitor (λ v, competitor_name r = v) ->
                exists r', r' ∈ result /\ same_stay_as r r')
  /\ StronglySorted by_check_in_then_competitor result.
Proof.
  intros result.
  assert (Hmem : forall r, r ∈ result <->
     stored d r
     /\ filter_holds competitor (λ v, competitor_name r = v)
     /\ forall r', stored d r' -> same_stay_as r r' ->
                   String.le (scrape_timestamp r'.2) (scrape_timestamp r.2)).
  { intros r. subst result. unfold get_latest_prices.
    rewrite elem_of_sort_by, list_elem_of_filter, elem_of_rows.
    unfold latest_where, filter_holds.
    rewrite andb_true_iff, bool_decide_eq_true. split.
    - intros [[Hm Hc] Hr]. split; [exact Hr |]. split.
      + intros v Hv. rewrite Hv in Hc. by apply bool_decide_eq_true in Hc.
      + by apply max_ts_latest.
    - intros (Hr & Hc & Hl). split; [| exact Hr]. split.
      + by apply max_ts_latest.
      + destruct (given competitor) as [v|]; [| reflexivity].
        apply bool_decide_eq_true. by apply Hc. }
  split; [exact Hmem |]. split.
  - intros r Hr Hc.
    (* the group of [r] has a row of maximal timestamp *)
    destruct (max_ts (rows d) r) as [m|] eqn:Hm.
    + unfold max_ts in Hm. apply max_text_Some in Hm as [Hin Hmax].
      apply list_elem_of_fmap in Hin as (r' & -> & Hr').
      apply list_elem_of_filter in Hr' as [Hsame Hr'].
      apply same_stay_spec in Hsame. apply elem_of_rows in Hr'.
      exists r'. split; [| exact Hsame].
      apply Hmem. split; [exact Hr' |]. split.
      * intros v Hv. destruct Hsame as (<- & _). by apply Hc.
      * intros r'' Hr'' Hsame'. apply string_leb_le, Hmax, list_elem_of_fmap.
        exists r''. split; [reflexivity |]. apply list_elem_of_filter.
        split; [| by apply elem_of_rows]. apply same_stay_spec.
        destruct Hsame as (? & ? & ?), Hsame' as (? & ? & ?).
        repeat split; congruence.
    + unfold max_ts in Hm. apply max_text_None in Hm. exfalso.
      assert (Hin : r ∈ filter (λ r', same_stay r r' = true) (rows d)).
      { apply list_elem_of_filter. split; [| by apply elem_of_rows].
        apply same_stay_spec. by repeat split. }
      destruct (filter _ (rows d)); [inversion Hin | discriminate].
  - subst result. apply sort_by_prices_order.
Qed.

(** X9. [get_price_history] returns exactly the stored rows of the given
    competitor and check-in date, over all scrape days and check-out
    dates, each once, in the order of their capture timestamps. *)
Theorem get_price_history_spec competitor check_in d :
  let result := get_price_history competitor check_in d in
  (forall r, r ∈ result <->
     stored d r /\ competitor_name r = competitor
     /\ check_in_date r = check_in)
  /\ NoDup result
  /\ StronglySorted
       (λ a b, String.le (scrape_timestamp a.2) (scrape_timestamp b.2)) result.
Proof.
  intros result. subst result. unfold get_price_history. split; [| split].
  - intros r. rewrite elem_of_sort_by, list_elem_of_filter, elem_of_rows.
    unfold history_where. rewrite bool_decide_eq_true. tauto.
  - rewrite sort_by_perm. apply NoDup_filter, NoDup_rows.
  - eapply StronglySorted_weaken; [| apply sort_by_sorted].
    + intros a b H. by apply string_leb_le.
    + intros a b. apply string_leb_total.
    + intros a b c. apply string_leb_trans.
Qed.

End ReadPaths.

(** ** The price store: order of the comparison, and the log summary *)
Section ComparisonOrder.
Import PyDatetime PyBuiltins Database Spec.
Variable julianday : string -> option Q.

(** X10. The rows [get_comparison_data] returns are ordered by check-in
    date and then by competitor name; every one of them carries a price
    and a night count of the accepted list, so that an empty list of
    durations gives no row. *)
Theorem get_comparison_data_ordered day durations d :
  let result := get_comparison_data julianday day durations d in
  StronglySorted
    (λ a b, pair_le (cmp_check_in_date a, cmp_competitor_name a)
              (cmp_check_in_date b, cmp_competitor_name b)) result
  /\ Forall (λ c, is_Some (cmp_price c)
                  /\ exists n, cmp_nights c = Some n
                               /\ n ∈ default [2; 3; 4; 7] durations) result
  /\ (durations = Some [] -> result = []).
Proof.
  intros result. subst result. unfold get_comparison_data.
  assert (E : match durations with Some l => l | None => [2; 3; 4; 7] end
              = default [2; 3; 4; 7] durations) by (by destruct durations).
  rewrite E. clear E.
  assert (Hall : Forall (λ c, is_Some (cmp_price c)
                  /\ exists n, cmp_nights c = Some n
                               /\ n ∈ default [2; 3; 4; 7] durations)
            (sort_by order_leb
               (select_columns julianday <$>
                  filter (λ r, where_clause julianday day
                                 (default [2; 3; 4; 7] durations) r = true)
                    (map_to_list (prices d))))).
  { apply Forall_forall. intros c Hc.
    apply elem_of_sort_by, list_elem_of_fmap in Hc as (r & -> & Hr).
    apply list_elem_of_filter in Hr as [Hw _].
    apply where_clause_spec in Hw as (_ & Hp & n & Hn & Hin).
    split; [exact Hp |]. exists n. split; [exact Hn | exact Hin]. }
  split; [| split; [exact Hall |]].
  - eapply StronglySorted_weaken; [| apply sort_by_sorted].
    + intros a b H. apply pair_le_leb. exact H.
    + intros a b.
      apply (text_pair_leb_total (cmp_check_in_date a, cmp_competitor_name a)
               (cmp_check_in_date b, cmp_competitor_name b)).
    + intros a b c.
      apply (text_pair_leb_trans (cmp_check_in_date a, cmp_competitor_name a)
               (cmp_check_in_date b, cmp_competitor_name b)
               (cmp_check_in_date c, cmp_competitor_name c)).
  - intros ->. cbn [default] in *.
    destruct (sort_by _ _) as [|c l]; [reflexivity |].
    apply Forall_cons in Hall as [(_ & n & _ & Hin) _]. inversion Hin.
Qed.

End ComparisonOrder.

Section LogSummary.
Import PyDatetime PyBuiltins Database Spec.
Variable sql_date : string -> option string.

Lemma foldl_insert_lookup (l : list scrape_log_row)
    (m : gmap string scrape_log_row) c :
  match foldl (λ m r, <[log_competitor_name r := r]> m) m l !! c with
  | Some r => (r ∈ l /\ log_competitor_name r = c) \/ m !! c = Some r
  | None => (forall r, r ∈ l -> log_competitor_name r ≠ c) /\ m !! c = None
  end.
Proof.
  revert m. induction l as [|x l IH]; intros m; cbn [foldl].
  - destruct (m !! c) eqn:E; [by right |].
    split; [intros r Hr; inversion Hr | done].
  - specialize (IH (<[log_competitor_name x := x]> m)).
    destruct (foldl _ _ l !! c) as [r|].
    + destruct IH as [[Hr Hc] | Hm]; [left; split; [by right | done] |].
      destruct (decide (log_competitor_name x = c)) as [E|NE].
      * rewrite E, lookup_insert_eq in Hm. injection Hm as <-.
        left. split; [left | done].
      * rewrite lookup_insert_ne in Hm by done. by right.
    + destruct IH as [Hl Hm].
      destruct (decide (log_competitor_name x = c)) as [E|NE].
      * rewrite E, lookup_insert_eq in Hm. discriminate.
      * rewrite lookup_insert_ne in Hm by done. split; [| done].
        intros r [-> | Hr]%elem_of_cons; [done | by apply Hl].
Qed.

Lemma elem_of_summary_rows date log r :
  r ∈ summary_rows sql_date date log <->
  r ∈ log /\ sql_date (log_timestamp r) = Some date
  /\ forall r', r' ∈ log_of_day sql_date date (log_competitor_name r) log ->
                String.le (log_timestamp r') (log_timestamp r).
Proof.
  unfold summary_rows. rewrite elem_of_sort_by, list_elem_of_filter.
  unfold log_max_ts. split.
  - intros [Hm Hr]. split; [exact Hr |].
    apply max_text_Some in Hm as [Hin Hmax]. split.
    + apply list_elem_of_fmap in Hin as (r0 & E & Hr0).
      apply list_elem_of_filter in Hr0 as [[_ Hd] _]. by rewrite E.
    + intros r' Hr'. apply string_leb_le, Hmax, list_elem_of_fmap. eauto.
  - intros (Hr & Hd & Hmax). split; [| exact Hr].
    assert (Hin : r ∈ log_of_day sql_date date (log_competitor_name r) log).
    { apply list_elem_of_filter. split; [split |]; done. }
    destruct (max_text _) as [m|] eqn:Hm.
    + apply max_text_Some in Hm as [Hmin Hmmax]. f_equal.
      apply string_leb_antisym.
      * apply list_elem_of_fmap in Hmin as (r0 & -> & Hr0).
        by apply string_leb_le, Hmax.
      * apply Hmmax, list_elem_of_fmap. eauto.
    + apply max_text_None in Hm.
      destruct (log_of_day _ _ _ _); [inversion Hin | discriminate].
Qed.

(** X11. [get_scrape_summary] has an entry for a competitor exactly when
    the log has a row of that competitor on the day asked for (today's
    when none is given); the entry is such a row, and none of that day's
    rows of the competitor has a later timestamp. *)
Theorem get_scrape_summary_spec now date d c :
  let day := default (strftime_ymd now) date in
  let summary := get_scrape_summary sql_date now date d in
  (summary !! c = None <-> log_of_day sql_date day c (scrape_log d) = [])
  /\ forall r, summary !! c = Some r ->
       r ∈ scrape_log d /\ log_competitor_name r = c
       /\ sql_date (log_timestamp r) = Some day
       /\ forall r', r' ∈ log_of_day sql_date day c (scrape_log d) ->
                     String.le (log_timestamp r') (log_timestamp r).
Proof.
  intros day summary. subst summary. unfold get_scrape_summary. fold day.
  pose proof (foldl_insert_lookup
                (summary_rows sql_date day (scrape_log d)) ∅ c) as H.
  destruct (foldl _ _ _ !! c) as [r|] eqn:E.
  - destruct H as [[Hr Hc] | Hm]; [| by rewrite lookup_empty in Hm].
    apply elem_of_summary_rows in Hr as (Hin & Hd & Hmax).
    rewrite Hc in Hmax. split.
    + split; [discriminate |]. intros Hnil.
      assert (Hr : r ∈ log_of_day sql_date day c (scrape_log d))
        by (apply list_elem_of_filter; split; [split |]; done).
      rewrite Hnil in Hr. inversion Hr.
    + intros r0 [= <-]. repeat split; assumption.
  - destruct H as [Hnone _]. split; [| discriminate].
    split; [| done]. intros _.
    destruct (log_of_day sql_date day c (scrape_log d)) as [|x l] eqn:El;
      [reflexivity |]. exfalso.
    (* a row of the day exists, hence one of maximal timestamp *)
    destruct (max_text (log_timestamp <$> log_of_day sql_date day c (scrape_log d)))
      as [m|] eqn:Hm.
    + pose proof Hm as Hm'. apply max_text_Some in Hm' as [Hin Hmax].
      apply list_elem_of_fmap in Hin as (r0 & -> & Hr0).
      pose proof Hr0 as Hr0'.
      apply list_elem_of_filter in Hr0' as [[Hc Hd] Hlog].
      apply (Hnone r0); [| exact Hc].
      unfold summary_rows. apply elem_of_sort_by, list_elem_of_filter.
      split; [| exact Hlog]. unfold log_max_ts. by rewrite Hc.
    + apply max_text_None in Hm. rewrite El in Hm. discriminate.
Qed.

End LogSummary.

(** ** The date window generator: where the windows come from *)
Section DateWindowsMore.
Import PyDatetime PyBuiltins BaseScraper Spec.

Local Arguments make_window : simpl never.
Local Arguments date_add_days : simpl never.

Lemma windows_for_elem target stays ws :
  windows_for target stays = Some ws ->
  forall w, w ∈ ws <->
    exists cfg, (stay_type w, cfg) ∈ stays
                /\ make_window target (stay_type w, cfg) = Some w.
Proof.
  revert ws. induction stays as [|[name cfg] stays IH]; intros ws H w.
  - cbn in H. simplify_eq. split; [intros Hw; inversion Hw |].
    intros (c & Hc & _). inversion Hc.
  - cbn in H.
    destruct (make_window target (name, cfg)) as [w0|] eqn:Ew; [| discriminate].
    cbn in H.
    destruct (windows_for target stays) as [ws'|]; [| discriminate].
    cbn in H. simplify_eq.
    pose proof (make_window_ok _ _ _ _ Ew) as (_ & Hname & _).
    rewrite elem_of_cons, (IH ws' eq_refl w). split.
    + intros [-> | (c & Hc & Hm)].
      * exists cfg. rewrite Hname. split; [left | exact Ew].
      * exists c. split; [by right | exact Hm].
    + intros (c & Hc & Hm). apply elem_of_cons in Hc as [Hc | Hc].
      * left. injection Hc as Hn ->. rewrite Hn in Hm. congruence.
      * right. eauto.
Qed.

Lemma windows_for_length target stays ws :
  windows_for target stays = Some ws -> length ws = length stays.
Proof.
  revert ws. induction stays as [|stay stays IH]; intros ws H; cbn in H.
  - by simplify_eq.
  - destruct (make_window target stay); [| discriminate]. cbn in H.
    destruct (windows_for target stays) as [ws'|]; [| discriminate].
    cbn in H. simplify_eq. cbn. f_equal. by apply IH.
Qed.

Lemma all_windows_elem today offsets stays ws :
  all_windows today offsets stays = Some ws ->
  forall w, w ∈ ws <-> generated_from today offsets stays w.
Proof.
  revert ws. induction offsets as [|o offsets IH]; intros ws H w.
  - cbn in H. simplify_eq. split; [intros Hw; inversion Hw |].
    intros (o & _ & _ & Ho & _). inversion Ho.
  - cbn in H.
    destruct (date_add_days today o) as [target|] eqn:Et; [| discriminate].
    cbn in H.
    destruct (windows_for target stays) as [ws1|] eqn:E1; [| discriminate].
    cbn in H.
    destruct (all_windows today offsets stays) as [ws2|]; [| discriminate].
    cbn in H. simplify_eq.
    rewrite elem_of_app, (windows_for_elem _ _ _ E1 w), (IH ws2 eq_refl w).
    unfold generated_from. split.
    + intros [(cfg & Hc & Hm) | (o' & cfg & t' & Ho & Hc & Ht & Hm)].
      * exists o, cfg, target. repeat split; [left | done..].
      * exists o', cfg, t'. repeat split; [by right | done..].
    + intros (o' & cfg & t' & Ho & Hc & Ht & Hm).
      apply elem_of_cons in Ho as [-> | Ho].
      * left. rewrite Et in Ht. injection Ht as <-. eauto.
      * right. exists o', cfg, t'. auto.
Qed.

Lemma all_windows_length today offsets stays ws :
  all_windows today offsets stays = Some ws ->
  length ws = (length offsets * length stays)%nat.
Proof.
  revert ws. induction offsets as [|o offsets IH]; intros ws H; cbn in H.
  - by simplify_eq.
  - destruct (date_add_days today o) as [target|]; [| discriminate].
    cbn in H.
    destruct (windows_for target stays) as [ws1|] eqn:E1; [| discriminate].
    cbn in H.
    destruct (all_windows today offsets stays) as [ws2|]; [| discriminate].
    cbn in H. simplify_eq.
    rewrite length_app, (windows_for_length _ _ _ E1), (IH ws2 eq_refl).
    cbn. lia.
Qed.

Lemma windows_for_body target stays ws stay :
  windows_for target stays = Some ws -> stay ∈ stays ->
  is_Some (make_window target stay).
Proof.
  revert ws. induction stays as [|s stays IH]; intros ws H Hs;
    [inversion Hs |].
  cbn in H.
  destruct (make_window target s) as [w1|] eqn:Ew; [| discriminate].
  cbn in H.
  destruct (windows_for target stays) as [ws'|] eqn:E'; [| discriminate].
  apply elem_of_cons in Hs as [-> | Hs]; [by rewrite Ew | by eapply IH].
Qed.

Lemma all_windows_body today offsets stays dates o :
  all_windows today offsets stays = Some dates -> o ∈ offsets ->
  exists target ws1,
    date_add_days today o = Some target
    /\ windows_for target stays = Some ws1.
Proof.
  revert dates. induction offsets as [|o' offsets IH]; intros dates H Ho;
    [inversion Ho |].
  cbn in H.
  destruct (date_add_days today o') as [target|] eqn:Et; [| discriminate].
  cbn in H.
  destruct (windows_for target stays) as [ws1|] eqn:E1; [| discriminate].
  cbn in H.
  destruct (all_windows today offsets stays) as [ws2|] eqn:E2; [| discriminate].
  apply elem_of_cons in Ho as [-> | Ho]; [eauto | by eapply IH].
Qed.

Lemma remove_duplicates_length seen dates :
  (length (remove_duplicates seen dates) <= length dates)%nat.
Proof.
  revert seen. induction dates as [|d dates IH]; intros seen; cbn; [lia |].
  destruct (decide _); cbn;
    [specialize (IH seen)
    | specialize (IH ({[(check_in d, check_out d)]} ∪ seen))];
    lia.
Qed.

(** X12. Every window of the returned list comes from an offset of the
    list and an entry of the stay types: its check-in is the first day on
    or after [today + offset] that falls on the entry's anchor weekday
    (so at most six days later), and its check-out is the entry's night
    count after the check-in. *)
Theorem generate_check_dates_anchor today days_ahead_list stay_types ws w :
  generate_check_dates today days_ahead_list stay_types = Some ws ->
  w ∈ ws ->
  exists days_ahead cfg,
    days_ahead ∈ default default_days_ahead_list days_ahead_list
    /\ (stay_type w, cfg) ∈ default default_stay_types stay_types
    /\ today + days_ahead <= check_in w <= today + days_ahead + 6
    /\ dict_get (cfg_check_in_day cfg) day_map = Some (weekday (check_in w))
    /\ check_out w = check_in w + cfg_nights cfg.
Proof.
  unfold generate_check_dates. intros H Hw.
  destruct (all_windows today _ _) as [dates|] eqn:E; [| discriminate].
  cbn in H. simplify_eq.
  apply elem_of_sort_by in Hw.
  destruct (remove_duplicates_spec ∅ dates) as [_ Hsub].
  destruct (Hsub w Hw) as [_ Hin].
  apply (all_windows_elem _ _ _ _ E) in Hin
    as (o & cfg & target & Ho & Hc & Ht & Hm).
  exists o, cfg. split; [exact Ho |]. split; [exact Hc |].
  apply date_add_days_Some in Ht. subst target.
  destruct (make_window_anchor _ _ _ _ Hm) as [Hrange Hday].
  destruct (make_window_ok _ _ _ _ Hm) as (Hn & _ & Hn').
  unfold date_sub_days in Hn.
  split; [lia |]. split; [exact Hday |]. rewrite <- Hn'. lia.
Qed.

(** X13. Every combination of an offset and a stay type is represented
    in the returned list: the dates of the window the loop builds for it
    are the dates of a returned window. The list has at most one window
    per combination. *)
Theorem generate_check_dates_covers today days_ahead_list stay_types ws :
  generate_check_dates today days_ahead_list stay_types = Some ws ->
  (forall days_ahead stay,
     days_ahead ∈ default default_days_ahead_list days_ahead_list ->
     stay ∈ default default_stay_types stay_types ->
     exists target w0,
       date_add_days today days_ahead = Some target
       /\ make_window target stay = Some w0
       /\ window_key w0 ∈ window_key <$> ws)
  /\ (length ws
      <= length (default default_days_ahead_list days_ahead_list)
         * length (default default_stay_types stay_types))%nat.
Proof.
  unfold generate_check_dates. intros H.
  destruct (all_windows today _ _) as [dates|] eqn:E; [| discriminate].
  cbn in H. simplify_eq. split.
  - intros o [name cfg] Ho Hs.
    (* the loops did not raise, hence the body returned for this pair *)
    destruct (all_windows_body _ _ _ _ _ E Ho) as (target & ws1 & Ht & E1).
    destruct (windows_for_body _ _ _ _ E1 Hs) as [w0 Hm].
    exists target, w0. split; [exact Ht |]. split; [exact Hm |].
    pose proof (make_window_ok _ _ _ _ Hm) as (_ & Hname & _).
    assert (Hin : w0 ∈ dates).
    { apply (all_windows_elem _ _ _ _ E). exists o, cfg, target.
      rewrite Hname. auto. }
    assert (Hk : window_key w0 ∈ window_key <$> remove_duplicates ∅ dates).
    { apply remove_duplicates_complete; [exact Hin |].
      apply not_elem_of_empty. }
    apply list_elem_of_fmap in Hk as (w' & Hk & Hw').
    apply list_elem_of_fmap. exists w'. split; [exact Hk |].
    by apply elem_of_sort_by.
  - rewrite sort_by_perm, <- (all_windows_length _ _ _ _ E).
    apply remove_duplicates_length.
Qed.

End DateWindowsMore.

(** ** The orchestrator: what one run can and cannot do *)
Section OrchestratorMore.
Import PyDatetime PyBuiltins Database BaseScraper Spec.
Variable now_at : nat -> datetime.
Variable time_at : nat -> Q.
Variable scrape_price : nat -> nat -> outcome.

Abbreviation attempt_loop' := (attempt_loop now_at time_at scrape_price).
Abbreviation window_loop' := (window_loop now_at time_at scrape_price).
Abbreviation run_windows' := (run_windows now_at time_at scrape_price).
Abbreviation run' := (run now_at time_at scrape_price).

Ltac at_state IH :=
  match goal with
  | |- context [BaseScraper.attempt_loop _ _ _ _ _ _ _ _ ?s] =>
      specialize (IH s)
  end.

(** The attempts up to the first one that returns a result. *)
Lemma attempt_loop_first_success self persons i d result (m k : nat) :
  Z.of_nat m = self_max_retries self ->
  scrape_price i k = Returned (Some result) ->
  forall (n a : nat) s,
    (a + n = S m)%nat -> (a <= k < a + n)%nat ->
    (forall j, (a <= j < k)%nat -> fails (scrape_price i j)) ->
    let s' := attempt_loop' self persons i d (seq a n) s in
    calls s'.2 = calls s.2 ++ ((λ j, (i, j)) <$> seq a (S k - a))
    /\ results s'.2 = results s.2 ++ [record_of_result self d persons result]
    /\ errors s'.2 = errors s.2
    /\ exists now,
         w_db s'.1
         = save_price now (self_competitor_name self)
             (self_accommodation_type self) (date_isoformat (check_in d))
             (date_isoformat (check_out d)) (res_price result)
             (default true (res_available result)) (res_min_nights result)
             (res_special_offers result) persons (w_db s.1).
Proof.
  intros Hm Hk. induction n as [|n IH]; intros a s Han Hak Hf; [lia |].
  cbn [seq BaseScraper.attempt_loop].
  destruct (decide (a = k)) as [-> | Hne].
  - rewrite Hk. replace (S k - k)%nat with 1%nat by lia.
    cbn [fst snd calls results errors seq fmap list_fmap].
    split; [reflexivity |]. split; [reflexivity |]. split; [reflexivity |].
    unfold db_save_price, record_of_result.
    cbn [w_db rec_competitor_name rec_accommodation_type rec_check_in_date
         rec_check_out_date rec_price rec_available rec_min_nights
         rec_special_offers rec_persons].
    rewrite _wait_rate_limit_db. eauto.
  - assert (Hfa : fails (scrape_price i a)) by (apply Hf; lia).
    specialize (fun s => IH (S a) s ltac:(lia) ltac:(lia)
                           ltac:(intros j Hj; apply Hf; lia)).
    rewrite !count_failure_not_last by lia.
    replace (S k - a)%nat with (S (S k - S a)) by lia.
    cbn [seq fmap list_fmap].
    destruct (scrape_price i a) as [[r|]| |] eqn:Eo;
      [exfalso; by apply (Hfa r) | | |];
      at_state IH; destruct IH as (Hc & Hr & He & now & Hdb);
      cbn [fst snd calls results errors] in *;
      rewrite Hc, Hr, He, <- app_assoc;
      (repeat split; []); exists now; rewrite Hdb;
      by rewrite _wait_rate_limit_db.
Qed.

(** X16. When the attempt numbered [k] is the first that returns a
    result, the window is tried exactly [k] times and no further: the
    record built from the result is stored with [save_price] and appended
    to the results, and the error counter is left as it was, whatever the
    earlier attempts raised. *)
Theorem attempt_loop_stops_at_first_result self persons i d result (k : nat) s :
  (1 <= k)%nat -> Z.of_nat k <= self_max_retries self ->
  scrape_price i k = Returned (Some result) ->
  (forall j, (1 <= j < k)%nat -> fails (scrape_price i j)) ->
  let s' := attempt_loop' self persons i d (attempt_range self) s in
  calls s'.2 = calls s.2 ++ ((λ j, (i, j)) <$> seq 1 k)
  /\ results s'.2 = results s.2 ++ [record_of_result self d persons result]
  /\ errors s'.2 = errors s.2
  /\ exists now,
       w_db s'.1
       = save_price now (self_competitor_name self)
           (self_accommodation_type self) (date_isoformat (check_in d))
           (date_isoformat (check_out d)) (res_price result)
           (default true (res_available result)) (res_min_nights result)
           (res_special_offers result) persons (w_db s.1).
Proof.
  intros H1 Hmax Hk Hf. unfold attempt_range.
  pose proof (attempt_loop_first_success self persons i d result
                (Z.to_nat (self_max_retries self)) k ltac:(lia) Hk
                (Z.to_nat (self_max_retries self)) 1%nat s ltac:(lia)
                ltac:(lia) Hf) as H.
  replace (S k - 1)%nat with k in H by lia. exact H.
Qed.

(** What one window can add to the locals. *)
Lemma attempt_loop_bounds self persons i d (m : nat) :
  Z.of_nat m = self_max_retries self ->
  forall (n a : nat) s,
    (a + n <= S m)%nat ->
    let s' := attempt_loop' self persons i d (seq a n) s in
    (length (calls s'.2) <= length (calls s.2) + n)%nat
    /\ (length (results s.2) <= length (results s'.2))%nat
    /\ errors s.2 <= errors s'.2
    /\ Z.of_nat (length (results s'.2)) + errors s'.2
       <= Z.of_nat (length (results s.2)) + errors s.2 + 1.
Proof.
  intros Hm. induction n as [|n IH]; intros a s Han; [cbn; lia |].
  cbn [seq BaseScraper.attempt_loop].
  specialize (fun s => IH (S a) s ltac:(lia)).
  destruct (scrape_price i a) as [[r|]| |] eqn:Eo.
  - cbn [fst snd calls results errors]. rewrite !length_app. cbn [length]. lia.
  - at_state IH. cbn [fst snd calls results errors] in *.
    rewrite length_app in IH. cbn [length] in IH. lia.
  - destruct (decide (a = m)) as [-> | Hne].
    + rewrite count_failure_last by exact Hm.
      assert (n = 0)%nat as -> by lia.
      cbn [seq BaseScraper.attempt_loop fst snd calls results errors].
      rewrite length_app. cbn [length]. lia.
    + rewrite count_failure_not_last by lia.
      at_state IH. cbn [fst snd calls results errors] in *.
      rewrite length_app in IH. cbn [length] in IH. lia.
  - destruct (decide (a = m)) as [-> | Hne].
    + rewrite count_failure_last by exact Hm.
      assert (n = 0)%nat as -> by lia.
      cbn [seq BaseScraper.attempt_loop fst snd calls results errors].
      rewrite length_app. cbn [length]. lia.
    + rewrite count_failure_not_last by lia.
      at_state IH. cbn [fst snd calls results errors] in *.
      rewrite length_app in IH. cbn [length] in IH. lia.
Qed.

Lemma window_loop_bounds self persons i dates s :
  let s' := window_loop' self persons i dates s in
  (length (calls s'.2)
   <= length (calls s.2) + length dates * Z.to_nat (self_max_retries self))%nat
  /\ (length (results s.2) <= length (results s'.2))%nat
  /\ errors s.2 <= errors s'.2
  /\ Z.of_nat (length (results s'.2)) + errors s'.2
     <= Z.of_nat (length (results s.2)) + errors s.2 + Z.of_nat (length dates).
Proof.
  revert i s. induction dates as [|d dates IH]; intros i s; [cbn; lia |].
  cbn [BaseScraper.window_loop].
  specialize (IH (S i) (attempt_loop' self persons i d (attempt_range self) s)).
  assert (Ha : let s1 := attempt_loop' self persons i d (attempt_range self) s in
    (length (calls s1.2)
     <= length (calls s.2) + Z.to_nat (self_max_retries self))%nat
    /\ (length (results s.2) <= length (results s1.2))%nat
    /\ errors s.2 <= errors s1.2
    /\ Z.of_nat (length (results s1.2)) + errors s1.2
       <= Z.of_nat (length (results s.2)) + errors s.2 + 1).
  { unfold attempt_range.
    destruct (Z.le_gt_cases 0 (self_max_retries self)) as [Hpos | Hneg].
    - apply (attempt_loop_bounds self persons i d
               (Z.to_nat (self_max_retries self)) ltac:(lia)
               (Z.to_nat (self_max_retries self)) 1%nat s ltac:(lia)).
    - replace (Z.to_nat (self_max_retries self)) with 0%nat by lia.
      cbn. lia. }
  cbn zeta in Ha, IH. cbn [length]. lia.
Qed.

Lemma window_loop_no_attempts self persons i dates s :
  self_max_retries self <= 0 -> window_loop' self persons i dates s = s.
Proof.
  intros Hmax. revert i s. induction dates as [|d dates IH]; intros i s;
    [reflexivity |].
  cbn [BaseScraper.window_loop]. unfold attempt_range.
  replace (Z.to_nat (self_max_retries self)) with 0%nat by lia.
  cbn [seq BaseScraper.attempt_loop]. apply IH.
Qed.

(** X17. Whatever [scrape_price] does, a run calls it at most
    [max_retries] times per window, and each window adds at most one to
    the captured records and the error counter together: a window is
    never counted both as captured and as failed. With [max_retries] zero
    or negative no attempt is made at all. *)
Theorem run_bounds self dates persons w :
  let s := run_windows now_at time_at scrape_price self dates persons w in
  Z.of_nat (length (calls s.2))
  <= Z.of_nat (length dates) * Z.max 0 (self_max_retries self)
  /\ 0 <= errors s.2
  /\ Z.of_nat (length (results s.2)) + errors s.2 <= Z.of_nat (length dates)
  /\ (self_max_retries self <= 0 ->
      calls s.2 = [] /\ results s.2 = [] /\ errors s.2 = 0).
Proof.
  intros s. subst s. unfold BaseScraper.run_windows.
  pose proof (window_loop_bounds self persons 0 dates
                ((time_time time_at w).2, mk_run_locals [] 0 [] 1)) as H.
  cbn zeta in H. cbn [fst snd calls results errors length] in H.
  destruct H as (Hc & Hr & He & Hre).
  assert (Hcalls : Z.of_nat (length (calls (window_loop' self persons 0 dates
             ((time_time time_at w).2, mk_run_locals [] 0 [] 1)).2))
           <= Z.of_nat (length dates) * Z.max 0 (self_max_retries self)) by nia.
  split; [exact Hcalls |]. split; [lia |]. split; [lia |].
  intros Hmax. by rewrite window_loop_no_attempts.
Qed.

Lemma save_price_lookup_mono now c a ci co pr av mn so p (d : db) k :
  is_Some (prices d !! k) ->
  is_Some (prices (save_price now c a ci co pr av mn so p d) !! k).
Proof.
  intros Hk. destruct (decide (k = (c, ci, co, strftime_ymd now))) as [-> | Hne].
  - destruct (save_price_stamps now c a ci co pr av mn so p d) as (row & -> & _).
    eauto.
  - by rewrite save_price_other.
Qed.

Lemma has_row_save_price now c a ci co pr av mn so p (d : db) r :
  has_row d r -> has_row (save_price now c a ci co pr av mn so p d) r.
Proof.
  intros (day & cols & H).
  destruct (save_price_lookup_mono now c a ci co pr av mn so p d _
              (mk_is_Some _ _ H)) as [cols' H'].
  by exists day, cols'.
Qed.

Lemma has_row_db_save_price r (w : world) :
  has_row (w_db (db_save_price now_at r w)) r.
Proof.
  unfold db_save_price. cbn [w_db].
  destruct (save_price_stamps (now_at (w_ticks w)) (rec_competitor_name r)
              (rec_accommodation_type r) (rec_check_in_date r)
              (rec_check_out_date r) (rec_price r) (rec_available r)
              (rec_min_nights r) (rec_special_offers r) (rec_persons r)
              (w_db w)) as (row & H & _).
  by exists (strftime_ymd (now_at (w_ticks w))), row.
Qed.

Lemma attempt_loop_results_stored self persons i d D attempts s :
  d ∈ D -> results_stored self D s ->
  results_stored self D (attempt_loop' self persons i d attempts s).
Proof.
  intros Hd. revert s. induction attempts as [|a attempts IH]; intros s Hs;
    [exact Hs |].
  cbn [BaseScraper.attempt_loop].
  assert (Hw : results_stored self D
                 (_wait_rate_limit time_at self s.1, s.2)).
  { unfold results_stored in *. cbn [fst snd].
    by rewrite _wait_rate_limit_db. }
  destruct (scrape_price i a) as [[result|]| |].
  - unfold results_stored in *. cbn [fst snd results] in *.
    apply Forall_app. split.
    + eapply Forall_impl; [exact Hw |]. intros r [Hr Hex]. split; [| exact Hex].
      unfold db_save_price. cbn [w_db]. by apply has_row_save_price.
    + constructor; [| constructor]. split; [apply has_row_db_save_price |].
      exists d. split; [exact Hd |]. by repeat split.
  - apply IH. exact Hw.
  - apply IH. unfold count_failure. by case_match.
  - apply IH. unfold count_failure. by case_match.
Qed.

Lemma window_loop_results_stored self persons i D dates s :
  dates ⊆ D -> results_stored self D s ->
  results_stored self D (window_loop' self persons i dates s).
Proof.
  revert i s. induction dates as [|d dates IH]; intros i s Hsub Hs;
    [exact Hs |].
  cbn [BaseScraper.window_loop]. apply IH.
  - intros x Hx. apply Hsub. by right.
  - apply attempt_loop_results_stored; [apply Hsub; left | exact Hs].
Qed.

(** X18. Every record a run returns was stored and belongs to a window
    of the run: the table has a row for the scraper's competitor and the
    window's check-in and check-out dates when the run ends. At most one
    record is returned per window. *)
Theorem run_results_stored self dates persons w :
  let out := run' self dates persons w in
  Forall (λ r, has_row (w_db out.2) r
               /\ exists d, d ∈ dates /\ record_of_window self d r) out.1
  /\ (length out.1 <= length dates)%nat.
Proof.
  intros out. subst out. unfold BaseScraper.run.
  pose proof (window_loop_results_stored self persons 0 dates dates
                ((time_time time_at w).2, mk_run_locals [] 0 [] 1)
                (reflexivity _) ltac:(constructor)) as H.
  pose proof (window_loop_bounds self persons 0 dates
                ((time_time time_at w).2, mk_run_locals [] 0 [] 1))
    as (_ & _ & He & Hre).
  cbn [fst snd results errors length] in He, Hre.
  unfold BaseScraper.run_windows in *.
  destruct (window_loop' self persons 0 dates _) as [w1 l].
  unfold results_stored in H. cbn [fst snd results errors length] in *.
  split; [exact H |]. cbn [time_time fst]. lia.
Qed.

End OrchestratorMore.

(** ** The limiter *)
Section Limiter.
Import PyDatetime PyBuiltins Database BaseScraper Spec.
Variable time_at : nat -> Q.

Lemma Qlt_bool_true a b : Qlt_bool a b = true <-> (a < b)%Q.
Proof.
  unfold Qlt_bool. rewrite negb_true_iff, <- not_true_iff_false, Qle_bool_iff.
  split; [apply Qnot_le_lt | apply Qlt_not_le].
Qed.

Lemma Qlt_bool_false a b : Qlt_bool a b = false <-> (b <= a)%Q.
Proof. unfold Qlt_bool. by rewrite negb_false_iff, Qle_bool_iff. Qed.

(** X19. [_wait_rate_limit] takes two readings of the clock and leaves
    the database alone; it asks for at most one sleep, of a positive
    duration. If the clock does not run backwards between the two
    readings, and advances by at least the duration of the sleep when one
    is asked for, then the new request time is at least [rate_limit]
    after the previous one. *)
Theorem wait_rate_limit_spacing self w :
  let t := w_ticks w in
  let w' := _wait_rate_limit time_at self w in
  (time_at t <= time_at (S t))%Q ->
  (forall sleep, w_sleeps w' = w_sleeps w ++ [sleep] ->
                 (time_at t + sleep <= time_at (S t))%Q) ->
  (w_last_request_time w + self_rate_limit self <= w_last_request_time w')%Q
  /\ w_ticks w' = S (S t)
  /\ w_db w' = w_db w
  /\ (w_sleeps w' = w_sleeps w
      \/ exists sleep, w_sleeps w' = w_sleeps w ++ [sleep] /\ (0 < sleep)%Q).
Proof.
  intros t w' Hmono Hsleep. subst w'. unfold _wait_rate_limit in *.
  cbn [time_time w_ticks w_last_request_time w_db w_sleeps] in *. fold t in Hsleep |- *.
  destruct (Qlt_bool (time_at t - w_last_request_time w) (self_rate_limit self))
    eqn:E; cbn [w_ticks w_last_request_time w_db w_sleeps] in *.
  - apply Qlt_bool_true in E. specialize (Hsleep _ eq_refl).
    split; [lra |]. split; [reflexivity |]. split; [reflexivity |].
    right. eexists. split; [reflexivity | lra].
  - apply Qlt_bool_false in E.
    split; [lra |]. split; [reflexivity |]. split; [reflexivity |]. by left.
Qed.

End Limiter.

(** ** The limiter over a run of the orchestrator *)
Section LimiterRun.
Import PyDatetime PyBuiltins Database BaseScraper Spec.
Variable now_at : nat -> datetime.
Variable time_at : nat -> Q.
Variable scrape_price : nat -> nat -> outcome.

Abbreviation attempt_calls :=
  (attempt_limiter_calls now_at time_at scrape_price).
Abbreviation window_calls :=
  (window_limiter_calls now_at time_at scrape_price).
Abbreviation attempts_of := (attempt_loop now_at time_at scrape_price).
Abbreviation windows_of := (window_loop now_at time_at scrape_price).

(** One call of the limiter, under the hypotheses on the clock. *)
Lemma limiter_step self w :
  clock_honours time_at self w ->
  (w_last_request_time w + self_rate_limit self
   <= w_last_request_time (_wait_rate_limit time_at self w))%Q.
Proof.
  intros [Hmono Hsleep]. unfold _wait_rate_limit in *.
  cbn [time_time w_ticks w_last_request_time w_db w_sleeps] in *.
  destruct (Qlt_bool (time_at (w_ticks w) - w_last_request_time w)
              (self_rate_limit self)) eqn:E;
    cbn [w_ticks w_last_request_time w_db w_sleeps] in *.
  - apply Qlt_bool_true in E. specialize (Hsleep _ eq_refl). lra.
  - apply Qlt_bool_false in E. lra.
Qed.

Lemma spaced_cons gap a b l :
  spaced gap (a :: b :: l) <-> (a + gap <= b)%Q /\ spaced gap (b :: l).
Proof. reflexivity. Qed.

Lemma last_cons (x d : Q) l : List.last (x :: l) d = List.last l x.
Proof.
  revert x d. induction l as [|y l IH]; intros x d; [reflexivity |].
  change (List.last (x :: y :: l) d) with (List.last (y :: l) d).
  by rewrite (IH y d), (IH y x).
Qed.

Lemma spaced_app gap a l1 l2 :
  spaced gap (a :: l1) -> spaced gap (List.last l1 a :: l2) ->
  spaced gap (a :: l1 ++ l2).
Proof.
  revert a. induction l1 as [|b l1 IH]; intros a H1 H2; [exact H2 |].
  rewrite last_cons in H2. apply spaced_cons in H1 as [Hab H1].
  cbn [app]. apply spaced_cons. split; [exact Hab | by apply IH].
Qed.

Lemma last_app_default (d : Q) l1 l2 :
  List.last (l1 ++ l2) d = List.last l2 (List.last l1 d).
Proof.
  revert d. induction l1 as [|x l1 IH]; intros d; [reflexivity |].
  cbn [app]. by rewrite !last_cons, IH.
Qed.

(** One attempt: the stamp it leaves is the one of its limiter call, and
    it adds itself to the calls of [scrape_price]. *)
Lemma attempt_once self persons i d attempt s :
  let s' := attempts_of self persons i d [attempt] s in
  w_last_request_time s'.1
  = w_last_request_time (_wait_rate_limit time_at self s.1)
  /\ length (calls s'.2) = S (length (calls s.2)).
Proof.
  cbn [BaseScraper.attempt_loop].
  destruct (scrape_price i attempt) as [[result|]| |];
    cbn [fst snd calls db_save_price w_last_request_time];
    unfold count_failure; repeat case_match; cbn [calls];
    rewrite length_app; cbn [length]; split; reflexivity || lia.
Qed.

Lemma attempt_loop_cons self persons i d attempt rest s :
  attempts_of self persons i d (attempt :: rest) s
  = match scrape_price i attempt with
    | Returned (Some _) => attempts_of self persons i d [attempt] s
    | _ => attempts_of self persons i d rest
             (attempts_of self persons i d [attempt] s)
    end.
Proof.
  cbn [BaseScraper.attempt_loop].
  by destruct (scrape_price i attempt) as [[result|]| |].
Qed.

Lemma attempt_loop_spaced self persons i d attempts s :
  let ws := attempt_calls self persons i d attempts s in
  let s' := attempts_of self persons i d attempts s in
  Forall (clock_honours time_at self) ws ->
  spaced (self_rate_limit self)
    (w_last_request_time s.1 :: stamps time_at self ws)
  /\ w_last_request_time s'.1
     = List.last (stamps time_at self ws) (w_last_request_time s.1)
  /\ length (calls s'.2) = (length (calls s.2) + length ws)%nat.
Proof.
  revert s. induction attempts as [|attempt rest IH]; intros s ws s' Hws.
  - subst ws s'. cbn. split; [done |]. split; [done | lia].
  - subst ws s'. cbn [attempt_limiter_calls] in *.
    apply Forall_cons in Hws as [Hw Hws].
    pose proof (limiter_step self s.1 Hw) as Hstep.
    destruct (attempt_once self persons i d attempt s) as [Hstamp Hcalls].
    rewrite (attempt_loop_cons self persons i d attempt rest s).
    unfold stamps in *. cbn [fmap list_fmap] in *.
    destruct (scrape_price i attempt) as [[result|]| |].
    1: { cbn [fmap list_fmap List.last length].
         split; [split; [exact Hstep | exact I] |].
         split; [exact Hstamp | lia]. }
    all: specialize (IH _ Hws); cbn zeta in IH;
      destruct IH as (IH1 & IH2 & IH3);
      rewrite Hstamp in IH1, IH2; rewrite Hcalls in IH3;
      rewrite last_cons; cbn [length];
      (split; [apply spaced_cons; split; [exact Hstep | exact IH1] |]);
      (split; [exact IH2 | lia]).
Qed.

Lemma window_loop_spaced self persons i dates s :
  let ws := window_calls self persons i dates s in
  let s' := windows_of self persons i dates s in
  Forall (clock_honours time_at self) ws ->
  spaced (self_rate_limit self)
    (w_last_request_time s.1 :: stamps time_at self ws)
  /\ w_last_request_time s'.1
     = List.last (stamps time_at self ws) (w_last_request_time s.1)
  /\ length (calls s'.2) = (length (calls s.2) + length ws)%nat.
Proof.
  revert i s. induction dates as [|d dates IH]; intros i s ws s' Hws.
  - subst ws s'. cbn. split; [done |]. split; [done | lia].
  - subst ws s'. cbn [window_limiter_calls BaseScraper.window_loop] in *.
    apply Forall_app in Hws as [Hws1 Hws2].
    destruct (attempt_loop_spaced self persons i d (attempt_range self) s
                Hws1) as (A1 & A2 & A3).
    specialize (IH (S i) _ Hws2). cbn zeta in IH.
    destruct IH as (W1 & W2 & W3).
    unfold stamps in *. rewrite fmap_app, last_app_default, length_app.
    rewrite A2 in W1, W2. split; [by apply spaced_app |].
    split; [exact W2 | lia].
Qed.

(** C6, as the code has it. In a run of the window orchestrator the
    limiter is called once before every call of [scrape_price]. If at
    each of these calls the clock does not run backwards and, when the
    limiter sleeps, advances by at least the duration of the sleep, then
    the instants the limiter stamps are at least [rate_limit] apart, the
    first of them at least [rate_limit] after the instant the scraper
    held when the run began; the instant the scraper holds when the
    windows are done is the last of them. *)
Theorem run_stamps_spaced self dates persons w :
  let s0 := ((time_time time_at w).2, mk_run_locals [] 0 [] 1) in
  let ws := window_limiter_calls now_at time_at scrape_price self persons 0
              dates s0 in
  let s := run_windows now_at time_at scrape_price self dates persons w in
  Forall (clock_honours time_at self) ws ->
  length ws = length (calls s.2)
  /\ spaced (self_rate_limit self)
       (w_last_request_time w :: stamps time_at self ws)
  /\ w_last_request_time s.1
     = List.last (stamps time_at self ws) (w_last_request_time w).
Proof.
  intros s0 ws s Hws.
  destruct (window_loop_spaced self persons 0 dates s0 Hws) as (H1 & H2 & H3).
  split; [exact (eq_sym H3) |]. split; [exact H1 | exact H2].
Qed.

End LimiterRun.

(** ** The grid adapter: when a header resolves, and to which year *)
Section ResolveDateMore.
Import PyDatetime PyBuiltins BeerzeBultenScraper Spec.

Lemma days_before_year_next y :
  days_before_year (y + 1) - days_before_year y
  = 365 + (if is_leap y then 1 else 0).
Proof.
  unfold days_before_year, is_leap. cbn zeta.
  replace (y + 1 - 1) with y by lia.
  destruct (Z.eqb_spec (y mod 4) 0);
    destruct (Z.eqb_spec (y mod 100) 0);
    destruct (Z.eqb_spec (y mod 400) 0); cbn [negb andb orb];
    Z.div_mod_to_equations; lia.
Qed.

(** The same day and month, a year later, is 365 or 366 days later. *)
Lemma ymd2ord_next_year y m d :
  365 <= ymd2ord (y + 1) m d - ymd2ord y m d <= 366.
Proof.
  unfold ymd2ord.
  pose proof (days_before_year_next y) as Hy.
  assert (Hm : days_before_month (y + 1) m - days_before_month y m
               = if 2 <? m
                 then (if is_leap (y + 1) then 1 else 0)
                      - (if is_leap y then 1 else 0)
                 else 0).
  { unfold days_before_month. destruct (2 <? m); cbn [andb]; [| lia].
    destruct (is_leap (y + 1)), (is_leap y); lia. }
  assert (Hl : is_leap y = true -> is_leap (y + 1) = false).
  { unfold is_leap. intros H. apply andb_prop in H as [H _].
    apply Z.eqb_eq in H. apply andb_false_intro1, Z.eqb_neq.
    Z.div_mod_to_equations. lia. }
  destruct (2 <? m); destruct (is_leap y) eqn:E1;
    destruct (is_leap (y + 1)) eqn:E2;
    try (specialize (Hl eq_refl); discriminate); lia.
Qed.

(** The distance the loop computes for a candidate, by the time of day
    of the reference. *)
Lemma sub_days_midnight y m d c ref :
  datetime_ymd y m d = Some c ->
  0 <= time_of_day ref < usec_per_day ->
  sub_days c ref
  = toordinal c - toordinal ref - (if time_of_day ref =? 0 then 0 else 1).
Proof.
  intros Hc Ht. apply datetime_ymd_Some in Hc as [-> _].
  unfold sub_days. change (time_of_day (mk_datetime y m d 0 0 0 0)) with 0.
  unfold usec_per_day in *.
  destruct (Z.eqb_spec (time_of_day ref) 0) as [E|E].
  - rewrite E. Z.div_mod_to_equations. lia.
  - Z.div_mod_to_equations. lia.
Qed.

(** Takes a hypothesis of conjunctions, alternatives and witnesses
    apart, and closes the goal when an equation in it is absurd. *)
Ltac break_down H :=
  repeat match type of H with
         | _ /\ _ => let H' := fresh in destruct H as [H' H]; try break_down H'
         | _ \/ _ => destruct H as [H | H]
         | exists _, _ => destruct H as [? H]
         end;
  simplify_eq; try done.

Lemma decimal_val_bounds c v : decimal_val c = Some v -> 0 <= v <= 9.
Proof.
  unfold decimal_val.
  destruct (head _) as [zero|] eqn:E; [| discriminate].
  intros [= <-]. apply head_Some_elem_of, list_elem_of_filter in E as [E _].
  lia.
Qed.

Lemma int_of_decimals_nonneg l d : int_of_decimals l = Some d -> 0 <= d.
Proof.
  unfold int_of_decimals. case_match; [discriminate |]. intros [= <-].
  assert (Hfold : forall acc,
             0 <= acc ->
             0 <= foldl (λ acc c, 10 * acc + default 0 (decimal_val c)) acc l).
  { clear. induction l as [|c l IH]; intros acc Hacc; [exact Hacc |].
    cbn [foldl]. apply IH.
    destruct (decimal_val c) as [v|] eqn:E; unfold default; cbn [from_option id];
      [| lia].
    apply decimal_val_bounds in E. unfold id. lia. }
  apply Hfold. lia.
Qed.

Lemma month_map_range k m : dict_get_text k month_map = Some m -> 1 <= m <= 12.
Proof.
  unfold month_map. cbn [dict_get_text].
  repeat case_match; intros [= <-]; lia.
Qed.

(** The constructor overflows on the day alone, when the year is one a
    [datetime] can have and the month is one of the twelve. *)
Lemma datetime_new_overflow y m d :
  MINYEAR <= y <= MAXYEAR + 1 -> 1 <= m <= 12 -> 0 <= d ->
  datetime_new y m d = OverflowError <-> 2147483647 < d.
Proof.
  unfold MINYEAR, MAXYEAR. intros Hy Hm Hd. unfold datetime_new.
  replace (fits_c_int y) with true by (symmetry; unfold fits_c_int; lia).
  replace (fits_c_int m) with true by (symmetry; unfold fits_c_int; lia).
  cbn [andb]. unfold fits_c_int.
  destruct (Z.leb_spec d 2147483647) as [Hle | Hgt].
  - replace (-2147483648 <=? d) with true by (symmetry; lia). cbn [andb].
    split; [| lia]. by destruct (datetime_ymd y m d).
  - rewrite andb_false_r. split; [lia | done].
Qed.

Lemma datetime_new_invalid y m d :
  datetime_new y m d = ValueError
  <-> fits_c_int y && fits_c_int m && fits_c_int d = true
      /\ valid_ymd y m d = false.
Proof.
  unfold datetime_new, datetime_ymd.
  destruct (_ && _); destruct (valid_ymd y m d); split;
    (intros [? ?] || intros ?); try discriminate; auto.
Qed.

Lemma datetime_new_cases y m d :
  MINYEAR <= y <= MAXYEAR + 1 -> 1 <= m <= 12 -> 0 <= d ->
  match datetime_new y m d with
  | Built _ => valid_ymd y m d = true /\ d <= 2147483647
  | ValueError => valid_ymd y m d = false /\ d <= 2147483647
  | OverflowError => 2147483647 < d
  end.
Proof.
  intros Hy Hm Hd.
  pose proof (datetime_new_overflow _ _ _ Hy Hm Hd) as O.
  destruct (datetime_new y m d) as [c| |] eqn:E.
  - apply datetime_new_Built, datetime_ymd_Some in E as [_ E].
    split; [exact E |].
    destruct (Z.leb_spec d 2147483647); [done |].
    by specialize (proj2 O ltac:(lia)).
  - apply datetime_new_invalid in E as [_ E]. split; [exact E |].
    destruct (Z.leb_spec d 2147483647); [done |].
    by specialize (proj2 O ltac:(lia)).
  - by apply O.
Qed.

(** How the loop over the two years ends. *)
Lemma best_candidate_cases ref m d :
  MINYEAR <= year ref <= MAXYEAR -> 1 <= m <= 12 -> 0 <= d ->
  (best_candidate ref m d = Raises <-> 2147483647 < d)
  /\ (best_candidate ref m d = Returns None <->
      d <= 2147483647
      /\ valid_ymd (year ref) m d = false
      /\ valid_ymd (year ref + 1) m d = false).
Proof.
  intros Hy Hm Hd.
  assert (Hy1 : MINYEAR <= year ref <= MAXYEAR + 1) by lia.
  assert (Hy2 : MINYEAR <= year ref + 1 <= MAXYEAR + 1) by lia.
  pose proof (datetime_new_cases _ _ _ Hy1 Hm Hd) as C1.
  pose proof (datetime_new_cases _ _ _ Hy2 Hm Hd) as C2.
  unfold best_candidate. cbn [years_loop]. unfold consider.
  destruct (datetime_new (year ref) m d) as [c1| |];
    destruct (datetime_new (year ref + 1) m d) as [c2| |];
    repeat case_match;
    (split; split;
     [intros Hg | intros Hg | intros Hg | intros (Hle & Hv1 & Hv2)]);
    try discriminate; try lia; try reflexivity;
    try (destruct C1; destruct C2; congruence || lia);
    try (destruct C1; congruence || lia);
    try (destruct C2; congruence || lia).
  destruct C1, C2. by repeat split.
Qed.

(** X20. How [_resolve_date] ends on a header, for a reference in the
    years a [datetime] can have. It returns [None] in three cases only:
    the pattern does not match; the month group, put in lower case, is
    no key of [month_map]; or the day exists in that month neither in
    the reference's year nor in the year after. An exception leaves it in
    two cases only: the digits are more than [int] converts (4300), or
    the month is known and the day does not fit a C [int], which the
    constructor answers with an [OverflowError] that the loop does not
    catch. *)
Theorem resolve_date_None date_header ref :
  MINYEAR <= year ref <= MAXYEAR ->
  (_resolve_date date_header ref = Returns None <->
   search_day_month date_header = None
   \/ exists digits group d,
        search_day_month date_header = Some (digits, group)
        /\ int_of_decimals digits = Some d
        /\ (dict_get_text (str_lower group) month_map = None
            \/ exists m,
                 dict_get_text (str_lower group) month_map = Some m
                 /\ d <= 2147483647
                 /\ valid_ymd (year ref) m d = false
                 /\ valid_ymd (year ref + 1) m d = false))
  /\ (_resolve_date date_header ref = Raises <->
      exists digits group,
        search_day_month date_header = Some (digits, group)
        /\ (int_of_decimals digits = None
            \/ exists d m,
                 int_of_decimals digits = Some d
                 /\ dict_get_text (str_lower group) month_map = Some m
                 /\ 2147483647 < d)).
Proof.
  intros Hy. unfold _resolve_date.
  destruct (search_day_month date_header) as [[digits group]|] eqn:Es.
  2: { split; split; [by left | done | done |]. by intros (? & ? & ? & _). }
  destruct (int_of_decimals digits) as [d|] eqn:Ed.
  2: { split; split; [done | | |].
       - intros Hg. break_down Hg.
       - intros _. exists digits, group. split; [done | by left].
       - done. }
  pose proof (int_of_decimals_nonneg _ _ Ed) as Hd.
  destruct (dict_get_text (str_lower group) month_map) as [m|] eqn:Em.
  2: { split; split; [| done | done |].
       - intros _. right. exists digits, group, d.
         split; [done |]. split; [done |]. by left.
       - intros Hg. break_down Hg. }
  pose proof (month_map_range _ _ Em) as Hm.
  destruct (best_candidate_cases ref m d Hy Hm Hd) as [HR HN].
  destruct (best_candidate ref m d) as [[best|]|] eqn:Eb.
  - split; split; [done | | done |].
    + intros Hg. break_down Hg. by discriminate (proj2 HN).
    + intros Hg. break_down Hg. by discriminate (proj2 HR).
  - split; split; [| done | done |].
    + intros _. right. exists digits, group, d.
      split; [done |]. split; [done |]. right. exists m.
      split; [done |]. by apply HN.
    + intros Hg. break_down Hg. by discriminate (proj2 HR).
  - split; split; [done | | | done].
    + intros Hg. break_down Hg. by discriminate (proj2 HN).
    + intros _. exists digits, group. split; [done |]. right.
      exists d, m. split; [done |]. split; [done |]. by apply HR.
Qed.

(** X21. A header whose day and month, taken in the reference's year,
    fall on the reference's day or after it resolves to that year, for a
    reference with or without a time of day: a date still to come this
    year is never moved to next year. *)
Theorem resolve_date_upcoming date_header ref digits group d m c :
  0 <= time_of_day ref < usec_per_day ->
  search_day_month date_header = Some (digits, group) ->
  int_of_decimals digits = Some d ->
  dict_get_text (str_lower group) month_map = Some m ->
  datetime_ymd (year ref) m d = Some c ->
  toordinal ref <= toordinal c ->
  _resolve_date date_header ref = Returns (Some (strftime_ymd c)).
Proof.
  intros Ht Hs Hd Hm Hc Hle. unfold _resolve_date. rewrite Hs, Hd, Hm.
  unfold best_candidate. cbn [years_loop]. unfold consider.
  rewrite (proj2 (datetime_new_Built _ _ _ _) Hc).
  assert (Hno : datetime_new (year ref + 1) m d ≠ OverflowError).
  { destruct (datetime_ymd_Some _ _ _ _ Hc) as [_ Hv].
    unfold valid_ymd, MINYEAR, MAXYEAR in Hv.
    repeat (apply andb_prop in Hv as [Hv ?]).
    assert (days_in_month (year ref) m <= 31)
      by (unfold days_in_month; repeat case_match; lia).
    unfold datetime_new.
    replace (fits_c_int (year ref + 1) && fits_c_int m && fits_c_int d)
      with true by (symmetry; unfold fits_c_int; lia).
    by destruct (datetime_ymd (year ref + 1) m d). }
  destruct (datetime_new (year ref + 1) m d) as [c2| |] eqn:Hc2;
    [| reflexivity | done].
  apply datetime_new_Built in Hc2.
  rewrite (sub_days_midnight _ _ _ _ _ Hc Ht),
    (sub_days_midnight _ _ _ _ _ Hc2 Ht).
  pose proof (ymd2ord_next_year (year ref) m d) as Hy.
  apply datetime_ymd_Some in Hc as [-> _].
  apply datetime_ymd_Some in Hc2 as [-> _].
  unfold toordinal in *. cbn [year month day] in *.
  destruct (Z.ltb_spec
              (Z.abs (ymd2ord (year ref + 1) m d
                      - ymd2ord (year ref) (month ref) (day ref)
                      - (if time_of_day ref =? 0 then 0 else 1)))
              (Z.abs (ymd2ord (year ref) m d
                      - ymd2ord (year ref) (month ref) (day ref)
                      - (if time_of_day ref =? 0 then 0 else 1))));
    [| reflexivity].
  exfalso. destruct (time_of_day ref =? 0); lia.
Qed.

End ResolveDateMore.

(** ** The REST batch adapter: what it returns and what it skips *)
Section BatchAdapter.
Import PyDatetime PyBuiltins Database BaseScraper Spec.
Variable now_at : nat -> datetime.
Variable time_at : nat -> Q.

Lemma strptime_dmy_valid s t :
  strptime_dmy s = Some t -> valid_ymd (year t) (month t) (day t) = true.
Proof.
  unfold strptime_dmy. intros H.
  destruct (split_dash _) as [[d rest]|]; [| discriminate].
  cbn [mbind option_bind] in H.
  destruct (split_dash rest) as [[m y]|]; [| discriminate].
  cbn [mbind option_bind] in H.
  destruct (parse_pct_d d); [| discriminate].
  destruct (parse_pct_m m); [| discriminate].
  destruct (parse_pct_Y y); [| discriminate].
  cbn [mbind option_bind] in H.
  by apply datetime_ymd_Some in H as [-> Hv].
Qed.

Lemma departure_body_ok self persons check_in_dt departure r :
  valid_ymd (year check_in_dt) (month check_in_dt) (day check_in_dt) = true ->
  HolidayAgentScraper.departure_body self persons check_in_dt departure
  = HolidayAgentScraper.Store r ->
  well_formed self persons r
  /\ rendered_date (rec_check_in_date r)
  /\ rendered_date (rec_check_out_date r).
Proof.
  unfold HolidayAgentScraper.departure_body. intros Hci H.
  destruct (HolidayAgentScraper.dep_nights departure) as [n|]; [| discriminate].
  destruct (HolidayAgentScraper.dep_prices departure); [| discriminate].
  destruct (negb _); [discriminate |].
  destruct (strptime_dmy _) as [check_out_dt|] eqn:Eo; [| discriminate].
  destruct (HolidayAgentScraper.dep_amountAvailable departure);
    [| discriminate].
  injection H as <-. cbn [rec_competitor_name rec_accommodation_type
    rec_persons rec_available rec_price rec_check_in_date rec_check_out_date].
  split; [| split].
  - repeat split. intros [_ Hp]%andb_prop. by apply bool_decide_eq_true in Hp.
  - by exists check_in_dt.
  - exists check_out_dt. split; [by eapply strptime_dmy_valid | reflexivity].
Qed.

Lemma batch_record_ok_save self persons r r' (w : world) :
  batch_record_ok self persons (w_db w) r ->
  batch_record_ok self persons (w_db (db_save_price now_at r' w)) r.
Proof.
  intros (Hr & Hrest). split; [| exact Hrest].
  unfold db_save_price. cbn [w_db]. by apply has_row_save_price.
Qed.

Lemma departures_loop_ok self persons check_in_dt departures s :
  valid_ymd (year check_in_dt) (month check_in_dt) (day check_in_dt) = true ->
  Forall (batch_record_ok self persons (w_db s.1)) s.2 ->
  let out := HolidayAgentScraper.departures_loop now_at self persons
               check_in_dt departures s in
  Forall (batch_record_ok self persons (w_db out.1.1)) out.1.2.
Proof.
  intros Hci. revert s.
  induction departures as [|dep departures IH]; intros s Hs; [exact Hs |].
  cbn [HolidayAgentScraper.departures_loop].
  destruct (HolidayAgentScraper.departure_body _ _ _ _) as [r| |] eqn:E;
    [| by apply IH | exact Hs].
  apply IH. cbn [fst snd]. apply Forall_app. split.
  - eapply Forall_impl; [exact Hs |]. intros r0. apply batch_record_ok_save.
  - constructor; [| constructor].
    split; [apply has_row_db_save_price |].
    by eapply departure_body_ok.
Qed.

Lemma arrivals_loop_ok self persons arrivals s :
  Forall (batch_record_ok self persons (w_db s.1)) s.2 ->
  let out := HolidayAgentScraper.arrivals_loop now_at self persons arrivals s in
  Forall (batch_record_ok self persons (w_db out.1.1)) out.1.2.
Proof.
  revert s. induction arrivals as [|arr arrivals IH]; intros s Hs; [exact Hs |].
  cbn [HolidayAgentScraper.arrivals_loop].
  destruct (String.eqb _ _); [by apply IH |].
  destruct (strptime_dmy _) as [check_in_dt|] eqn:Ei; [| by apply IH].
  destruct (HolidayAgentScraper.arr_departures arr) as [departures|];
    [| exact Hs].
  pose proof (departures_loop_ok self persons check_in_dt departures s
                (strptime_dmy_valid _ _ Ei) Hs) as Hd.
  cbn zeta in Hd.
  destruct (HolidayAgentScraper.departures_loop _ _ _ _ _ _) as [s' raised].
  destruct raised; [exact Hd | by apply IH].
Qed.

(** X22. Every record the REST batch adapter returns has a row in the
    table when the run ends, under the scraper's competitor name and the
    record's dates. It names the scraper's accommodation and the party
    asked for, its two dates are [%Y-%m-%d] renderings of calendar dates
    that exist, and it is marked available only when it has a price. *)
Theorem holidayagent_records_stored self fetched persons w :
  let out := HolidayAgentScraper.run_efficient now_at time_at self fetched
               persons w in
  Forall (batch_record_ok self persons (w_db out.2)) out.1.
Proof.
  intros out. subst out. unfold HolidayAgentScraper.run_efficient.
  cbn [time_time]. unfold HolidayAgentScraper.scrape_arrivals.
  destruct fetched as [arrivals|]; [| constructor].
  match goal with
  | |- context [HolidayAgentScraper.arrivals_loop _ _ _ _ ?s] =>
      pose proof (arrivals_loop_ok self persons arrivals s
                    ltac:(constructor)) as Ha
  end.
  cbn zeta in Ha.
  destruct (HolidayAgentScraper.arrivals_loop _ _ _ _ _) as [[w1 rs] raised].
  exact Ha.
Qed.



End BatchAdapter.

(** ** Dates from the REST interface *)
Section DateConversion.
Import PyDatetime PyBuiltins Database BaseScraper Spec.
Local Arguments String.append : simpl nomatch.

Lemma digit_val_digit_char k : 0 <= k <= 9 -> digit_val (digit_char k) = Some k.
Proof.
  intros H. destruct k as [|p|p]; [reflexivity | | lia].
  do 4 (destruct p as [p|p|]; try lia; try reflexivity).
Qed.

Lemma digit_char_not_dash k : Ascii.eqb (digit_char k) "-" = false.
Proof. unfold digit_char. repeat case_match; reflexivity. Qed.

Lemma is_digit_digit_char k : 0 <= k <= 9 -> is_digit (digit_char k) = true.
Proof.
  intros H. unfold is_digit. apply bool_decide_eq_true.
  rewrite digit_val_digit_char by exact H. eauto.
Qed.

Lemma strptime_dmy_format y m d t :
  datetime_ymd y m d = Some t -> strptime_dmy (dmy_text y m d) = Some t.
Proof.
  intros H. pose proof H as H0. apply datetime_ymd_Some in H as [-> Hv].
  unfold valid_ymd, MINYEAR, MAXYEAR in Hv.
  repeat (apply andb_prop in Hv as [Hv ?]).
  assert (days_in_month y m <= 31).
  { unfold days_in_month. repeat case_match; lia. }
  unfold strptime_dmy, dmy_text, dec4, dec2.
  cbn [String.append String.list_ascii_of_string split_dash].
  rewrite !digit_char_not_dash. cbn.
  rewrite !digit_char_not_dash. cbn.
  rewrite !is_digit_digit_char by (Z.div_mod_to_equations; lia).
  rewrite !digit_val_digit_char by (Z.div_mod_to_equations; lia).
  cbn.
  replace (10 * ((d / 10) mod 10) + d mod 10) with d
    by (Z.div_mod_to_equations; lia).
  replace (10 * ((m / 10) mod 10) + m mod 10) with m
    by (Z.div_mod_to_equations; lia).
  replace (10 * (10 * (10 * (10 * 0 + (y / 100 / 10) mod 10)
                       + (y / 100) mod 10)
                 + (y mod 100 / 10) mod 10) + (y mod 100) mod 10) with y
    by (Z.div_mod_to_equations; lia).
  replace ((1 <=? d) && (d <=? 31)) with true by (symmetry; lia).
  replace ((1 <=? m) && (m <=? 12)) with true by (symmetry; lia).
  exact H0.
Qed.

(** X24. A departure that carries a [%d-%m-%Y] date that exists, a night
    count among 2, 3, 4, 5 and 7, a prices object and an availability
    count is stored: the loop body builds a record for it, whose
    check-out date is that date written [%Y-%m-%d], whose check-in date
    is the rendering of the arrival's date, and whose night count is the
    departure's. *)
Theorem departure_body_converts_date self persons check_in_dt departure
    y m d t n prices amount :
  datetime_ymd y m d = Some t ->
  HolidayAgentScraper.dep_date departure = dmy_text y m d ->
  HolidayAgentScraper.dep_nights departure = Some n ->
  n ∈ [2; 3; 4; 5; 7] ->
  HolidayAgentScraper.dep_prices departure = Some prices ->
  HolidayAgentScraper.dep_amountAvailable departure = Some amount ->
  exists r,
    HolidayAgentScraper.departure_body self persons check_in_dt departure
    = HolidayAgentScraper.Store r
    /\ rec_check_in_date r = strftime_ymd check_in_dt
    /\ rec_check_out_date r = format_ymd y m d
    /\ rec_min_nights r = Some n.
Proof.
  intros Ht Hd Hn Hin Hp Ha. unfold HolidayAgentScraper.departure_body.
  rewrite Hn, Hp, Hd, (strptime_dmy_format _ _ _ _ Ht), Ha.
  rewrite bool_decide_eq_true_2 by exact Hin. cbn [negb].
  eexists. split; [reflexivity |].
  apply datetime_ymd_Some in Ht as [-> _]. by repeat split.
Qed.

End DateConversion.

(** ** The rendered matrix adapter: distinct stays, and the run's log row *)
Section MatrixAdapter.
Import PyDatetime PyBuiltins Database BaseScraper Spec.
Variable now_at : nat -> datetime.
Variable time_at : nat -> Q.
Variable evaluate_at : nat -> WitterZomerScraper.evaluated.
Variable navigate_at : nat -> WitterZomerScraper.navigation.

Abbreviation records_loop' := (WitterZomerScraper.records_loop now_at).
Abbreviation pages_loop' :=
  (WitterZomerScraper.pages_loop now_at time_at evaluate_at navigate_at).
Abbreviation matrix_run' :=
  (WitterZomerScraper.run_efficient now_at time_at evaluate_at navigate_at).

Lemma records_loop_invariant self persons records s :
  Forall (λ r, WitterZomerScraper.p_available r = true) records ->
  matrix_invariant self persons s.1.1 s.1.2 ->
  let out := records_loop' self persons records s in
  matrix_invariant self persons out.1.1 out.1.2.
Proof.
  revert s. induction records as [|r records IH]; intros [[w l] m] Hav Hs;
    [exact Hs |].
  apply Forall_cons in Hav as [Hr Hav].
  cbn [WitterZomerScraper.records_loop].
  destruct (negb _); [by apply IH |].
  destruct (decide (_ ∈ WitterZomerScraper.seen_keys l)) as [|Hnew];
    [by apply IH |].
  apply IH; [exact Hav |]. clear IH.
  destruct Hs as (Hok & Hnd & Hseen). cbn [fst snd] in *.
  unfold matrix_invariant.
  cbn [WitterZomerScraper.all_records WitterZomerScraper.seen_keys].
  split; [| split].
  - apply Forall_app. split.
    + eapply Forall_impl; [exact Hok |]. intros r0 (H0 & Hrest).
      split; [| exact Hrest].
      unfold db_save_price. cbn [w_db]. by apply has_row_save_price.
    + constructor; [| constructor].
      split; [apply has_row_db_save_price |].
      split; [by repeat split; eauto |]. split; [by eauto | exact Hr].
  - rewrite fmap_app. apply NoDup_app. split; [exact Hnd |]. split.
    + intros k (r0 & -> & Hr0)%list_elem_of_fmap Hk.
      apply list_elem_of_singleton in Hk. apply Hnew.
      unfold stay_key in Hk. cbn [rec_check_in_date rec_check_out_date] in Hk.
      rewrite <- Hk. by apply Hseen.
    + apply NoDup_singleton.
  - intros r0 [Hr0 | Hr0%list_elem_of_singleton]%elem_of_app.
    + apply elem_of_union_r. by apply Hseen.
    + apply elem_of_union_l, elem_of_singleton. by subst r0.
Qed.

Lemma matrix_invariant_db self persons (w w' : world) l l' :
  w_db w' = w_db w ->
  WitterZomerScraper.all_records l' = WitterZomerScraper.all_records l ->
  WitterZomerScraper.seen_keys l' = WitterZomerScraper.seen_keys l ->
  matrix_invariant self persons w l -> matrix_invariant self persons w' l'.
Proof. unfold matrix_invariant. by intros -> -> ->. Qed.

Lemma parse_widget_matrix_available data records has_next :
  WitterZomerScraper._parse_widget_matrix data = Some (records, has_next) ->
  Forall (λ r, WitterZomerScraper.p_available r = true) records.
Proof.
  destruct data as [| |raw hn]; [discriminate | |]; intros [= <- <-];
    [constructor |].
  apply Forall_fmap, Forall_true. by intros r.
Qed.

Lemma pages_loop_invariant self persons target_end_str page_nums s :
  matrix_invariant self persons s.1 s.2 ->
  let out := pages_loop' self persons target_end_str page_nums s in
  matrix_invariant self persons out.1 out.2.
Proof.
  revert s. induction page_nums as [|page_num rest IH]; intros s Hs;
    [exact Hs |].
  cbn [WitterZomerScraper.pages_loop].
  destruct (WitterZomerScraper._parse_widget_matrix _)
    as [[records has_next]|] eqn:Ep; [| exact Hs].
  pose proof (records_loop_invariant self persons records (s, None)
                (parse_widget_matrix_available _ _ _ Ep) Hs) as Hr.
  cbn zeta in Hr.
  destruct (WitterZomerScraper.records_loop _ _ _ _ _) as [[w l] m].
  cbn [fst snd] in Hr.
  assert (Hw : matrix_invariant self persons
                 (_wait_rate_limit time_at self w) l).
  { eapply matrix_invariant_db; [apply _wait_rate_limit_db | | | exact Hr];
      reflexivity. }
  repeat case_match; try exact Hr; try exact Hw; by apply IH.
Qed.





(** X25. The records a run of the matrix adapter returns are for
    pairwise different stays (check-in and check-out date), whatever the
    pages repeat. Each of them has a price, is marked available, names
    the scraper's accommodation and the party asked for, and has a row in
    the table when the run ends. *)
Theorem witter_zomer_records_distinct self months_ahead persons max_pages
    loaded w :
  let out := matrix_run' self months_ahead persons max_pages loaded w in
  NoDup (stay_key <$> out.1)
  /\ Forall (matrix_record_ok self persons (w_db out.2)) out.1.
Proof.
  intros out. subst out. unfold WitterZomerScraper.run_efficient.
  cbn [time_time].
  destruct loaded; [| split; [apply NoDup_nil_2 | constructor]].
  match goal with
  | |- context [WitterZomerScraper.pages_loop _ _ _ _ ?a ?b ?c ?d ?e] =>
      pose proof (pages_loop_invariant a b c d e) as Hp;
      destruct (WitterZomerScraper.pages_loop _ _ _ _ a b c d e) as [w1 l]
  end.
  destruct Hp as (Hok & Hnd & _).
  { split; [constructor |]. split; [apply NoDup_nil_2 |]. by intros r ?%elem_of_nil. }
  cbn [fst snd] in *. split; [exact Hnd | exact Hok].
Qed.


End MatrixAdapter.

(** ** The daily pipeline: what is recorded per scraper, and the exit code *)
Section Pipeline.
Import PyDatetime PyBuiltins Database BaseScraper Spec RunDaily.
Variable run_efficient_at : nat -> string -> option (list record).

Abbreviation raises_through' := (raises_through run_efficient_at).
Abbreviation first_return' := (first_return run_efficient_at).
Abbreviation recorded_after' := (recorded_after run_efficient_at).

(** What a state of the loops says after the first pass and [k] retry
    attempts over the keys [T]. *)
Local Abbreviation pass_invariant T k s :=
  (s.2 = filter (λ key, raises_through' key k) T
   /\ forall key, s.1 !! key
        = if decide (key ∈ T) then Some (recorded_after' key k) else None).

Lemma raises_through_spec key k :
  raises_through' key k
  <-> forall j, (j <= k)%nat -> run_efficient_at j key = None.
Proof.
  unfold raises_through. rewrite Forall_seq.
  split; intros H j Hj; apply H; lia.
Qed.

Lemma raises_through_0 key :
  raises_through' key 0 <-> run_efficient_at 0%nat key = None.
Proof.
  rewrite raises_through_spec. split; [intros H; apply H; lia |].
  intros H j Hj. by replace j with 0%nat by lia.
Qed.

Lemma raises_through_S key k :
  raises_through' key (S k)
  <-> run_efficient_at (S k) key = None /\ raises_through' key k.
Proof.
  rewrite !raises_through_spec. split.
  - intros H. split; [apply H; lia |]. intros j Hj. apply H. lia.
  - intros [H1 H2] j Hj. destruct (decide (j = S k)) as [-> | Hne];
      [exact H1 | apply H2; lia].
Qed.

Lemma scrape_pass_spec ok_status pass l m f :
  let out := foldl (scrape run_efficient_at ok_status pass) (m, f) l in
  out.2 = f ++ filter (λ key, run_efficient_at pass key = None) l
  /\ forall key, out.1 !! key
       = if decide (key ∈ l)
         then Some (recorded ok_status (run_efficient_at pass key))
         else m !! key.
Proof.
  revert m f. induction l as [|k l IH]; intros m f.
  - cbn. split; [by rewrite app_nil_r |]. intros key.
    rewrite decide_False; [done | apply not_elem_of_nil].
  - cbn [foldl].
    destruct (scrape run_efficient_at ok_status pass (m, f) k) as [m1 f1] eqn:E.
    destruct (IH m1 f1) as [H2 H1]. cbn zeta. rewrite H2. split.
    + rewrite filter_cons. unfold scrape in E. cbn [fst snd] in E.
      destruct (run_efficient_at pass k) eqn:Er; injection E as <- <-.
      * by rewrite decide_False.
      * rewrite decide_True by done. by rewrite <- app_assoc.
    + intros key. rewrite H1.
      assert (Hm1 : m1 = <[k := recorded ok_status (run_efficient_at pass k)]> m).
      { unfold scrape in E. cbn [fst snd] in E.
        by destruct (run_efficient_at pass k); injection E as <- <-. }
      destruct (decide (key ∈ l)) as [Hl | Hl].
      * rewrite decide_True; [done | by right].
      * destruct (decide (key = k)) as [-> | Hne].
        -- rewrite decide_True by left. by rewrite Hm1, lookup_insert_eq.
        -- rewrite decide_False.
           ++ by rewrite Hm1, lookup_insert_ne.
           ++ by intros [? | ?]%elem_of_cons.
Qed.

Lemma first_pass_spec cfg :
  pass_invariant (to_run cfg) 0%nat (first_pass run_efficient_at cfg).
Proof.
  unfold first_pass.
  destruct (scrape_pass_spec "success" 0 (to_run cfg) ∅ []) as [H2 H1].
  cbn zeta in *. split.
  - rewrite H2. cbn [app]. apply list_filter_iff. intros key.
    by rewrite raises_through_0.
  - intros key. rewrite H1. by case_match.
Qed.

Lemma retry_attempt_spec T k (s : gmap string scrape_result * list string) :
  pass_invariant T k s ->
  pass_invariant T (S k) (retry_attempt run_efficient_at s (S k)).
Proof.
  intros [H2 H1]. unfold retry_attempt. cbn zeta.
  destruct (scrape_pass_spec "success (retry)" (S k) s.2 s.1 []) as [G2 G1].
  cbn zeta in *. split.
  - rewrite G2, H2. cbn [app]. rewrite list_filter_filter.
    apply list_filter_iff. intros key. by rewrite raises_through_S.
  - intros key. rewrite G1, H1. cbn [recorded_after].
    destruct (decide (key ∈ s.2)) as [Hk | Hk]; rewrite H2 in Hk.
    + apply list_elem_of_filter in Hk as [Hr HT].
      by rewrite !decide_True.
    + destruct (decide (key ∈ T)) as [HT | HT]; [| done].
      rewrite decide_False; [done |]. intros Hr. apply Hk.
      by apply list_elem_of_filter.
Qed.

Lemma retry_passes_spec T n k (s : gmap string scrape_result * list string) :
  pass_invariant T k s ->
  pass_invariant T (k + n)%nat
    (foldl (retry_attempt run_efficient_at) s (seq (S k) n)).
Proof.
  revert k s. induction n as [|n IH]; intros k s Hs.
  - by rewrite Nat.add_0_r.
  - cbn [seq foldl]. replace (k + S n)%nat with (S k + n)%nat by lia.
    apply IH. by apply retry_attempt_spec.
Qed.

Lemma no_failure_stable T k (s : gmap string scrape_result * list string) j :
  s.2 = [] -> pass_invariant T k s -> pass_invariant T (k + j)%nat s.
Proof.
  intros Hnil. induction j as [|j IH]; intros Hs.
  - by rewrite Nat.add_0_r.
  - replace (k + S j)%nat with (S (k + j)) by lia.
    destruct (IH Hs) as [H2 H1].
    assert (Hno : forall key, key ∈ T -> ~ raises_through' key (k + j)).
    { intros key HT Hr.
      assert (Hin : key ∈ s.2) by (rewrite H2; by apply list_elem_of_filter).
      rewrite Hnil in Hin. by apply elem_of_nil in Hin. }
    split.
    + rewrite Hnil. symmetry.
      transitivity
        (filter (λ key, run_efficient_at (S (k + j)) key = None)
           (filter (λ key, raises_through' key (k + j)) T)).
      * rewrite list_filter_filter. apply list_filter_iff. intros key.
        by rewrite raises_through_S.
      * by rewrite <- H2, Hnil.
    + intros key. rewrite H1. cbn [recorded_after].
      destruct (decide (key ∈ T)) as [HT | HT]; [| done].
      rewrite decide_False; [done | by apply Hno].
Qed.

Lemma scrape_phase_spec cfg :
  pass_invariant (to_run cfg) (retry_bound cfg)
    (scrape_phase run_efficient_at cfg).
Proof.
  pose proof (first_pass_spec cfg) as H0. unfold scrape_phase, retry_bound.
  cbn zeta.
  destruct (first_pass run_efficient_at cfg) as [m [|key failed]].
  - exact (no_failure_stable _ 0 (m, []) _ eq_refl H0).
  - cbn [snd]. destruct (retry_failed cfg); [| exact H0].
    exact (retry_passes_spec _ _ 0 _ H0).
Qed.

Lemma recorded_after_raises key k :
  raises_through' key k ->
  recorded_after' key k = mk_scrape_result "failed" 0 0.
Proof.
  destruct k as [|k]; cbn [recorded_after].
  - intros H%raises_through_0. by rewrite H.
  - intros [H1 H2]%raises_through_S. rewrite decide_True by done.
    by rewrite H1.
Qed.

Lemma recorded_after_returns key k n results :
  (n <= k)%nat -> first_return' key n results ->
  recorded_after' key k
  = mk_scrape_result (match n with O => "success" | S _ => "success (retry)" end)
      (Z.of_nat (length results)) (Z.of_nat (length (available_of results))).
Proof.
  intros Hn [Hret Hbefore]. induction k as [|k IH]; cbn [recorded_after].
  - replace n with 0%nat in * by lia. by rewrite Hret.
  - destruct (decide (raises_through' key k)) as [Hr | Hr].
    + rewrite raises_through_spec in Hr.
      destruct (decide (n = S k)) as [-> | Hne]; [by rewrite Hret |].
      rewrite Hr in Hret by lia. discriminate.
    + apply IH. destruct (decide (n = S k)) as [-> | Hne]; [| lia].
      exfalso. apply Hr, raises_through_spec. intros j Hj. apply Hbefore. lia.
Qed.

Lemma raises_or_returns key k :
  raises_through' key k
  \/ exists n results, (n <= k)%nat /\ first_return' key n results.
Proof.
  induction k as [|k [IH | (n & results & Hn & Hf)]].
  - destruct (run_efficient_at 0%nat key) as [results|] eqn:E.
    + right. exists 0%nat, results. split; [lia |]. split; [exact E |].
      intros j Hj. lia.
    + left. by apply raises_through_0.
  - destruct (run_efficient_at (S k) key) as [results|] eqn:E.
    + right. exists (S k), results. split; [lia |]. split; [exact E |].
      intros j Hj. rewrite raises_through_spec in IH. apply IH. lia.
    + left. by apply raises_through_S.
  - right. exists n, results. split; [lia | exact Hf].
Qed.

Lemma first_return_not_raises key k n results :
  (n <= k)%nat -> first_return' key n results -> ~ raises_through' key k.
Proof.
  intros Hn [Hret _] Hr. rewrite raises_through_spec in Hr.
  rewrite Hr in Hret by exact Hn. discriminate.
Qed.

(** X27. What the scraping phase of the daily pipeline leaves behind.
    [scrape_results] has an entry for the scrapers to run and for no
    other key. A scraper whose [run_efficient] raises in the first pass
    and in every retry attempt the configuration allows is recorded as
    [failed] with no records, and these are the keys left in
    [failed_scrapers], in the order of [to_run]. Any other scraper is
    recorded with the record counts of the first pass in which its call
    returns, as [success] if that is the first pass and as
    [success (retry)] otherwise. *)
Theorem scrape_phase_records cfg :
  let out := scrape_phase run_efficient_at cfg in
  let bound := retry_bound cfg in
  out.2 = filter (λ key, raises_through' key bound) (to_run cfg)
  /\ forall key,
       (key ∉ to_run cfg -> out.1 !! key = None)
       /\ (key ∈ to_run cfg -> raises_through' key bound ->
           out.1 !! key = Some (mk_scrape_result "failed" 0 0))
       /\ (forall n results,
             key ∈ to_run cfg -> (n <= bound)%nat ->
             first_return' key n results ->
             out.1 !! key
             = Some (mk_scrape_result
                       (match n with
                        | O => "success"
                        | S _ => "success (retry)"
                        end)
                       (Z.of_nat (length results))
                       (Z.of_nat (length (available_of results))))).
Proof.
  intros out bound. destruct (scrape_phase_spec cfg) as [H2 H1].
  fold out bound in H2, H1. split; [exact H2 |].
  intros key. rewrite H1. split; [| split].
  - intros HT. by rewrite decide_False.
  - intros HT Hr. rewrite decide_True by done.
    by rewrite recorded_after_raises.
  - intros n results HT Hn Hf. rewrite decide_True by done.
    by rewrite (recorded_after_returns _ _ _ _ Hn Hf).
Qed.

Lemma elem_of_values (m : gmap string scrape_result) r :
  r ∈ values m <-> exists key, m !! key = Some r.
Proof.
  unfold values. rewrite list_elem_of_fmap. split.
  - intros ([key r'] & -> & H%elem_of_map_to_list). by exists key.
  - intros [key H]. exists (key, r). split; [done |].
    by apply elem_of_map_to_list.
Qed.

Lemma sum_bounds (l : list Z) :
  Forall (λ x, 0 <= x) l ->
  0 <= foldr Z.add 0 l /\ forall x, x ∈ l -> x <= foldr Z.add 0 l.
Proof.
  induction 1 as [|y l Hy Hl [IH0 IH]]; cbn [foldr].
  - split; [lia |]. by intros x ?%elem_of_nil.
  - split; [lia |]. intros x [-> | Hx%IH]%elem_of_cons; lia.
Qed.

Lemma sum_positive (l : list Z) :
  0 < foldr Z.add 0 l -> exists x, x ∈ l /\ 0 < x.
Proof.
  induction l as [|y l IH]; cbn [foldr]; [lia |]. intros H.
  destruct (Z.lt_ge_cases 0 y) as [Hy | Hy].
  - exists y. split; [left | exact Hy].
  - destruct IH as (x & Hx & H0); [lia |]. exists x. split; [by right | done].
Qed.

Lemma fail_count_zero (m : gmap string scrape_result) :
  fail_count m = 0
  <-> forall key r, m !! key = Some r -> sr_status r ≠ "failed".
Proof.
  unfold fail_count. split.
  - intros H key r Hr Hf.
    assert (Hin : r ∈ filter (λ r, sr_status r = "failed") (values m)).
    { apply list_elem_of_filter. split; [exact Hf |].
      apply elem_of_values. by exists key. }
    destruct (filter _ (values m)); [by apply elem_of_nil in Hin |].
    cbn [length] in H. lia.
  - intros H. destruct (filter _ (values m)) as [|r l] eqn:E; [done |].
    exfalso.
    assert (Hin : r ∈ filter (λ r, sr_status r = "failed") (values m))
      by (rewrite E; left).
    apply list_elem_of_filter in Hin as [Hf [key Hk]%elem_of_values].
    by eapply H.
Qed.

(** X28. The exit code of a real run of the daily pipeline (no dry run,
    scraping not skipped) is decided by the calls of [run_efficient]
    alone. It is 0 exactly when the call of every scraper to run returns
    in the first pass or in one of the retry attempts the configuration
    allows, whatever the scraper wrote to its own scrape log and also
    when it returned no record. Otherwise it is 2 when no call that
    returned gave a record, and 1 when one did. *)
Theorem run_pipeline_exit_code cfg :
  let code := run_pipeline run_efficient_at cfg false false in
  let bound := retry_bound cfg in
  let all_return :=
    forall key, key ∈ to_run cfg ->
      exists n, (n <= bound)%nat /\ is_Some (run_efficient_at n key) in
  let no_records :=
    forall key n results,
      key ∈ to_run cfg -> (n <= bound)%nat ->
      first_return' key n results -> results = [] in
  (code = EXIT_SUCCESS <-> all_return)
  /\ (code = EXIT_FATAL <-> ~ all_return /\ no_records)
  /\ (code = EXIT_PARTIAL <-> ~ all_return /\ ~ no_records).
Proof.
  intros code bound all_return no_records.
  destruct (scrape_phase_spec cfg) as [_ H1]. fold bound in H1.
  set (m := (scrape_phase run_efficient_at cfg).1) in *.
  assert (HA : fail_count m = 0 <-> all_return).
  { rewrite fail_count_zero. split.
    - intros H key HT.
      destruct (raises_or_returns key bound)
        as [Hr | (n & results & Hn & Hret & _)].
      + exfalso. apply (H key (recorded_after' key bound)).
        * by rewrite H1, decide_True.
        * by rewrite recorded_after_raises.
      + exists n. split; [exact Hn |]. rewrite Hret. eauto.
    - intros H key r Hk. rewrite H1 in Hk.
      destruct (decide (key ∈ to_run cfg)) as [HT |]; [| discriminate].
      injection Hk as <-. destruct (H key HT) as (n & Hn & Hsome).
      destruct (raises_or_returns key bound)
        as [Hr | (n' & results & Hn' & Hf)].
      + rewrite raises_through_spec in Hr. rewrite Hr in Hsome by exact Hn.
        by destruct Hsome.
      + rewrite (recorded_after_returns _ _ _ _ Hn' Hf). cbn.
        by destruct n'. }
  assert (Hnonneg : Forall (λ x, 0 <= x) (sr_records <$> values m)).
  { apply Forall_fmap, Forall_forall. intros r [key Hk]%elem_of_values.
    rewrite H1 in Hk. destruct (decide (key ∈ to_run cfg)); [| discriminate].
    injection Hk as <-.
    destruct (raises_or_returns key bound) as [Hr | (n & results & Hn & Hf)].
    - by rewrite recorded_after_raises.
    - rewrite (recorded_after_returns _ _ _ _ Hn Hf). cbn. lia. }
  assert (HB1 : 0 < total_records m -> ~ no_records).
  { intros (x & (r & -> & [key Hk]%elem_of_values)%list_elem_of_fmap & Hx)
      %sum_positive Hno.
    rewrite H1 in Hk. destruct (decide (key ∈ to_run cfg)) as [HT |];
      [| discriminate].
    injection Hk as <-.
    destruct (raises_or_returns key bound) as [Hr | (n & results & Hn & Hf)].
    - rewrite recorded_after_raises in Hx by exact Hr. cbn in Hx. lia.
    - rewrite (recorded_after_returns _ _ _ _ Hn Hf) in Hx.
      rewrite (Hno key n results HT Hn Hf) in Hx. cbn in Hx. lia. }
  assert (HB2 : total_records m <= 0 -> no_records).
  { intros Hle key n results HT Hn Hf.
    destruct (sum_bounds _ Hnonneg) as [_ Hmax].
    assert (Hin : Z.of_nat (length results) ∈ sr_records <$> values m).
    { apply list_elem_of_fmap. eexists. split; [| apply elem_of_values].
      2: { exists key. by rewrite H1, decide_True. }
      by rewrite (recorded_after_returns _ _ _ _ Hn Hf). }
    apply Hmax in Hin. fold (total_records m) in Hin.
    destruct results; [done | cbn [length] in Hin; lia]. }
  subst code. unfold run_pipeline, scrape_results_of. cbn [orb]. fold m.
  unfold EXIT_SUCCESS, EXIT_PARTIAL, EXIT_FATAL.
  destruct (Z.eqb_spec (fail_count m) 0) as [E | E].
  - apply HA in E. repeat split; try done; intros; tauto || lia.
  - assert (~ all_return) by (by rewrite <- HA).
    destruct (Z.ltb_spec 0 (total_records m)) as [Hlt | Hle].
    + apply HB1 in Hlt. repeat split; try done; intros; tauto || lia.
    + apply HB2 in Hle. repeat split; try done; intros; tauto || lia.
Qed.

End Pipeline.

(** ** The properties above on concrete inputs *)
Section ConcreteMore.
Import PyDatetime PyBuiltins Database BaseScraper Spec Examples.

(** The stay of the design document, captured twice on 2026-02-01: at
    07:00 and at 09:30. *)
Lemma save_price_repeat_same_day_witness :
  strftime_ymd day1 = strftime_ymd day1_later
  /\ size (prices
             (save_price day1_later "Test" "Test" "2026-01-01" "2026-01-04"
                (Some (100 # 1)%Q) true (Some 3) None 4 db_quote_100))
     = size (prices db_quote_100).
Proof.
  split; [reflexivity |].
  exact (proj1 (proj2 (save_price_repeat_same_day day1 day1_later "Test"
                         "Test" "2026-01-01" "2026-01-04" (Some (100 # 1)%Q)
                         true (Some 3) None 4 empty_db eq_refl))).
Defined.

(** The first window of the generator's result on Monday 2026-01-05. *)
Lemma generate_check_dates_anchor_witness :
  let w := mk_date_window 739628 739632 "midweek" 4 in
  generate_check_dates (ymd2ord 2026 1 5) (Some [7; 10]) None
  = Some windows_jan
  /\ w ∈ windows_jan
  /\ exists days_ahead cfg,
       days_ahead ∈ [7; 10]
       /\ (stay_type w, cfg) ∈ default_stay_types
       /\ ymd2ord 2026 1 5 + days_ahead <= check_in w
          <= ymd2ord 2026 1 5 + days_ahead + 6
       /\ dict_get (cfg_check_in_day cfg) day_map
          = Some (weekday (check_in w))
       /\ check_out w = check_in w + cfg_nights cfg.
Proof.
  intros w. split; [reflexivity |]. split; [left |].
  exact (generate_check_dates_anchor (ymd2ord 2026 1 5) (Some [7; 10]) None
           windows_jan w eq_refl (list_elem_of_here _ _)).
Defined.

(** Two offsets and three stay types give at most six windows. *)
Lemma generate_check_dates_covers_witness :
  generate_check_dates (ymd2ord 2026 1 5) (Some [7; 10]) None
  = Some windows_jan
  /\ (length windows_jan <= length [7; 10] * length default_stay_types)%nat.
Proof.
  split; [reflexivity |].
  exact (proj2 (generate_check_dates_covers (ymd2ord 2026 1 5) (Some [7; 10])
                  None windows_jan eq_refl)).
Defined.

(** The offsets 7 and 10 from 2026-01-05, with the default stay types,
    whose longest stay has seven nights. *)
Lemma generate_check_dates_returns_witness :
  0 <= 7
  /\ is_Some (generate_check_dates (ymd2ord 2026 1 5) (Some [7; 10]) None).
Proof.
  split; [lia |].
  apply (generate_check_dates_returns 7 (ymd2ord 2026 1 5) (Some [7; 10]) None);
    [lia | |].
  - repeat constructor; vm_compute; discriminate.
  - repeat constructor; vm_compute; eauto; discriminate.
Defined.

(** Three attempts on one window, each of which times out. *)
Lemma attempt_loop_every_attempt_raises_witness :
  1 <= self_max_retries beerze_bulten
  /\ errors
       (attempt_loop now_at time_at always_timeout beerze_bulten 4 0
          window_march (attempt_range beerze_bulten) run_start).2
     = errors run_start.2 + 1.
Proof.
  split; [by vm_compute |].
  exact (proj2 (proj2 (proj2
           (attempt_loop_every_attempt_raises now_at time_at always_timeout
              beerze_bulten 4 0 window_march run_start
              ltac:(by vm_compute) (λ _ _, eq_refl))))).
Defined.

(** A timeout on the first attempt, a quote on the second. *)
Lemma attempt_loop_stops_at_first_result_witness :
  second_attempt_returns 0 2 = Returned (Some quote_300)
  /\ fails (second_attempt_returns 0 1)
  /\ calls
       (attempt_loop now_at time_at second_attempt_returns beerze_bulten 4 0
          window_march (attempt_range beerze_bulten) run_start).2
     = calls run_start.2 ++ [(0%nat, 1%nat); (0%nat, 2%nat)].
Proof.
  split; [reflexivity |]. split; [by intros result |].
  refine (proj1 (attempt_loop_stops_at_first_result now_at time_at
                   second_attempt_returns beerze_bulten 4 0 window_march
                   quote_300 2 run_start _ _ eq_refl _)).
  - lia.
  - by vm_compute.
  - intros j Hj result. by replace j with 1%nat by lia.
Defined.

(** A request was stamped at 100 s and the clock still reads 100 s: the
    limiter sleeps for the whole 5 s, and the clock reads 105.2 s
    after. *)
Lemma wait_rate_limit_spacing_witness :
  (time_around_sleep 0 <= time_around_sleep 1)%Q
  /\ (w_last_request_time w_just_requested + self_rate_limit beerze_bulten
      <= w_last_request_time
           (_wait_rate_limit time_around_sleep beerze_bulten
              w_just_requested))%Q.
Proof.
  assert (H1 : (time_around_sleep 0 <= time_around_sleep 1)%Q)
    by (by vm_compute).
  split; [exact H1 |].
  refine (proj1 (wait_rate_limit_spacing time_around_sleep beerze_bulten
                   w_just_requested H1 _)).
  intros sleep [= <-]. by vm_compute.
Defined.

(** "27 feb" seen from 2026-01-05 at 10:30 is 2026-02-27. *)
Lemma resolve_date_upcoming_witness :
  let ref := mk_datetime 2026 1 5 10 30 0 0 in
  let c := mk_datetime 2026 2 27 0 0 0 0 in
  0 <= time_of_day ref < usec_per_day
  /\ toordinal ref <= toordinal c
  /\ BeerzeBultenScraper._resolve_date (code_points "27 feb") ref
     = BeerzeBultenScraper.Returns (Some "2026-02-27").
Proof.
  intros ref c.
  assert (H1 : 0 <= time_of_day ref < usec_per_day) by (by vm_compute).
  assert (H2 : toordinal ref <= toordinal c) by (by vm_compute).
  split; [exact H1 |]. split; [exact H2 |].
  exact (resolve_date_upcoming (code_points "27 feb") ref (code_points "27")
           (code_points "feb") 27 2 c H1 eq_refl eq_refl eq_refl eq_refl H2).
Defined.

(** A header whose day is 2^31, seen from 2026-01-05: the constructor
    raises [OverflowError], which leaves [_resolve_date]. *)
Lemma resolve_date_None_witness :
  let ref := mk_datetime 2026 1 5 0 0 0 0 in
  MINYEAR <= year ref <= MAXYEAR
  /\ BeerzeBultenScraper._resolve_date (code_points "2147483648 feb") ref
     = BeerzeBultenScraper.Raises.
Proof.
  intros ref.
  assert (H1 : MINYEAR <= year ref <= MAXYEAR) by (by vm_compute).
  split; [exact H1 |].
  apply (proj2 (resolve_date_None (code_points "2147483648 feb") ref H1)).
  exists (code_points "2147483648"), (code_points "feb").
  split; [reflexivity |]. right. exists 2147483648, 2.
  split; [reflexivity |]. split; [reflexivity |]. by vm_compute.
Defined.

(** The departure of 18-02-2026 after five nights is stored under
    2026-02-18. *)
Lemma departure_body_converts_date_witness :
  HolidayAgentScraper.dep_date departure_five_nights = dmy_text 2026 2 18
  /\ 5 ∈ [2; 3; 4; 5; 7]
  /\ exists r,
       HolidayAgentScraper.departure_body camping_ommerland 4
         (mk_datetime 2026 2 13 0 0 0 0) departure_five_nights
       = HolidayAgentScraper.Store r
       /\ rec_check_in_date r = "2026-02-13"
       /\ rec_check_out_date r = "2026-02-18"
       /\ rec_min_nights r = Some 5.
Proof.
  assert (H5 : 5 ∈ [2; 3; 4; 5; 7])
    by (do 3 apply list_elem_of_further; apply list_elem_of_here).
  split; [reflexivity |]. split; [exact H5 |].
  exact (departure_body_converts_date camping_ommerland 4
           (mk_datetime 2026 2 13 0 0 0 0) departure_five_nights 2026 2 18
           (mk_datetime 2026 2 18 0 0 0 0) 5 prices_280 3 eq_refl eq_refl
           eq_refl H5 eq_refl eq_refl).
Defined.

(** Three attempts on one window, each of which times out, under a clock
    that honours the two sleeps the limiter asks for. *)
Lemma run_stamps_spaced_witness :
  let ws :=
    window_limiter_calls now_at clock_three_attempts always_timeout
      beerze_bulten 4 0 [window_march]
      ((time_time clock_three_attempts w0).2, mk_run_locals [] 0 [] 1) in
  Forall (clock_honours clock_three_attempts beerze_bulten) ws
  /\ stamps clock_three_attempts beerze_bulten ws
     = [2001 # 2; 2011 # 2; 10106 # 10]%Q
  /\ spaced (self_rate_limit beerze_bulten)
       (w_last_request_time w0 :: stamps clock_three_attempts beerze_bulten ws).
Proof.
  intros ws.
  assert (Hws : Forall (clock_honours clock_three_attempts beerze_bulten) ws).
  { subst ws. cbn. repeat apply Forall_cons_2; [| | | apply Forall_nil_2];
      (split; [by vm_compute |]); intros sleep Hs; vm_compute in Hs;
      simplify_eq; by vm_compute. }
  split; [exact Hws |]. split; [reflexivity |].
  exact (proj1 (proj2 (run_stamps_spaced now_at clock_three_attempts
                         always_timeout beerze_bulten [window_march] 4 w0
                         Hws))).
Defined.

(** C6 as it is stated fails. The matrix adapter, built with a spacing
    of ten seconds, loads the detail page, waits its five seconds, parses
    the first page and calls the limiter six seconds after the start of
    the run; the scraper holds no instant of a request, because the page
    load went by the limiter, so the limiter asks for no sleep and the
    click on the next button follows. The run ends nine seconds after
    its start: the page load and the click are less than ten seconds
    apart. *)
Lemma matrix_click_follows_page_load :
  let out :=
    WitterZomerScraper.run_efficient now_at clock_one_click two_empty_pages
      next_is_clicked witter_zomer_slow 3 4 30 true w0 in
  two_empty_pages 1 = WitterZomerScraper.EvalData [] true
  /\ next_is_clicked 1 = WitterZomerScraper.Clicked
  /\ w_last_request_time w0 = 0%Q
  /\ w_sleeps out.2 = []
  /\ w_last_request_time out.2 = clock_one_click 3
  /\ exists row duration,
       scrape_log (w_db out.2) = [row]
       /\ log_status row = "success"
       /\ log_duration_seconds row = Some duration
       /\ (duration == 9 # 1)%Q
       /\ (duration < self_rate_limit witter_zomer_slow)%Q.
Proof.
  intros out. do 5 (split; [reflexivity |]).
  eexists _, _. split; [reflexivity |]. split; [reflexivity |].
  split; [reflexivity |]. split; by vm_compute.
Qed.

End ConcreteMore.
